(** * EarningsRadar: the scraping and aggregation pipeline

    A shallow embedding of [earnings_scraper.py], [news_scraper.py] and the
    ticker, date and frame helpers of [utils.py].

    Conventions of the embedding.
    - Text is [string]; the Python string methods the scrapers use
      ([strip], [lower], [upper], [in], [startswith], [endswith], [split],
      [replace], [len], [isalpha]) and the classes [\d] and [\s] of [re]
      are written out over the ASCII range.  They agree with Python's on
      text whose characters are all below 128; the properties that depend
      on white space, digits, case or length are stated for such text.
    - A Python exception is a value: a computation that may raise has type
      [result A], a [try ... except Exception] is a [match] on it.
    - [datetime.now()], the fetched and parsed pages, the article
      downloader and [time.tzname] are the environment of a run, gathered
      in [World].  One reading of the clock stands for every
      [datetime.now()] of the run: the run is taken not to cross midnight
      between two readings that are compared as dates.
    - [datetime.strptime] is embedded from CPython's [_strptime.py]: the
      format is turned into a backtracking regular expression, the first
      match is taken and must consume the whole text.
    - [pd.to_datetime] on the [date] column of the news frame raises on
      what pandas cannot hold in one column: naive and aware datetimes
      together, two different UTC offsets, a date outside the range of
      nanosecond timestamps.
    - Logging and [time.sleep] have no effect on any value and are left out. *)

From Stdlib Require Import ZArith List String Ascii Bool Lia.
From Stdlib Require Import DecimalString DecimalZ DecimalPos.
From Stdlib Require Import Permutation Sorted.
Import ListNotations.

Local Open Scope string_scope.
Local Open Scope Z_scope.
Local Open Scope list_scope.

(* ================================================================== *)
(** ** Exceptions *)

Inductive exn : Type :=
| ValueError
| TypeError
| AttributeError
| OverflowError
| RequestException.

Inductive result (A : Type) : Type :=
| Ok (a : A)
| Raise (e : exn).

Arguments Ok {A} a.
Arguments Raise {A} e.

Definition bind {A B : Type} (m : result A) (k : A -> result B) : result B :=
  match m with
  | Ok a => k a
  | Raise e => Raise e
  end.

Notation "x <- m ;; k" := (bind m (fun x => k))
  (at level 61, m at next level, right associativity).

(** [if cond: ... else raise e] *)
Definition require (cond : bool) (e : exn) : result unit :=
  if cond then Ok tt else Raise e.

(* ================================================================== *)
(** ** Text

    A text is the sequence of its characters, each of them an [ascii].
    The classes of characters below are those of ASCII: [isspace] and
    [isdigit] leave out the Unicode spaces (U+00A0, U+0085, ...) and
    decimal digits that [str.strip], [\s], [\d] and [int] also accept,
    the case maps move the letters A-Z and a-z only, and [len] counts one
    for each [ascii].  On a text whose characters are all below 128 each
    function is the Python one. *)

Module Text.

Definition code (c : ascii) : Z := Z.of_N (N_of_ascii c).

Definition between (lo hi : Z) (c : ascii) : bool :=
  (lo <=? code c) && (code c <=? hi).

(** [str.isspace] on one ASCII character: TAB..CR, FS..US and the space. *)
Definition isspace (c : ascii) : bool :=
  between 9 13 c || between 28 32 c.

(** The digits 0-9. *)
Definition isdigit (c : ascii) : bool := between 48 57 c.
Definition is_upper_letter (c : ascii) : bool := between 65 90 c.
Definition is_lower_letter (c : ascii) : bool := between 97 122 c.

Definition lower_char (c : ascii) : ascii :=
  if is_upper_letter c then ascii_of_N (N_of_ascii c + 32) else c.

Definition upper_char (c : ascii) : ascii :=
  if is_lower_letter c then ascii_of_N (N_of_ascii c - 32) else c.

Fixpoint map_chars (f : ascii -> ascii) (s : string) : string :=
  match s with
  | EmptyString => EmptyString
  | String c t => String (f c) (map_chars f t)
  end.

Definition lower : string -> string := map_chars lower_char.
Definition upper : string -> string := map_chars upper_char.

(** [len(s)], for an ASCII text. *)
Definition len (s : string) : Z := Z.of_nat (String.length s).

(** Truth value of a Python string. *)
Definition nonempty (s : string) : bool :=
  match s with
  | EmptyString => false
  | String _ _ => true
  end.

Fixpoint lstrip (s : string) : string :=
  match s with
  | EmptyString => EmptyString
  | String c t => if isspace c then lstrip t else s
  end.

Fixpoint rstrip (s : string) : string :=
  match s with
  | EmptyString => EmptyString
  | String c t =>
      match rstrip t with
      | EmptyString => if isspace c then EmptyString else String c EmptyString
      | r => String c r
      end
  end.

(** [s.strip()], for an ASCII text. *)
Definition strip (s : string) : string := rstrip (lstrip s).

Fixpoint startswith (p s : string) : bool :=
  match p, s with
  | EmptyString, _ => true
  | String a p', String b s' => Ascii.eqb a b && startswith p' s'
  | String _ _, EmptyString => false
  end.

(** [needle in s] *)
Fixpoint contains (needle s : string) : bool :=
  startswith needle s ||
  match s with
  | EmptyString => false
  | String _ t => contains needle t
  end.

Fixpoint drop (n : nat) (s : string) : string :=
  match n, s with
  | O, _ => s
  | S n', String _ t => drop n' t
  | S _, EmptyString => EmptyString
  end.

Fixpoint take (n : nat) (s : string) : string :=
  match n, s with
  | O, _ => EmptyString
  | S n', String c t => String c (take n' t)
  | S _, EmptyString => EmptyString
  end.

Definition endswith (suffix s : string) : bool :=
  (String.length suffix <=? String.length s)%nat &&
  String.eqb (drop (String.length s - String.length suffix) s) suffix.

(** [s[:-len(suffix)]] for a non-empty [suffix]. *)
Definition drop_last (n : nat) (s : string) : string :=
  take (String.length s - n) s.

(** [s.replace(c, '')] for a one-character [c]. *)
Fixpoint remove_char (c : ascii) (s : string) : string :=
  match s with
  | EmptyString => EmptyString
  | String a t => if Ascii.eqb a c then remove_char c t else String a (remove_char c t)
  end.

(** [s.split(c)[-1]]: what follows the last [c], or all of [s]. *)
Fixpoint after_last (c : ascii) (s : string) : string :=
  match s with
  | EmptyString => EmptyString
  | String a t =>
      if Ascii.eqb a c
      then after_last c t
      else if contains (String c EmptyString) t then after_last c t else s
  end.

(** [int(s)] on a run of decimal digits. *)
Fixpoint int_acc (acc : Z) (s : string) : Z :=
  match s with
  | EmptyString => acc
  | String c t => int_acc (10 * acc + (code c - 48)) t
  end.

Definition int_of_digits (s : string) : Z := int_acc 0 s.

(** The longest run of digits at the head of [s]. *)
Fixpoint digit_run (s : string) : string :=
  match s with
  | EmptyString => EmptyString
  | String c t => if isdigit c then String c (digit_run t) else EmptyString
  end.

(** [re.search(r'(\d+)', s)] on an ASCII text: the first maximal run of
    digits, if any. *)
Fixpoint search_digits (s : string) : option string :=
  match s with
  | EmptyString => None
  | String c t => if isdigit c then Some (digit_run s) else search_digits t
  end.

Fixpoint all_chars (p : ascii -> bool) (s : string) : bool :=
  match s with
  | EmptyString => true
  | String c t => p c && all_chars p t
  end.

(** [str.isalpha]: at least one character, and letters only. *)
Definition isalpha (s : string) : bool :=
  nonempty s && all_chars (fun c => is_upper_letter c || is_lower_letter c) s.

End Text.

(* ================================================================== *)
(** ** Calendar arithmetic ([datetime.py]) *)

Module Calendar.

Definition MINYEAR : Z := 1.
Definition MAXYEAR : Z := 9999.
Definition MAXORDINAL : Z := 3652059.

Definition _is_leap (year : Z) : bool :=
  (year mod 4 =? 0) && (negb (year mod 100 =? 0) || (year mod 400 =? 0)).

Definition _days_before_year (year : Z) : Z :=
  let y := year - 1 in
  y * 365 + y / 4 - y / 100 + y / 400.

Definition _DAYS_IN_MONTH (month : Z) : Z :=
  match month with
  | 1 => 31 | 2 => 28 | 3 => 31 | 4 => 30 | 5 => 31 | 6 => 30
  | 7 => 31 | 8 => 31 | 9 => 30 | 10 => 31 | 11 => 30 | 12 => 31
  | _ => -1
  end.

Definition _DAYS_BEFORE_MONTH (month : Z) : Z :=
  match month with
  | 1 => 0 | 2 => 31 | 3 => 59 | 4 => 90 | 5 => 120 | 6 => 151
  | 7 => 181 | 8 => 212 | 9 => 243 | 10 => 273 | 11 => 304 | 12 => 334
  | _ => -1
  end.

Definition _days_in_month (year month : Z) : Z :=
  if (month =? 2) && _is_leap year then 29 else _DAYS_IN_MONTH month.

Definition _days_before_month (year month : Z) : Z :=
  _DAYS_BEFORE_MONTH month + (if (2 <? month) && _is_leap year then 1 else 0).

Definition _ymd2ord (year month day : Z) : Z :=
  _days_before_year year + _days_before_month year month + day.

Definition _DI400Y : Z := 146097.
Definition _DI100Y : Z := 36524.
Definition _DI4Y : Z := 1461.

Definition _ord2ymd (n0 : Z) : Z * Z * Z :=
  let n := n0 - 1 in
  let n400 := n / _DI400Y in
  let n := n mod _DI400Y in
  let year := n400 * 400 + 1 in
  let n100 := n / _DI100Y in
  let n := n mod _DI100Y in
  let n4 := n / _DI4Y in
  let n := n mod _DI4Y in
  let n1 := n / 365 in
  let n := n mod 365 in
  let year := year + n100 * 100 + n4 * 4 + n1 in
  if (n1 =? 4) || (n100 =? 4) then (year - 1, 12, 31)
  else
    let leapyear := (n1 =? 3) && (negb (n4 =? 24) || (n100 =? 3)) in
    let month := Z.shiftr (n + 50) 5 in
    let preceding :=
      _DAYS_BEFORE_MONTH month + (if (2 <? month) && leapyear then 1 else 0) in
    if n <? preceding
    then
      let month := month - 1 in
      let preceding :=
        preceding -
        (_DAYS_IN_MONTH month + (if (month =? 2) && leapyear then 1 else 0)) in
      (year, month, n - preceding + 1)
    else (year, month, n - preceding + 1).

(** [datetime.date] *)
Record date : Type := mkdate { year : Z; month : Z; day : Z }.

(** [datetime.datetime]; [tzinfo] is the UTC offset in microseconds of an
    aware value and [None] for a naive one. *)
Record datetime : Type := mkdatetime {
  dt_year : Z;
  dt_month : Z;
  dt_day : Z;
  dt_hour : Z;
  dt_minute : Z;
  dt_second : Z;
  dt_microsecond : Z;
  tzinfo : option Z
}.

(** [datetime.timedelta], as its total number of microseconds. *)
Definition timedelta : Type := Z.

Definition US_PER_SECOND : Z := 1000000.
Definition US_PER_DAY : Z := 86400 * US_PER_SECOND.

(** [timedelta.days]: Python normalises with floor division. *)
Definition days (td : timedelta) : Z := td / US_PER_DAY.

Definition _check_date_fields (y m d : Z) : bool :=
  (MINYEAR <=? y) && (y <=? MAXYEAR) &&
  (1 <=? m) && (m <=? 12) &&
  (1 <=? d) && (d <=? _days_in_month y m).

Definition _check_time_fields (H M S us : Z) : bool :=
  (0 <=? H) && (H <=? 23) && (0 <=? M) && (M <=? 59) &&
  (0 <=? S) && (S <=? 59) && (0 <=? us) && (us <=? 999999).

(** [timezone(offset)]: strictly between -24h and 24h. *)
Definition _check_tzinfo (tz : option Z) : bool :=
  match tz with
  | None => true
  | Some off => (- US_PER_DAY <? off) && (off <? US_PER_DAY)
  end.

(** The [date(...)] constructor. *)
Definition date_new (y m d : Z) : result date :=
  if _check_date_fields y m d then Ok (mkdate y m d) else Raise ValueError.

(** The [datetime(...)] constructor. *)
Definition datetime_new (y m d H M S us : Z) (tz : option Z) : result datetime :=
  if _check_date_fields y m d && _check_time_fields H M S us && _check_tzinfo tz
  then Ok (mkdatetime y m d H M S us tz)
  else Raise ValueError.

Definition toordinal (d : date) : Z := _ymd2ord (year d) (month d) (day d).

(** [datetime.date()] *)
Definition date_of (dt : datetime) : date :=
  mkdate (dt_year dt) (dt_month dt) (dt_day dt).

(** Microseconds from the start of ordinal day 0 to the wall-clock reading. *)
Definition wall_us (dt : datetime) : Z :=
  ((_ymd2ord (dt_year dt) (dt_month dt) (dt_day dt) * 86400
    + dt_hour dt * 3600 + dt_minute dt * 60 + dt_second dt) * US_PER_SECOND)
  + dt_microsecond dt.

(** The same instant on the UTC time line. *)
Definition utc_us (dt : datetime) : Z :=
  match tzinfo dt with
  | None => wall_us dt
  | Some off => wall_us dt - off
  end.

(** [a - b] on dates, as a number of days. *)
Definition date_sub (a b : date) : timedelta :=
  (toordinal a - toordinal b) * US_PER_DAY.

(** [a - b] on datetimes: naive with naive, aware with aware. *)
Definition datetime_sub (a b : datetime) : result timedelta :=
  match tzinfo a, tzinfo b with
  | None, None => Ok (wall_us a - wall_us b)
  | Some _, Some _ => Ok (utc_us a - utc_us b)
  | _, _ => Raise TypeError
  end.

(** [timedelta(days=d, hours=h, minutes=m)] *)
Definition timedelta_new (d h m : Z) : result timedelta :=
  let td := ((d * 24 + h) * 60 + m) * 60 * US_PER_SECOND in
  if (-999999999 <=? days td) && (days td <=? 999999999)
  then Ok td
  else Raise OverflowError.

(** The datetime with a given wall-clock reading. *)
Definition of_wall_us (us : Z) (tz : option Z) : datetime :=
  let ord := us / US_PER_DAY in
  let rest := us mod US_PER_DAY in
  let '(y, m, d) := _ord2ymd ord in
  let secs := rest / US_PER_SECOND in
  mkdatetime y m d (secs / 3600) ((secs mod 3600) / 60) (secs mod 60)
             (rest mod US_PER_SECOND) tz.

(** [dt - td] *)
Definition datetime_sub_timedelta (dt : datetime) (td : timedelta) : result datetime :=
  let us := wall_us dt - td in
  let ord := us / US_PER_DAY in
  if (0 <? ord) && (ord <=? MAXORDINAL)
  then Ok (of_wall_us us (tzinfo dt))
  else Raise OverflowError.

(** [dt + td] *)
Definition datetime_add_timedelta (dt : datetime) (td : timedelta) : result datetime :=
  datetime_sub_timedelta dt (- td).

(** [dt.replace(year=y)] *)
Definition replace_year (dt : datetime) (y : Z) : result datetime :=
  datetime_new y (dt_month dt) (dt_day dt) (dt_hour dt) (dt_minute dt)
               (dt_second dt) (dt_microsecond dt) (tzinfo dt).

Definition date_eqb (a b : date) : bool :=
  (year a =? year b) && (month a =? month b) && (day a =? day b).

(** [str(n)] for an integer. *)
Definition str_int (n : Z) : string := NilZero.string_of_int (Z.to_int n).

(** The conversions [%m] and [%d] of [strftime]: two digits. *)
Definition pad2 (n : Z) : string :=
  let s := str_int n in
  if (String.length s <? 2)%nat then String "0" s else s.

(** [d.strftime(format)] for the conversions the helpers use, [%Y], [%m]
    and [%d]; the year is printed without padding, as the C library of
    Linux prints it. *)
Fixpoint strftime (d : date) (format : string) : string :=
  match format with
  | EmptyString => EmptyString
  | String c t =>
      if Ascii.eqb c "%" then
        match t with
        | String conv t' =>
            append
              (if Ascii.eqb conv "Y" then str_int (year d)
               else if Ascii.eqb conv "m" then pad2 (month d)
               else if Ascii.eqb conv "d" then pad2 (day d)
               else String c (String conv EmptyString))
              (strftime d t')
        | EmptyString => String c EmptyString
        end
      else String c (strftime d t)
  end.

(** The month and day that [_ord2ymd] computes from the day [n] of the
    year (from 0) and the leap flag. *)
Definition month_day (n : Z) (leapyear : bool) : Z * Z :=
  let month := Z.shiftr (n + 50) 5 in
  let preceding :=
    _DAYS_BEFORE_MONTH month + (if (2 <? month) && leapyear then 1 else 0) in
  if n <? preceding
  then
    let month := month - 1 in
    let preceding :=
      preceding -
      (_DAYS_IN_MONTH month + (if (month =? 2) && leapyear then 1 else 0)) in
    (month, n - preceding + 1)
  else (month, n - preceding + 1).

(** [a <= b] on datetimes: naive with naive, aware with aware. *)
Definition datetime_le (a b : datetime) : result bool :=
  match tzinfo a, tzinfo b with
  | None, None => Ok (wall_us a <=? wall_us b)
  | Some _, Some _ => Ok (utc_us a <=? utc_us b)
  | _, _ => Raise TypeError
  end.

End Calendar.

(* ================================================================== *)
(** ** [datetime.strptime] ([_strptime.py], C locale) *)

Module Strptime.

Import Text Calendar.

(** The fragment of [re] syntax that [TimeRE] produces. *)
Inductive regex : Type :=
| Eps
| Char (p : ascii -> bool)
| Seq (a b : regex)
| Alt (a b : regex)
| Plus (p : ascii -> bool)
| Group (name : ascii) (r : regex).

(** [Match.groupdict()], most recent group first. *)
Definition groupdict : Type := list (ascii * string).

(** What is left of the text after one or more characters of the class [p],
    the longest run first (the quantifier is greedy). *)
Fixpoint plus_matches (p : ascii -> bool) (s : string) : list string :=
  match s with
  | EmptyString => []
  | String c t => if p c then plus_matches p t ++ [t] else []
  end.

(** All the ways [r] matches a prefix of [s], in the order in which a
    backtracking matcher tries them. *)
Fixpoint rmatch (r : regex) (caps : groupdict) (s : string)
  : list (groupdict * string) :=
  match r with
  | Eps => [(caps, s)]
  | Char p =>
      match s with
      | String c t => if p c then [(caps, t)] else []
      | EmptyString => []
      end
  | Seq a b => flat_map (fun st => rmatch b (fst st) (snd st)) (rmatch a caps s)
  | Alt a b => rmatch a caps s ++ rmatch b caps s
  | Plus p => map (fun rest => (caps, rest)) (plus_matches p s)
  | Group n r0 =>
      map (fun st =>
             ((n, take (String.length s - String.length (snd st)) s) :: fst st,
              snd st))
          (rmatch r0 caps s)
  end.

(** A literal character under [re.IGNORECASE]. *)
Definition ci (c : ascii) : regex :=
  Char (fun x => Ascii.eqb (lower_char x) (lower_char c)).

(** A literal character, case-sensitive. *)
Definition cs (c : ascii) : regex := Char (Ascii.eqb c).

Definition range (lo hi : ascii) : regex := Char (between (code lo) (code hi)).

Definition digit : regex := Char isdigit.

Definition opt (r : regex) : regex := Alt r Eps.

Fixpoint seqs (rs : list regex) : regex :=
  match rs with
  | [] => Eps
  | [r] => r
  | r :: rs' => Seq r (seqs rs')
  end.

Fixpoint alts (rs : list regex) : regex :=
  match rs with
  | [] => Char (fun _ => false)
  | [r] => r
  | r :: rs' => Alt r (alts rs')
  end.

Fixpoint lit (s : string) : regex :=
  match s with
  | EmptyString => Eps
  | String c t => Seq (ci c) (lit t)
  end.

(** [sorted(to_convert, key=len, reverse=True)] *)
Fixpoint insert_by_len (x : string) (l : list string) : list string :=
  match l with
  | [] => [x]
  | y :: l' =>
      if (String.length y <? String.length x)%nat
      then x :: l
      else y :: insert_by_len x l'
  end.

Definition sorted_by_len (l : list string) : list string :=
  fold_right insert_by_len [] l.

Definition __seqToRE (to_convert : list string) (directive : ascii) : regex :=
  Group directive (alts (map lit (sorted_by_len to_convert))).

(** [LocaleTime] of the C locale, in a process whose time zone is UTC. *)
Definition f_weekday : list string :=
  ["monday"; "tuesday"; "wednesday"; "thursday"; "friday"; "saturday"; "sunday"].
Definition a_weekday : list string :=
  ["mon"; "tue"; "wed"; "thu"; "fri"; "sat"; "sun"].
Definition f_month : list string :=
  [""; "january"; "february"; "march"; "april"; "may"; "june"; "july";
   "august"; "september"; "october"; "november"; "december"].
Definition a_month : list string :=
  [""; "jan"; "feb"; "mar"; "apr"; "may"; "jun"; "jul"; "aug"; "sep"; "oct";
   "nov"; "dec"].

(** The names [%Z] reads: [utc], [gmt] and those under which the process
    knows its own time zone ([tzname], in lower case). *)
Definition timezone_names (tzname : list string) : list string :=
  ["utc"; "gmt"] ++ tzname.

(** The table of [TimeRE.__init__], for the directives the scrapers use. *)
Definition directive_re (tzname : list string) (d : ascii) : option regex :=
  match d with
  | "d"%char =>
      Some (Group d (alts [Seq (cs "3") (range "0" "1");
                           Seq (range "1" "2") digit;
                           Seq (cs "0") (range "1" "9");
                           range "1" "9";
                           Seq (cs " ") (range "1" "9")]))
  | "H"%char =>
      Some (Group d (alts [Seq (cs "2") (range "0" "3");
                           Seq (range "0" "1") digit;
                           digit]))
  | "m"%char =>
      Some (Group d (alts [Seq (cs "1") (range "0" "2");
                           Seq (cs "0") (range "1" "9");
                           range "1" "9"]))
  | "M"%char =>
      Some (Group d (alts [Seq (range "0" "5") digit; digit]))
  | "S"%char =>
      Some (Group d (alts [Seq (cs "6") (range "0" "1");
                           Seq (range "0" "5") digit;
                           digit]))
  | "y"%char => Some (Group d (seqs [digit; digit]))
  | "Y"%char => Some (Group d (seqs [digit; digit; digit; digit]))
  | "z"%char =>
      let frac :=
        Seq (cs ".")
            (Seq digit (opt (Seq digit (opt (Seq digit (opt (Seq digit
              (opt (Seq digit (opt digit)))))))))) in
      Some (Group d
        (Alt (seqs [Char (fun c => Ascii.eqb c "+" || Ascii.eqb c "-");
                    digit; digit; opt (cs ":"); range "0" "5"; digit;
                    opt (seqs [opt (cs ":"); range "0" "5"; digit; opt frac])])
             (cs "Z")))
  | "A"%char => Some (__seqToRE f_weekday d)
  | "a"%char => Some (__seqToRE a_weekday d)
  | "B"%char => Some (__seqToRE (tl f_month) d)
  | "b"%char => Some (__seqToRE (tl a_month) d)
  | "Z"%char => Some (__seqToRE (timezone_names tzname) d)
  | _ => None
  end.

(** [TimeRE.pattern]: a run of white space in the format becomes [\s+], a
    directive its regular expression, any other character itself. *)
Fixpoint pattern_from (tzname : list string) (in_space : bool) (format : string)
  : option regex :=
  match format with
  | EmptyString => Some Eps
  | String c t =>
      if isspace c then
        if in_space then pattern_from tzname true t
        else option_map (Seq (Plus isspace)) (pattern_from tzname true t)
      else if Ascii.eqb c "%" then
        match t with
        | EmptyString => None
        | String d t' =>
            match directive_re tzname d, pattern_from tzname false t' with
            | Some r, Some rest => Some (Seq r rest)
            | _, _ => None
            end
        end
      else option_map (Seq (ci c)) (pattern_from tzname false t)
  end.

Definition pattern_in (tzname : list string) : string -> option regex :=
  pattern_from tzname false.

(** The pattern of a format without [%Z], in which the names of the
    process's time zone play no part. *)
Definition pattern : string -> option regex := pattern_in [].

(** The values gathered from the groups. *)
Record fields : Type := mkfields {
  f_year : option Z;
  f_month_no : Z;
  f_day : Z;
  f_hour : Z;
  f_minute : Z;
  f_second : Z;
  f_gmtoff : option Z
}.

Definition fields0 : fields := mkfields None 1 1 0 0 0 None.

Fixpoint index_from (i : Z) (x : string) (l : list string) : Z :=
  match l with
  | [] => i
  | y :: l' => if String.eqb x y then i else index_from (i + 1) x l'
  end.

(** [l.index(x)] for an [x] that occurs in [l]. *)
Definition index (x : string) (l : list string) : Z := index_from 0 x l.

Fixpoint skip_spaces (s : string) : string :=
  match s with
  | String " " t => skip_spaces t
  | _ => s
  end.

(** [int(s)] on the text of a group or a slice of it: one or more digits,
    after a space in the one group ([%d]) that can start with it; anything
    else here (a colon, a dot, nothing at all) is a [ValueError]. *)
Definition py_int (s : string) : result Z :=
  let s' := skip_spaces s in
  if nonempty s' && String.eqb (digit_run s') s'
  then Ok (int_of_digits s')
  else Raise ValueError.

(** [s[a:b]] *)
Definition slice (a b : nat) (s : string) : string := take (b - a) (drop a s).

(** The [%z] branch of [_strptime], with the offset in microseconds. *)
Definition gmtoff_of (z0 : string) : result Z :=
  if String.eqb z0 "Z" then Ok 0
  else
    z <- (if String.eqb (slice 3 4 z0) ":" then
            let z1 := append (slice 0 3 z0) (drop 4 z0) in
            if (5 <? String.length z1)%nat then
              if String.eqb (slice 5 6 z1) ":"
              then Ok (append (slice 0 5 z1) (drop 6 z1))
              else Raise ValueError
            else Ok z1
          else Ok z0) ;;
    hours <- py_int (slice 1 3 z) ;;
    minutes <- py_int (slice 3 5 z) ;;
    seconds <- (if nonempty (slice 5 7 z) then py_int (slice 5 7 z) else Ok 0) ;;
    let gmtoff := hours * 60 * 60 + minutes * 60 + seconds in
    let gmtoff_remainder := drop 8 z in
    gmtoff_fraction <-
      py_int (append gmtoff_remainder
                     (take (6 - String.length gmtoff_remainder) "000000")) ;;
    let total := gmtoff * US_PER_SECOND + gmtoff_fraction in
    Ok (if startswith "-" z then - total else total).

(** One turn of the loop over [found_dict]. *)
Definition convert_group (f : fields) (g : ascii * string) : result fields :=
  let v := snd g in
  let set_year y := mkfields (Some y) (f_month_no f) (f_day f) (f_hour f)
                             (f_minute f) (f_second f) (f_gmtoff f) in
  let set_month m := mkfields (f_year f) m (f_day f) (f_hour f)
                              (f_minute f) (f_second f) (f_gmtoff f) in
  match fst g with
  | "y"%char =>
      y <- py_int v ;;
      Ok (set_year (if y <=? 68 then y + 2000 else y + 1900))
  | "Y"%char => y <- py_int v ;; Ok (set_year y)
  | "m"%char => m <- py_int v ;; Ok (set_month m)
  | "B"%char => Ok (set_month (index (lower v) f_month))
  | "b"%char => Ok (set_month (index (lower v) a_month))
  | "d"%char =>
      d <- py_int v ;;
      Ok (mkfields (f_year f) (f_month_no f) d (f_hour f)
                   (f_minute f) (f_second f) (f_gmtoff f))
  | "H"%char =>
      h <- py_int v ;;
      Ok (mkfields (f_year f) (f_month_no f) (f_day f) h
                   (f_minute f) (f_second f) (f_gmtoff f))
  | "M"%char =>
      m <- py_int v ;;
      Ok (mkfields (f_year f) (f_month_no f) (f_day f) (f_hour f)
                   m (f_second f) (f_gmtoff f))
  | "S"%char =>
      s <- py_int v ;;
      Ok (mkfields (f_year f) (f_month_no f) (f_day f) (f_hour f)
                   (f_minute f) s (f_gmtoff f))
  | "z"%char =>
      off <- gmtoff_of v ;;
      Ok (mkfields (f_year f) (f_month_no f) (f_day f) (f_hour f)
                   (f_minute f) (f_second f) (Some off))
  | _ => Ok f
  end.

Fixpoint convert_groups (f : fields) (found_dict : groupdict) : result fields :=
  match found_dict with
  | [] => Ok f
  | g :: rest => f' <- convert_group f g ;; convert_groups f' rest
  end.

(** [_strptime] followed by [_strptime_datetime], in a process that knows
    its time zone under the names [tzname].  A zone name read by [%Z] does
    not make the datetime aware. *)
Definition strptime_in (tzname : list string) (data_string format : string)
  : result datetime :=
  match pattern_in tzname format with
  | None => Raise ValueError
  | Some format_regex =>
      match rmatch format_regex [] data_string with
      | [] => Raise ValueError
      | (found, rest) :: _ =>
          if nonempty rest then Raise ValueError
          else
            f <- convert_groups fields0 (rev found) ;;
            let leap_year_fix :=
              match f_year f with
              | None => (f_month_no f =? 2) && (f_day f =? 29)
              | Some _ => false
              end in
            let year :=
              match f_year f with
              | Some y => y
              | None => if leap_year_fix then 1904 else 1900
              end in
            _ <- date_new year (f_month_no f) (f_day f) ;;
            datetime_new (if leap_year_fix then 1900 else year)
                         (f_month_no f) (f_day f)
                         (f_hour f) (f_minute f) (f_second f) 0 (f_gmtoff f)
      end
  end.

(** [datetime.strptime] for a format without [%Z]: the result is the same
    in every process. *)
Definition strptime : string -> string -> result datetime := strptime_in [].

End Strptime.

(* ================================================================== *)
(** ** What a scraper sees of a fetched document (BeautifulSoup) *)

Module Soup.

(** An [<a>] element: [get_text(strip=True)], [get('title')], [get('href')]. *)
Record Anchor : Type := mkAnchor {
  a_text : string;
  a_title : option string;
  a_href : option string
}.

(** A [<td>]: its stripped text, its [colspan] attribute and the first [<a>]
    below it ([find('a')]). *)
Record Cell : Type := mkCell {
  text : string;
  colspan : option string;
  a : option Anchor
}.

(** [row.find_all('td')] and [table.find_all('tr')]. *)
Definition Row : Type := list Cell.
Definition Table : Type := list Row.

(** A news block of the Yahoo quote page: the first [<a>], the [<h3>] and
    [<h2>] headings and the date [<span>], each if present. *)
Record YahooItem : Type := mkYahooItem {
  y_a : option Anchor;
  y_h3 : option string;
  y_h2 : option string;
  y_date : option string
}.

(** An [article__content] block of MarketWatch: the [<a class="link">] and
    the [article__timestamp] span. *)
Record MarketWatchItem : Type := mkMarketWatchItem {
  mw_link : option Anchor;
  mw_timestamp : option string
}.

(** An RSS [<item>]: the stripped text of its [title], [link] and [pubDate]
    children, each if present. *)
Record RssItem : Type := mkRssItem {
  rss_title : option string;
  rss_link : option string;
  rss_pubDate : option string
}.

(** [elem.get_text(strip=True)] on the result of [find]: [None] has no such
    method. *)
Definition get_text (elem : option string) : result string :=
  match elem with
  | Some s => Ok s
  | None => Raise AttributeError
  end.

(** Truth value of an optional string ([None] and [''] are false). *)
Definition truthy (s : option string) : bool :=
  match s with
  | Some s' => Text.nonempty s'
  | None => false
  end.

End Soup.

(** What [newspaper.Article] extracts. *)
Record ArticleData : Type := mkArticleData {
  art_text : string;
  art_summary : string;
  art_authors : list string;
  art_publish_date : option Calendar.datetime
}.

(** The environment of one run: the clock, the answer of every source and of
    the article downloader, and the names of the process's time zone.  A
    failed request or parse is a [Raise].  One reading of the clock, [now],
    stands for every [datetime.now()] of the run; [yahoo_calendar] takes
    [days_ahead] because the query it answers is built from it; [tzname]
    holds [time.tzname] in lower case (the second name only where the zone
    has daylight saving time). *)
Record World : Type := mkWorld {
  now : Calendar.datetime;
  finviz_calendar : result (option Soup.Table);
  investing_calendar : result (option Soup.Table);
  yahoo_calendar : Z -> result (list Soup.Table);
  marketwatch_calendar : result (list Soup.Table);
  yahoo_news : string -> result (list Soup.YahooItem);
  marketwatch_news : string -> result (list Soup.MarketWatchItem);
  google_news : string -> result (list Soup.RssItem);
  newspaper : string -> result ArticleData;
  tzname : list string
}.

(** The [for fmt in formats: try: return ... except ValueError: continue]
    loop shared by the three date parsers: the first format whose attempt
    succeeds; an exception other than [ValueError] leaves the loop. *)
Fixpoint first_format {A : Type} (attempt : string -> result A)
         (formats : list string) : result (option A) :=
  match formats with
  | [] => Ok None
  | fmt :: rest =>
      match attempt fmt with
      | Ok v => Ok (Some v)
      | Raise ValueError => first_format attempt rest
      | Raise e => Raise e
      end
  end.

(* ================================================================== *)
(** ** [pandas]: the frame operations of the aggregators

    A [DataFrame] is the list of its rows, the empty frame the empty list.
    [drop_duplicates] and [sort_values] are embedded by what pandas
    documents for them.  [to_datetime] is [pd.to_datetime] on a column of
    [datetime] objects, which pandas converts to nanosecond timestamps: it
    raises [ValueError] for a column that mixes naive datetimes with aware
    ones, and for a datetime outside the range of such a timestamp.  Aware
    datetimes of different UTC offsets are refused likewise, as the pandas
    releases that raise on mixed time zones do; earlier releases keep such
    a column as objects, and the properties of the news table are stated
    so as to hold under either.  The earnings frame holds plain dates;
    there the conversion is the sort key of the rows. *)

Module Pandas.

Section Frame.

Context {R K : Type}.
Variable key : R -> K.
Variable key_eqb : K -> K -> bool.

(** [df.drop_duplicates(subset=key, keep='first')]: a row is kept when its
    key has not been seen in an earlier row. *)
Fixpoint drop_duplicates_from (seen : list K) (rows : list R) : list R :=
  match rows with
  | [] => []
  | r :: rest =>
      if existsb (key_eqb (key r)) seen
      then drop_duplicates_from seen rest
      else r :: drop_duplicates_from (key r :: seen) rest
  end.

Definition drop_duplicates (rows : list R) : list R :=
  drop_duplicates_from [] rows.

(** The first row of [rows] that carries the key of [r]. *)
Definition first_with_key (r : R) (rows : list R) : option R :=
  find (fun x => key_eqb (key x) (key r)) rows.

End Frame.

(** Order of two sort keys; a missing value ([NaT]) goes last in either
    direction. *)
Definition before (ascending : bool) (x y : option Z) : bool :=
  match x, y with
  | Some a, Some b => if ascending then a <=? b else b <=? a
  | Some _, None => true
  | None, Some _ => false
  | None, None => true
  end.

Section Sort.

Context {R : Type}.
Variable by_ : R -> option Z.
Variable ascending : bool.

Fixpoint insert_row (r : R) (sorted : list R) : list R :=
  match sorted with
  | [] => [r]
  | x :: rest =>
      if before ascending (by_ r) (by_ x)
      then r :: sorted
      else x :: insert_row r rest
  end.

(** [df.sort_values(by, ascending=...)].  pandas fixes no order among rows
    with equal keys; nothing proved below depends on the one chosen here. *)
Definition sort_values (rows : list R) : list R :=
  fold_right insert_row [] rows.

(** [x] may stand before [y] in the sorted frame. *)
Definition in_order (x y : R) : Prop :=
  before ascending (by_ x) (by_ y) = true.

End Sort.

(** Microseconds from the start of ordinal day 0 to 1970-01-01, and the
    largest distance from it, in microseconds, that a nanosecond timestamp
    holds. *)
Definition EPOCH_US : Z := 719163 * Calendar.US_PER_DAY.
Definition NS_BOUND_US : Z := 9223372036854775.

(** The datetime fits a nanosecond timestamp. *)
Definition in_bounds (d : Calendar.datetime) : bool :=
  let us := Calendar.utc_us d - EPOCH_US in
  (- NS_BOUND_US <=? us) && (us <=? NS_BOUND_US).

(** Two naive datetimes, or two aware ones with the same UTC offset. *)
Definition same_zone (a b : Calendar.datetime) : bool :=
  match Calendar.tzinfo a, Calendar.tzinfo b with
  | None, None => true
  | Some x, Some y => x =? y
  | _, _ => false
  end.

Section Convert.

Context {R : Type}.
Variable date_column : R -> option Calendar.datetime.

(** The conversion goes through the column once; [found] is the first
    datetime met so far, with which the later ones must agree. *)
Fixpoint convertible (found : option Calendar.datetime) (df : list R) : bool :=
  match df with
  | [] => true
  | r :: rest =>
      match date_column r with
      | None => convertible found rest
      | Some d =>
          in_bounds d &&
          match found with
          | None => convertible (Some d) rest
          | Some d0 => same_zone d0 d && convertible found rest
          end
      end
  end.

(** [df['date'] = pd.to_datetime(df['date'])] *)
Definition to_datetime (df : list R) : result (list R) :=
  if convertible None df then Ok df else Raise ValueError.

End Convert.

End Pandas.

(* ================================================================== *)
(** ** [utils.py] *)

Module Utils.

Import Text.

(** The body of [for suffix in suffixes: if ticker.endswith(suffix): ...]. *)
Definition strip_suffix (ticker suffix : string) : string :=
  if endswith suffix ticker
  then drop_last (String.length suffix) ticker
  else ticker.

Definition clean_ticker (ticker : string) : string :=
  if negb (nonempty ticker) then ""
  else
    let ticker := strip (upper ticker) in
    let suffixes := ["-USD"; "-US"; ".US"; ".TO"; ".L"] in
    let ticker := fold_left strip_suffix suffixes ticker in
    remove_char "." ticker.

Definition validate_ticker (ticker : string) : bool :=
  if negb (nonempty ticker) then false
  else
    let ticker := clean_ticker ticker in
    if (len ticker <? 1) || (5 <? len ticker) then false
    else if negb (isalpha ticker) then false
    else true.

(** [any(word in time_lower for word in words)] *)
Definition any_in (words : list string) (time_lower : string) : bool :=
  existsb (fun word => contains word time_lower) words.

Definition get_earnings_time_category (time_str : string) : string :=
  if negb (nonempty time_str) then "Unknown"
  else
    let time_lower := lower time_str in
    if any_in ["pre"; "before"; "am"] time_lower then "Pre-market"
    else if any_in ["after"; "close"; "pm"] time_lower then "After-hours"
    else if any_in ["during"; "market"; "open"] time_lower then "Market hours"
    else "Unknown".

(** What the date helpers are handed: a missing value ([None], [NaN],
    [NaT]), a string, or an object with [year], [month], [day] and
    [strftime] (a date, a datetime, a Timestamp). *)
Inductive Value : Type :=
| Missing
| Str (s : string)
| Date (d : Calendar.date).

(** [strftime] does not fail on a date, so the bare [except] has nothing to
    catch. *)
Definition format_date (date_obj : Value) : string :=
  match date_obj with
  | Missing => ""
  | Str s => s
  | Date d => Calendar.strftime d "%Y-%m-%d"
  end.

Section Parsed.

(** [pd.to_datetime] on a string: the date it reads, [None] for [NaT], or
    the exception it raises. *)
Variable pd_to_datetime : string -> result (option Calendar.date).

(** The quarter label of a month and a year, [None] standing for the [nan]
    that [NaT.month] and [NaT.year] are. *)
Definition quarter_label (date_obj : option Calendar.date) : string :=
  match date_obj with
  | Some d =>
      let month := Calendar.month d in
      let year := Calendar.str_int (Calendar.year d) in
      if existsb (Z.eqb month) [1; 2; 3] then append "Q1 " year
      else if existsb (Z.eqb month) [4; 5; 6] then append "Q2 " year
      else if existsb (Z.eqb month) [7; 8; 9] then append "Q3 " year
      else append "Q4 " year
  | None => "Q4 nan"
  end.

Definition get_quarter_from_date (date_obj : Value) : string :=
  match date_obj with
  | Missing => ""
  | Str s =>
      match pd_to_datetime s with
      | Ok parsed => quarter_label parsed
      | Raise _ => ""
      end
  | Date d => quarter_label (Some d)
  end.

End Parsed.

Section Frame.

Context {R : Type}.

(** The [date] column of a frame, [None] for [NaT]. *)
Variable date_column : R -> option Calendar.datetime.

(** [df['date'] >= cutoff_date], row by row: [NaT] compares false, a naive
    stamp does not compare with an aware one. *)
Fixpoint rows_since (cutoff_date : Calendar.datetime) (df : list R)
  : result (list R) :=
  match df with
  | [] => Ok []
  | r :: rest =>
      keep <- match date_column r with
              | Some d => Calendar.datetime_le cutoff_date d
              | None => Ok false
              end ;;
      kept <- rows_since cutoff_date rest ;;
      Ok (if keep then r :: kept else kept)
  end.

Definition filter_recent_dates (w : World) (df : list R) (days : Z)
  : result (list R) :=
  match df with
  | [] => Ok df
  | _ =>
      td <- Calendar.timedelta_new days 0 0 ;;
      cutoff_date <- Calendar.datetime_sub_timedelta (now w) td ;;
      rows_since cutoff_date df
  end.

End Frame.

End Utils.

(* ================================================================== *)
(** ** [earnings_scraper.py] *)

Module EarningsScraper.

Import Text Soup.

(** One row of the earnings table (a dict with these five keys). *)
Record EarningsRecord : Type := mkEarningsRecord {
  ticker : string;
  company : string;
  date : Calendar.date;
  time : string;
  source : string
}.

(** [datetime.now().date()] *)
Definition today (w : World) : Calendar.date := Calendar.date_of (now w).

(** [timedelta(days=n)] *)
Definition days_delta (n : Z) : result Calendar.timedelta :=
  Calendar.timedelta_new n 0 0.

(** The [formats] list of [_parse_date]. *)
Definition parse_date_formats : list string :=
  ["%Y-%m-%d"; "%m/%d/%Y"; "%m/%d/%y"; "%b %d, %Y"; "%B %d, %Y";
   "%d %b %Y"; "%d %B %Y"].

(** The [try] block of [_parse_date]: the date it returns, [None] when it
    falls through, or the exception that leaves it. *)
Definition parse_date_try (w : World) (date_str : string)
  : result (option Calendar.date) :=
  let date_str := strip date_str in
  parsed <- first_format
              (fun fmt => d <- Strptime.strptime date_str fmt ;;
                          Ok (Calendar.date_of d))
              parse_date_formats ;;
  match parsed with
  | Some d => Ok (Some d)
  | None =>
      if contains "today" (lower date_str) then Ok (Some (today w))
      else if contains "tomorrow" (lower date_str) then
        td <- days_delta 1 ;;
        d <- Calendar.datetime_add_timedelta (now w) td ;;
        Ok (Some (Calendar.date_of d))
      else if contains "yesterday" (lower date_str) then
        td <- days_delta 1 ;;
        d <- Calendar.datetime_sub_timedelta (now w) td ;;
        Ok (Some (Calendar.date_of d))
      else Ok None
  end.

Definition _parse_date (w : World) (date_str : string) : option Calendar.date :=
  match parse_date_try w date_str with
  | Ok (Some d) => Some d
  | Ok None => None
  | Raise _ => None
  end.

Definition is_ordinal_suffix (c1 c2 : ascii) : bool :=
  let s := String c1 (String c2 EmptyString) in
  String.eqb s "st" || String.eqb s "nd" || String.eqb s "rd" || String.eqb s "th".

(** [re.sub(r'(\d+)(st|nd|rd|th)', r'\1', s)]: the two letters are dropped
    where they directly follow a run of digits. *)
Fixpoint sub_ordinals (after_digit : bool) (s : string) : string :=
  match s with
  | EmptyString => EmptyString
  | String c t =>
      if isdigit c then String c (sub_ordinals true t)
      else
        match t with
        | String c' t' =>
            if after_digit && is_ordinal_suffix c c'
            then sub_ordinals false t'
            else String c (sub_ordinals false t)
        | EmptyString => String c EmptyString
        end
  end.

(** The [formats] list of [_parse_finviz_date]. *)
Definition finviz_formats : list string :=
  ["%A, %B %d"; "%B %d"; "%m/%d/%Y"; "%Y-%m-%d"].

(** The [try] block of [_parse_finviz_date]. *)
Definition parse_finviz_date_try (w : World) (date_str : string)
  : result (option Calendar.date) :=
  let date_str := strip date_str in
  let date_str := sub_ordinals false date_str in
  let current_year := Calendar.dt_year (now w) in
  first_format
    (fun fmt =>
       parsed_date <- Strptime.strptime date_str fmt ;;
       parsed_date <- (if Calendar.dt_year parsed_date =? 1900
                       then Calendar.replace_year parsed_date current_year
                       else Ok parsed_date) ;;
       Ok (Calendar.date_of parsed_date))
    finviz_formats.

Definition _parse_finviz_date (w : World) (date_str : string)
  : option Calendar.date :=
  match parse_finviz_date_try w date_str with
  | Ok (Some d) => Some d
  | Ok None => Some (today w)
  | Raise _ => Some (today w)
  end.

(** [(d - datetime.now().date()).days <= days_ahead] *)
Definition within_days_ahead (w : World) (d : Calendar.date) (days_ahead : Z) : bool :=
  Calendar.days (Calendar.date_sub d (today w)) <=? days_ahead.

(** The body of the loop over the rows of the Finviz calendar; the state is
    [current_date] and the records gathered so far. *)
Definition finviz_row (w : World) (days_ahead : Z)
           (st : option Calendar.date * list EarningsRecord) (cells : Row)
  : option Calendar.date * list EarningsRecord :=
  let '(current_date, earnings) := st in
  let is_header :=
    match cells with
    | [c] => truthy (colspan c)
    | _ => false
    end in
  if is_header then
    match cells with
    | c :: _ => (_parse_finviz_date w (text c), earnings)
    | [] => st
    end
  else
    match cells, current_date with
    | c0 :: c1 :: c2 :: _, Some cur =>
        match a c1 with
        | Some ticker_elem =>
            let ticker := a_text ticker_elem in
            let company := text c2 in
            let time_str := text c0 in
            if nonempty ticker && within_days_ahead w cur days_ahead
            then (current_date,
                  earnings ++ [mkEarningsRecord ticker company cur time_str "Finviz"])
            else st
        | None => st
        end
    | _, _ => st
    end.

Definition _scrape_finviz_earnings (w : World) (days_ahead : Z)
  : list EarningsRecord :=
  match finviz_calendar w with
  | Ok (Some rows) => snd (fold_left (finviz_row w days_ahead) rows (None, []))
  | Ok None => []
  | Raise _ => []
  end.

(** The body of the loop over the rows of a Yahoo calendar table.  [today_]
    is the reading taken at the head of [_scrape_yahoo_finance_api]; the
    test of each row reads the clock again, here through [World]'s one
    reading. *)
Definition yahoo_row (w : World) (today_ : Calendar.datetime) (days_ahead : Z)
           (earnings : list EarningsRecord) (cells : Row) : list EarningsRecord :=
  match cells with
  | c0 :: c1 :: c2 :: _ :: _ =>
      match a c0 with
      | Some ticker_link =>
          let ticker := a_text ticker_link in
          let company := text c1 in
          let time_str := text c2 in
          let earnings_date := Calendar.date_of today_ in
          if nonempty ticker && within_days_ahead w earnings_date days_ahead
          then earnings ++
               [mkEarningsRecord ticker company earnings_date time_str "Yahoo Finance"]
          else earnings
      | None => earnings
      end
  | _ => earnings
  end.

Definition _scrape_yahoo_finance_api (w : World) (days_ahead : Z)
  : list EarningsRecord :=
  let today_ := now w in
  let fetched : result (list Table) :=
    td <- days_delta days_ahead ;;
    end_date <- Calendar.datetime_add_timedelta today_ td ;;
    yahoo_calendar w days_ahead in
  match fetched with
  | Ok tables =>
      fold_left
        (fun earnings table => fold_left (yahoo_row w today_ days_ahead) (tl table) earnings)
        tables []
  | Raise _ => []
  end.

(** The ticker of an Investing.com row: the parenthesised tail of the link
    title, else the text of the first cell when it has at most five
    characters. *)
Definition investing_ticker (company_link : Anchor) (c0 : Cell) : string :=
  let title :=
    match a_title company_link with
    | Some t => t
    | None => ""
    end in
  let ticker :=
    if contains "(" title then remove_char ")" (after_last "(" title) else "" in
  if nonempty ticker then ticker
  else
    let ticker_text := text c0 in
    if nonempty ticker_text && (len ticker_text <=? 5) then ticker_text else ticker.

(** The body of the loop over the rows of the Investing.com table.  Each
    row reads [datetime.now().date()] for its record, here through
    [World]'s one reading. *)
Definition investing_row (w : World) (earnings : list EarningsRecord) (cells : Row)
  : list EarningsRecord :=
  match cells with
  | c0 :: c1 :: c2 :: _ :: _ =>
      match a c1 with
      | Some company_link =>
          let company := a_text company_link in
          let ticker := investing_ticker company_link c0 in
          let time_str := text c2 in
          let earnings_date := today w in
          if nonempty ticker && nonempty company
          then earnings ++
               [mkEarningsRecord ticker company earnings_date time_str "Investing.com"]
          else earnings
      | None => earnings
      end
  | _ => earnings
  end.

Definition _scrape_investing_earnings (w : World) (days_ahead : Z)
  : list EarningsRecord :=
  match investing_calendar w with
  | Ok (Some rows) => fold_left (investing_row w) (tl rows) []
  | Ok None => []
  | Raise _ => []
  end.

(** The body of the loop over the rows of a MarketWatch table; the date of
    a record is read from the clock as in [investing_row]. *)
Definition marketwatch_row (w : World) (earnings : list EarningsRecord) (cells : Row)
  : list EarningsRecord :=
  match cells with
  | ticker_cell :: company_cell :: c2 :: _ =>
      let ticker :=
        match a ticker_cell with
        | Some ticker_link => a_text ticker_link
        | None => text ticker_cell
        end in
      let company := text company_cell in
      let time_str := text c2 in
      let earnings_date := today w in
      if nonempty ticker && nonempty company
      then earnings ++
           [mkEarningsRecord ticker company earnings_date time_str "MarketWatch"]
      else earnings
  | _ => earnings
  end.

Definition _scrape_marketwatch_earnings (w : World) (days_ahead : Z)
  : list EarningsRecord :=
  match marketwatch_calendar w with
  | Ok tables =>
      fold_left
        (fun earnings table => fold_left (marketwatch_row w) (tl table) earnings)
        tables []
  | Raise _ => []
  end.

(** A registered source: called with [days_ahead], it returns its records
    or raises. *)
Definition Adapter : Type := Z -> result (list EarningsRecord).

(** The loop of [get_earnings_calendar] over [sources]. *)
Fixpoint collect (sources : list Adapter) (days_ahead : Z)
         (all_earnings : list EarningsRecord) : list EarningsRecord :=
  match sources with
  | [] => all_earnings
  | source_func :: rest =>
      match source_func days_ahead with
      | Ok earnings =>
          collect rest days_ahead
                  (match earnings with
                   | [] => all_earnings
                   | _ => all_earnings ++ earnings
                   end)
      | Raise _ => collect rest days_ahead all_earnings
      end
  end.

(** What a source adds to [all_earnings]: its records, nothing when it
    raised. *)
Definition contribution (days_ahead : Z) (source_func : Adapter)
  : list EarningsRecord :=
  match source_func days_ahead with
  | Ok earnings => earnings
  | Raise _ => []
  end.

(** The source that returns nothing where [source_func] raises. *)
Definition contained (source_func : Adapter) : Adapter :=
  fun days_ahead =>
    match source_func days_ahead with
    | Ok earnings => Ok earnings
    | Raise _ => Ok []
    end.

(** The columns [['ticker', 'date']] of a row. *)
Definition dedup_key (r : EarningsRecord) : string * Calendar.date :=
  (ticker r, date r).

Definition dedup_key_eqb (k1 k2 : string * Calendar.date) : bool :=
  String.eqb (fst k1) (fst k2) && Calendar.date_eqb (snd k1) (snd k2).

(** [pd.to_datetime] on the [date] column: midnight of that day, kept here
    as the day's ordinal. *)
Definition to_datetime (r : EarningsRecord) : option Z :=
  Some (Calendar.toordinal (date r)).

(** [get_earnings_calendar], for any list of sources.  The empty
    [DataFrame] is the empty list of rows. *)
Definition get_earnings_calendar_from (sources : list Adapter) (days_ahead : Z)
  : result (list EarningsRecord) :=
  let all_earnings := collect sources days_ahead [] in
  match all_earnings with
  | [] => Ok []
  | _ =>
      let df := Pandas.drop_duplicates dedup_key dedup_key_eqb all_earnings in
      let df := Pandas.sort_values to_datetime true df in
      Ok df
  end.

(** The literal [sources] list of the method. *)
Definition sources (w : World) : list Adapter :=
  [ (fun d => Ok (_scrape_finviz_earnings w d));
    (fun d => Ok (_scrape_investing_earnings w d));
    (fun d => Ok (_scrape_yahoo_finance_api w d));
    (fun d => Ok (_scrape_marketwatch_earnings w d)) ].

Definition get_earnings_calendar (w : World) (days_ahead : Z)
  : result (list EarningsRecord) :=
  get_earnings_calendar_from (sources w) days_ahead.

(** No format of [_parse_date] matches [date_str] and none of its relative
    words occurs in it. *)
Definition unparseable (date_str : string) : Prop :=
  first_format (fun fmt => d <- Strptime.strptime (strip date_str) fmt ;;
                           Ok (Calendar.date_of d))
               parse_date_formats = Ok None /\
  contains "today" (lower (strip date_str)) = false /\
  contains "tomorrow" (lower (strip date_str)) = false /\
  contains "yesterday" (lower (strip date_str)) = false.

(** A record with a ticker. *)
Definition has_ticker (r : EarningsRecord) : Prop := ticker r <> "".

(** A record with a ticker, dated no later than [days_ahead] days from
    today. *)
Definition timely (w : World) (days_ahead : Z) (r : EarningsRecord) : Prop :=
  ticker r <> "" /\
  Calendar.toordinal (date r) <= Calendar.toordinal (today w) + days_ahead.

End EarningsScraper.

(* ================================================================== *)
(** ** [news_scraper.py] *)

Module NewsScraper.

Import Text Soup.

(** One row of the news table (a dict with these seven keys). *)
Record NewsArticle : Type := mkNewsArticle {
  ticker : string;
  title : string;
  url : string;
  date : option Calendar.datetime;
  summary : string;
  full_text : string;
  source : string
}.

(** A computation that hands URLs to the content extractor: its value and
    the URLs of the [_parse_article] calls it made, in order. *)
Definition Eff (A : Type) : Type := (A * list string)%type.

Definition ret {A : Type} (x : A) : Eff A := (x, []).

Definition and_then {A B : Type} (m : Eff A) (k : A -> Eff B) : Eff B :=
  let '(x, calls1) := m in
  let '(y, calls2) := k x in
  (y, calls1 ++ calls2).

Definition value {A : Type} (m : Eff A) : A := fst m.
Definition calls {A : Type} (m : Eff A) : list string := snd m.

Definition empty_article : ArticleData := mkArticleData "" "" [] None.

Definition _parse_article (w : World) (url_ : string) : Eff ArticleData :=
  (match newspaper w url_ with
   | Ok article => article
   | Raise _ => empty_article
   end,
   [url_]).

(** [int(re.search(r'(\d+)', date_str).group(1))] *)
Definition first_number (date_str : string) : result Z :=
  match search_digits date_str with
  | Some digits => Ok (int_of_digits digits)
  | None => Raise AttributeError
  end.

(** The [formats] list of [_parse_news_date]. *)
Definition formats : list string :=
  ["%Y-%m-%d %H:%M:%S"; "%Y-%m-%d"; "%m/%d/%Y %H:%M:%S"; "%m/%d/%Y";
   "%b %d, %Y %H:%M:%S"; "%B %d, %Y %H:%M:%S"; "%b %d, %Y"; "%B %d, %Y";
   "%a, %d %b %Y %H:%M:%S %Z"; "%a, %d %b %Y %H:%M:%S %z"].

(** The [try] block of [_parse_news_date]: the datetime it returns, [None]
    when it falls through, or the exception that leaves it. *)
Definition parse_news_date_try (w : World) (date_str : string)
  : result (option Calendar.datetime) :=
  let date_str := strip date_str in
  parsed <- first_format (Strptime.strptime_in (tzname w) date_str) formats ;;
  match parsed with
  | Some d => Ok (Some d)
  | None =>
      if contains "hour" (lower date_str) then
        hours <- first_number date_str ;;
        td <- Calendar.timedelta_new 0 hours 0 ;;
        d <- Calendar.datetime_sub_timedelta (now w) td ;;
        Ok (Some d)
      else if contains "day" (lower date_str) then
        days <- first_number date_str ;;
        td <- Calendar.timedelta_new days 0 0 ;;
        d <- Calendar.datetime_sub_timedelta (now w) td ;;
        Ok (Some d)
      else if contains "minute" (lower date_str) then
        minutes <- first_number date_str ;;
        td <- Calendar.timedelta_new 0 0 minutes ;;
        d <- Calendar.datetime_sub_timedelta (now w) td ;;
        Ok (Some d)
      else Ok None
  end.

Definition _parse_news_date (w : World) (date_str : string)
  : option Calendar.datetime :=
  if negb (nonempty date_str) then Some (now w)
  else
    match parse_news_date_try w date_str with
    | Ok (Some d) => Some d
    | Ok None => Some (now w)
    | Raise _ => Some (now w)
    end.

(** The [for item in ...: try: ... articles.append(...)] loop of an
    adapter: [body] yields the article to append, or [None] where the
    source says [continue]. *)
Fixpoint for_each {I : Type} (body : I -> Eff (option NewsArticle))
         (items : list I) (articles : list NewsArticle) : Eff (list NewsArticle) :=
  match items with
  | [] => ret articles
  | item :: rest =>
      and_then (body item) (fun appended =>
        for_each body rest
                 (match appended with
                  | Some article => articles ++ [article]
                  | None => articles
                  end))
  end.

(** The article dict built after the content has been extracted. *)
Definition make_article (w : World) (ticker_ title_ url_ : string)
           (date_ : option Calendar.datetime) (source_ : string)
  : Eff (option NewsArticle) :=
  and_then (_parse_article w url_) (fun article_data =>
    ret (Some (mkNewsArticle ticker_ title_ url_ date_
                             (art_summary article_data)
                             (art_text article_data) source_))).

Definition yahoo_item (w : World) (ticker_ : string) (item : YahooItem)
  : Eff (option NewsArticle) :=
  match y_a item with
  | None => ret None
  | Some link_elem =>
      let article_url := a_href link_elem in
      let article_url :=
        match article_url with
        | Some u =>
            if nonempty u && startswith "/" u
            then Some (append "https://finance.yahoo.com" u)
            else article_url
        | None => None
        end in
      let title_ :=
        match y_h3 item, y_h2 item with
        | Some t, _ => t
        | None, Some t => t
        | None, None => ""
        end in
      let date_str :=
        match y_date item with
        | Some s => s
        | None => ""
        end in
      match article_url with
      | Some u =>
          if nonempty title_ && nonempty u
          then make_article w ticker_ title_ u (_parse_news_date w date_str)
                            "Yahoo Finance"
          else ret None
      | None => ret None
      end
  end.

Definition _get_yahoo_news (w : World) (ticker_ : string) (days_back : Z)
  : Eff (list NewsArticle) :=
  match yahoo_news w ticker_ with
  | Ok news_items => for_each (yahoo_item w ticker_) (firstn 5 news_items) []
  | Raise _ => ret []
  end.

Definition marketwatch_item (w : World) (ticker_ : string) (item : MarketWatchItem)
  : Eff (option NewsArticle) :=
  match mw_link item with
  | None => ret None
  | Some link_elem =>
      let article_url := a_href link_elem in
      let article_url :=
        match article_url with
        | Some u =>
            if nonempty u && negb (startswith "http" u)
            then Some (append "https://www.marketwatch.com" u)
            else article_url
        | None => None
        end in
      let title_ := a_text link_elem in
      let date_str :=
        match mw_timestamp item with
        | Some s => s
        | None => ""
        end in
      match article_url with
      | Some u =>
          if nonempty title_ && nonempty u
          then make_article w ticker_ title_ u (_parse_news_date w date_str)
                            "MarketWatch"
          else ret None
      | None => ret None
      end
  end.

Definition _get_marketwatch_news (w : World) (ticker_ : string) (days_back : Z)
  : Eff (list NewsArticle) :=
  match marketwatch_news w ticker_ with
  | Ok news_items => for_each (marketwatch_item w ticker_) (firstn 5 news_items) []
  | Raise _ => ret []
  end.

(** [article_date and (datetime.now() - article_date).days > days_back] *)
Definition too_old (w : World) (article_date : option Calendar.datetime)
           (days_back : Z) : result bool :=
  match article_date with
  | None => Ok false
  | Some d =>
      age <- Calendar.datetime_sub (now w) d ;;
      Ok (days_back <? Calendar.days age)
  end.

Definition google_item (w : World) (ticker_ : string) (days_back : Z)
           (item : RssItem) : Eff (option NewsArticle) :=
  let before_extraction : result (option (string * string * option Calendar.datetime)) :=
    title_ <- get_text (rss_title item) ;;
    link <- get_text (rss_link item) ;;
    pub_date <- get_text (rss_pubDate item) ;;
    let article_date := _parse_news_date w pub_date in
    skip <- too_old w article_date days_back ;;
    Ok (if skip then None else Some (title_, link, article_date)) in
  match before_extraction with
  | Ok (Some (title_, link, article_date)) =>
      make_article w ticker_ title_ link article_date "Google News"
  | Ok None => ret None
  | Raise _ => ret None
  end.

Definition _get_google_news (w : World) (ticker_ : string) (days_back : Z)
  : Eff (list NewsArticle) :=
  match google_news w ticker_ with
  | Ok items => for_each (google_item w ticker_ days_back) (firstn 3 items) []
  | Raise _ => ret []
  end.

(** A registered news source: called with a ticker and [days_back], it
    returns its articles or raises, having made some extractor calls. *)
Definition Source : Type := string -> Z -> Eff (result (list NewsArticle)).

(** The loop of [_get_ticker_news] over [sources]. *)
Fixpoint ticker_news_loop (sources : list Source) (ticker_ : string)
         (days_back : Z) (articles : list NewsArticle) : Eff (list NewsArticle) :=
  match sources with
  | [] => ret articles
  | source_func :: rest =>
      and_then (source_func ticker_ days_back) (fun outcome =>
        ticker_news_loop rest ticker_ days_back
                         (match outcome with
                          | Ok source_articles => articles ++ source_articles
                          | Raise _ => articles
                          end))
  end.

(** What a source adds to [articles]: its articles, nothing when it
    raised. *)
Definition contribution (ticker_ : string) (days_back : Z) (source_func : Source)
  : list NewsArticle :=
  match value (source_func ticker_ days_back) with
  | Ok source_articles => source_articles
  | Raise _ => []
  end.

(** The source that returns nothing where [source_func] raises, after the
    same extractor calls. *)
Definition contained (source_func : Source) : Source :=
  fun ticker_ days_back =>
    and_then (source_func ticker_ days_back) (fun outcome =>
      ret (match outcome with
           | Ok source_articles => Ok source_articles
           | Raise _ => Ok []
           end)).

Definition _get_ticker_news_from (sources : list Source) (ticker_ : string)
           (days_back : Z) : Eff (list NewsArticle) :=
  ticker_news_loop sources ticker_ days_back [].

(** The loop of [get_news_for_tickers] over [tickers]. *)
Fixpoint tickers_loop (sources : list Source) (tickers : list string)
         (days_back : Z) (all_articles : list NewsArticle) : Eff (list NewsArticle) :=
  match tickers with
  | [] => ret all_articles
  | ticker_ :: rest =>
      and_then (_get_ticker_news_from sources ticker_ days_back) (fun articles =>
        tickers_loop sources rest days_back (all_articles ++ articles))
  end.

(** The value of the converted [date] column in a row: the wall-clock
    reading of a naive datetime, the instant on the UTC time line of an
    aware one, [NaT] for [None].  A converted column holds datetimes of one
    kind only. *)
Definition timestamp (article : NewsArticle) : option Z :=
  option_map Calendar.utc_us (date article).

(** [get_news_for_tickers], for any list of sources. *)
Definition get_news_for_tickers_from (sources : list Source)
           (tickers : list string) (days_back : Z)
  : Eff (result (list NewsArticle)) :=
  and_then (tickers_loop sources tickers days_back []) (fun all_articles =>
    match all_articles with
    | [] => ret (Ok [])
    | _ =>
        let df := Pandas.drop_duplicates url String.eqb all_articles in
        ret (df <- Pandas.to_datetime date df ;;
             Ok (Pandas.sort_values timestamp false df))
    end).

(** The article has no date, or a naive one within the range of a
    nanosecond timestamp. *)
Definition naive_date (article : NewsArticle) : Prop :=
  match date article with
  | Some d => Calendar.tzinfo d = None /\ Pandas.in_bounds d = true
  | None => True
  end.

(** What one turn of an adapter's loop appends. *)
Definition appended (outcome : option NewsArticle) : list NewsArticle :=
  match outcome with
  | Some article => [article]
  | None => []
  end.

(** One turn of an adapter's loop either appends nothing and extracts
    nothing, or extracts the content of one url and appends the article
    built from it; [P] speaks of that article's other fields. *)
Definition turn (w : World) (P : NewsArticle -> Prop)
           (m : Eff (option NewsArticle)) : Prop :=
  m = ret None \/
  exists ticker_ title_ url_ date_ source_,
    m = make_article w ticker_ title_ url_ date_ source_ /\
    P (mkNewsArticle ticker_ title_ url_ date_ "" "" source_).

(** The article's date is one that [_parse_news_date] returned. *)
Definition parsed_date (w : World) (article : NewsArticle) : Prop :=
  exists date_str, date article = _parse_news_date w date_str.

(** The article's date passed the age test of the Google adapter. *)
Definition recent (w : World) (days_back : Z) (article : NewsArticle) : Prop :=
  parsed_date w article /\ too_old w (date article) days_back = Ok false.

(** An article without what the content extractor adds to it. *)
Definition without_content (article : NewsArticle) : NewsArticle :=
  mkNewsArticle (ticker article) (title article) (url article) (date article)
                "" "" (source article).

(** The same run with another answer of the article downloader. *)
Definition with_newspaper (w : World) (f : string -> result ArticleData) : World :=
  mkWorld (now w) (finviz_calendar w) (investing_calendar w) (yahoo_calendar w)
          (marketwatch_calendar w) (yahoo_news w) (marketwatch_news w)
          (google_news w) f (tzname w).

(** The rows of a converted news frame from newest to oldest, a missing
    date last. *)
Definition newest_first (x y : NewsArticle) : Prop :=
  match date x, date y with
  | Some dx, Some dy => Calendar.utc_us dy <= Calendar.utc_us dx
  | Some _, None => True
  | None, Some _ => False
  | None, None => True
  end.

Definition lift (adapter : string -> Z -> Eff (list NewsArticle)) : Source :=
  fun ticker_ days_back =>
    and_then (adapter ticker_ days_back) (fun articles => ret (Ok articles)).

(** The literal [sources] list of [_get_ticker_news]. *)
Definition sources (w : World) : list Source :=
  [ lift (_get_yahoo_news w);
    lift (_get_marketwatch_news w);
    lift (_get_google_news w) ].

Definition _get_ticker_news (w : World) (ticker_ : string) (days_back : Z)
  : Eff (list NewsArticle) :=
  _get_ticker_news_from (sources w) ticker_ days_back.

Definition get_news_for_tickers (w : World) (tickers : list string) (days_back : Z)
  : Eff (result (list NewsArticle)) :=
  get_news_for_tickers_from (sources w) tickers days_back.

End NewsScraper.

(* ================================================================== *)
(** ** Concrete runs *)

Module Scenario.

Import Soup.

(** Monday 12 February 2024, 09:00:00. *)
Definition clock : Calendar.datetime :=
  Calendar.mkdatetime 2024 2 12 9 0 0 0 None.

(** A run in which every request fails. *)
Definition offline : World :=
  mkWorld clock
          (Raise RequestException) (Raise RequestException)
          (fun _ => Raise RequestException) (Raise RequestException)
          (fun _ => Raise RequestException) (fun _ => Raise RequestException)
          (fun _ => Raise RequestException) (fun _ => Raise RequestException)
          ["utc"].

Definition header (s : string) : Row := [mkCell s (Some "3") None].
Definition plain (s : string) : Cell := mkCell s None None.
Definition linked (s : string) : Cell := mkCell s None (Some (mkAnchor s None None)).

(** The same run in a process whose time zone is New York's. *)
Definition new_york : World :=
  mkWorld clock
          (Raise RequestException) (Raise RequestException)
          (fun _ => Raise RequestException) (Raise RequestException)
          (fun _ => Raise RequestException) (fun _ => Raise RequestException)
          (fun _ => Raise RequestException) (fun _ => Raise RequestException)
          ["est"; "edt"].

(** Only Finviz answers, with the given calendar rows. *)
Definition finviz_only (rows : Table) : World :=
  mkWorld clock
          (Ok (Some rows)) (Raise RequestException)
          (fun _ => Raise RequestException) (Raise RequestException)
          (fun _ => Raise RequestException) (fun _ => Raise RequestException)
          (fun _ => Raise RequestException) (fun _ => Raise RequestException)
          ["utc"].

(** The calendar still lists Monday of the week before. *)
Definition finviz_last_week : World :=
  finviz_only
    [ header "Monday, February 5th";
      [plain "Before Market Open"; linked "AAPL"; plain "Apple Inc."] ].

(** The page spells a symbol in lower case. *)
Definition finviz_lower_case : World :=
  finviz_only
    [ header "Monday, February 12th";
      [plain "After Market Close"; linked "aapl"; plain "Apple Inc."] ].

(** Only the Google News feed answers, with the given items; no article
    can be downloaded. *)
Definition google_only (items : list RssItem) : World :=
  mkWorld clock
          (Raise RequestException) (Raise RequestException)
          (fun _ => Raise RequestException) (Raise RequestException)
          (fun _ => Raise RequestException) (fun _ => Raise RequestException)
          (fun _ => Ok items) (fun _ => Raise RequestException)
          ["utc"].

(** An item published seven days and one hour before [clock]. *)
Definition google_week_old : World :=
  google_only
    [ mkRssItem (Some "Apple beats estimates")
                (Some "https://news.example.com/apple")
                (Some "Mon, 05 Feb 2024 08:00:00 GMT") ].

(** Only the Yahoo quote page answers, with one news block; no article can
    be downloaded. *)
Definition yahoo_unreachable : World :=
  mkWorld clock
          (Raise RequestException) (Raise RequestException)
          (fun _ => Raise RequestException) (Raise RequestException)
          (fun _ =>
             Ok [ mkYahooItem (Some (mkAnchor "" None (Some "/news/apple-q1.html")))
                              (Some "Apple reports first quarter results")
                              None (Some "2 hours ago") ])
          (fun _ => Raise RequestException)
          (fun _ => Raise RequestException) (fun _ => Raise RequestException)
          ["utc"].

(** Two sources that report AAPL for the same day with different session
    labels. *)
Definition aapl_pre_market : EarningsScraper.EarningsRecord :=
  EarningsScraper.mkEarningsRecord
    "AAPL" "Apple Inc." (Calendar.mkdate 2024 2 5) "Pre-market" "A".

Definition aapl_after_hours : EarningsScraper.EarningsRecord :=
  EarningsScraper.mkEarningsRecord
    "AAPL" "Apple Inc." (Calendar.mkdate 2024 2 5) "After-hours" "B".

Definition source_a : EarningsScraper.Adapter := fun _ => Ok [aapl_pre_market].
Definition source_b : EarningsScraper.Adapter := fun _ => Ok [aapl_after_hours].


(** The article of [yahoo_unreachable], as gathered for AAPL. *)
Definition apple_article : NewsScraper.NewsArticle :=
  NewsScraper.mkNewsArticle
    "AAPL" "Apple reports first quarter results"
    "https://finance.yahoo.com/news/apple-q1.html"
    (Some (Calendar.mkdatetime 2024 2 12 7 0 0 0 None))
    "" "" "Yahoo Finance".

End Scenario.

(* ================================================================== *)
(** ** Predicates and checks used in the statements below *)

Module Checks.

Import Soup.

(** The test of the Finviz loop for a date header row. *)
Definition is_date_header (cells : Row) : bool :=
  match cells with
  | [c] => truthy (colspan c)
  | _ => false
  end.

(** [d] is the date that [_parse_finviz_date] reads in a header row of
    [rows]. *)
Definition header_date (w : World) (rows : Table) (d : Calendar.date) : Prop :=
  exists c, In [c] rows /\ truthy (colspan c) = true /\
            EarningsScraper._parse_finviz_date w (text c) = Some d.

(** The records gathered by the Finviz loop over [rows], from its start. *)
Definition finviz_records (w : World) (days_ahead : Z) (rows : Table)
  : list EarningsScraper.EarningsRecord :=
  snd (fold_left (EarningsScraper.finviz_row w days_ahead) rows (None, [])).

(** [r] is the record that the Finviz loop makes of a row of [rows] under
    the date [d]. *)
Definition finviz_record_of (rows : Table) (d : Calendar.date)
           (r : EarningsScraper.EarningsRecord) : Prop :=
  exists c0 c1 c2 rest ticker_elem,
    In (c0 :: c1 :: c2 :: rest) rows /\ a c1 = Some ticker_elem /\
    r = EarningsScraper.mkEarningsRecord
          (a_text ticker_elem) (text c2) d (text c0) "Finviz".

(** A record stamped with today's date, with a ticker and a company. *)
Definition stamped_today (w : World) (r : EarningsScraper.EarningsRecord) : Prop :=
  EarningsScraper.date r = EarningsScraper.today w /\
  EarningsScraper.ticker r <> "" /\ EarningsScraper.company r <> "".

(** A record with a ticker, a company name and the label [label]. *)
Definition labelled (label : string) (r : EarningsScraper.EarningsRecord) : Prop :=
  EarningsScraper.ticker r <> "" /\ EarningsScraper.company r <> "" /\
  EarningsScraper.source r = label.

(** The record made of a page row: its ticker, company name, session and
    label, whatever the date it is stamped with. *)
Definition row_record (r : EarningsScraper.EarningsRecord)
           (ticker_ company_ time_ label : string) : Prop :=
  EarningsScraper.ticker r = ticker_ /\ EarningsScraper.company r = company_ /\
  EarningsScraper.time r = time_ /\ EarningsScraper.source r = label.

(** What the MarketWatch calendar loop reads as ticker in the first cell of
    a row: the text of its link, or else the text of the cell. *)
Definition marketwatch_symbol (c : Cell) : string :=
  match a c with
  | Some ticker_link => a_text ticker_link
  | None => text c
  end.

(** What the Investing.com loop reads as ticker in a link title that holds
    a "(": what follows the last one, every ")" removed. *)
Definition titled_symbol (title : string) : string :=
  Text.remove_char ")" (Text.after_last "(" title).

(** The labels the earnings adapters write in [source]. *)
Definition earnings_labels : list string :=
  ["Finviz"; "Investing.com"; "Yahoo Finance"; "MarketWatch"].

(** What the Yahoo news loop guarantees of an article. *)
Definition yahoo_article (ticker_ : string) (x : NewsScraper.NewsArticle) : Prop :=
  NewsScraper.ticker x = ticker_ /\ NewsScraper.source x = "Yahoo Finance" /\
  NewsScraper.title x <> "" /\ NewsScraper.url x <> "" /\
  Text.startswith "/" (NewsScraper.url x) = false.

(** What the MarketWatch news loop guarantees of an article. *)
Definition marketwatch_article (ticker_ : string) (x : NewsScraper.NewsArticle) : Prop :=
  NewsScraper.ticker x = ticker_ /\ NewsScraper.source x = "MarketWatch" /\
  NewsScraper.title x <> "" /\ NewsScraper.url x <> "" /\
  Text.startswith "http" (NewsScraper.url x) = true.

(** What the Google News loop guarantees of an article. *)
Definition google_article (ticker_ : string) (x : NewsScraper.NewsArticle) : Prop :=
  NewsScraper.ticker x = ticker_ /\ NewsScraper.source x = "Google News".

(** [test] holds of the [fuel] integers from [n] on. *)
Fixpoint all_from (fuel : nat) (n : Z) (test : Z -> bool) : bool :=
  match fuel with
  | O => true
  | S f => test n && all_from f (n + 1) test
  end.

(** The month and day computed for day [r] of a year are a date of that
    year, the one that lies [r] days after 1 January. *)
Definition month_day_ok (leap : bool) (r : Z) : bool :=
  let '(m, d) := Calendar.month_day r leap in
  (1 <=? m) && (m <=? 12) && (1 <=? d) &&
  (d <=? Calendar._DAYS_IN_MONTH m + (if (m =? 2) && leap then 1 else 0)) &&
  (Calendar._DAYS_BEFORE_MONTH m + (if (2 <? m) && leap then 1 else 0) + d
   =? r + 1).

(** The clock shows a time of day. *)
Definition clock_time_valid (w : World) : Prop :=
  Calendar._check_time_fields
    (Calendar.dt_hour (now w)) (Calendar.dt_minute (now w))
    (Calendar.dt_second (now w)) (Calendar.dt_microsecond (now w)) = true.

(** The unit, in microseconds, of the relative phrase that
    [_parse_news_date] reads in a text: the first of "hour", "day" and
    "minute" that occurs in it. *)
Definition relative_unit (date_str : string) : option Z :=
  if Text.contains "hour" (Text.lower date_str) then
    Some (3600 * Calendar.US_PER_SECOND)
  else if Text.contains "day" (Text.lower date_str) then
    Some Calendar.US_PER_DAY
  else if Text.contains "minute" (Text.lower date_str) then
    Some (60 * Calendar.US_PER_SECOND)
  else None.

(** The number of days from today of the relative word that [_parse_date]
    reads in a text: the first of "today", "tomorrow" and "yesterday" that
    occurs in it. *)
Definition relative_day (date_str : string) : option Z :=
  if Text.contains "today" (Text.lower date_str) then Some 0
  else if Text.contains "tomorrow" (Text.lower date_str) then Some 1
  else if Text.contains "yesterday" (Text.lower date_str) then Some (-1)
  else None.

(** The test [df['date'] >= now - timedelta(days=days)] on wall-clock
    readings; a missing date fails it. *)
Definition since {R : Type} (date_column : R -> option Calendar.datetime)
           (w : World) (days : Z) (r : R) : bool :=
  match date_column r with
  | Some d =>
      Calendar.wall_us (now w) - days * Calendar.US_PER_DAY
      <=? Calendar.wall_us d
  | None => false
  end.

(** Every date of the column is naive. *)
Definition naive_column {R : Type} (date_column : R -> option Calendar.datetime)
           (df : list R) : Prop :=
  forall r d, In r df -> date_column r = Some d -> Calendar.tzinfo d = None.

(** A text of ASCII characters. *)
Definition ascii_text (s : string) : Prop :=
  Text.all_chars (fun c => Text.code c <? 128) s = true.

(** One to five capital letters A-Z. *)
Definition is_symbol (s : string) : bool :=
  (1 <=? Text.len s) && (Text.len s <=? 5) &&
  Text.all_chars Text.is_upper_letter s.

(** The exchange suffixes that [clean_ticker] removes. *)
Definition exchange_suffixes : list string :=
  ["-USD"; "-US"; ".US"; ".TO"; ".L"].

(** Nothing, or one character that is no capital letter followed by
    capital letters: the shape of an exchange suffix. *)
Definition suffix_shape (t : string) : Prop :=
  match t with
  | EmptyString => True
  | String c t' =>
      Text.is_upper_letter c = false /\
      Text.all_chars Text.is_upper_letter t' = true
  end.

(** The names of the groups of a regular expression. *)
Fixpoint group_names (r : Strptime.regex) : list ascii :=
  match r with
  | Strptime.Eps | Strptime.Char _ | Strptime.Plus _ => []
  | Strptime.Seq a b | Strptime.Alt a b => group_names a ++ group_names b
  | Strptime.Group n r0 => n :: group_names r0
  end.

(** A group that sets the year. *)
Definition year_group (n : ascii) : bool :=
  Ascii.eqb n "y" || Ascii.eqb n "Y".

(** The format has no year directive. *)
Definition yearless (format : string) : bool :=
  match Strptime.pattern format with
  | Some r => negb (existsb year_group (group_names r))
  | None => false
  end.

(** The format has no [%z] directive. *)
Definition offsetless (format : string) : bool :=
  negb (Text.contains "%z" format).

(** The text that [_parse_finviz_date] hands to [strptime]. *)
Definition finviz_text (date_str : string) : string :=
  EarningsScraper.sub_ordinals false (Text.strip date_str).

(** The expression of [%Y], and that of what follows it in [%Y-%m-%d]. *)
Definition year_re : Strptime.regex :=
  Strptime.Group "Y" (Strptime.seqs [Strptime.digit; Strptime.digit;
                                     Strptime.digit; Strptime.digit]).

Definition date_tail_re : Strptime.regex :=
  match Strptime.pattern "-%m-%d" with
  | Some r => r
  | None => Strptime.Eps
  end.

(** What [strftime('%Y-%m-%d')] prints after the year. *)
Definition date_tail (m d : Z) : string :=
  String "-" (append (Calendar.pad2 m) (String "-" (Calendar.pad2 d))).

(** The year [y] is printed as four digits that read [y]. *)
Definition year_ok (y : Z) : bool :=
  let s := Calendar.str_int y in
  (String.length s =? 4)%nat && Text.all_chars Text.isdigit s &&
  (Text.int_of_digits s =? y).

(** The first match of the tail printed for month [m] and day [d] is the
    whole of it, with the groups [m] and [d] reading those numbers; the
    tail holds no white space. *)
Definition tail_ok (m d : Z) : bool :=
  match Strptime.rmatch date_tail_re [] (date_tail m d) with
  | (found, rest) :: _ =>
      negb (Text.nonempty rest) &&
      match found with
      | [(kd, vd); (km, vm)] =>
          Ascii.eqb kd "d" && Ascii.eqb km "m" &&
          match Strptime.py_int vm, Strptime.py_int vd with
          | Ok m', Ok d' => (m' =? m) && (d' =? d)
          | _, _ => false
          end
      | _ => false
      end
  | [] => false
  end &&
  Text.all_chars (fun c => negb (Text.isspace c)) (date_tail m d).

(** [tail_ok] for the month and day numbered [i], from 1 January on,
    every month counted with 31 days. *)
Definition tail_ok_at (i : Z) : bool := tail_ok (i / 31 + 1) (i mod 31 + 1).

(** The two ways the Investing.com adapter finds a ticker: between the
    last "(" of the link's title and its end, brackets removed, or in a
    first cell of at most five characters. *)
Definition investing_symbol (t : string) : Prop :=
  (Text.contains "(" t = false /\ Text.contains ")" t = false) \/
  Text.len t <= 5.

(** The text of an element that may be missing. *)
Definition text_or_empty (elem : option string) : string :=
  match elem with
  | Some s => s
  | None => ""
  end.

(** The heading of a Yahoo news block: its [<h3>], or else its [<h2>]. *)
Definition yahoo_heading (item : Soup.YahooItem) : string :=
  match Soup.y_h3 item, Soup.y_h2 item with
  | Some t, _ => t
  | None, Some t => t
  | None, None => ""
  end.

(** The url the Yahoo adapter makes of a link. *)
Definition yahoo_link (href : string) : string :=
  if Text.startswith "/" href
  then append "https://finance.yahoo.com" href
  else href.

(** The url the MarketWatch adapter makes of a link. *)
Definition marketwatch_link (href : string) : string :=
  if Text.startswith "http" href
  then href
  else append "https://www.marketwatch.com" href.

(** [x] is the article that an adapter makes of a title, a url and a date
    for [ticker_]: it carries them and the adapter's label, and its summary
    and text are empty where the extraction of the url fails. *)
Definition article_of (w : World) (x : NewsScraper.NewsArticle)
           (ticker_ title_ url_ : string) (date_ : option Calendar.datetime)
           (source_ : string) : Prop :=
  NewsScraper.ticker x = ticker_ /\ NewsScraper.title x = title_ /\
  NewsScraper.url x = url_ /\ NewsScraper.date x = date_ /\
  NewsScraper.source x = source_ /\
  (forall e, newspaper w url_ = Raise e ->
             NewsScraper.summary x = "" /\ NewsScraper.full_text x = "").

(** The articles gathered in a run, ticker by ticker. *)
Definition gathered (w : World) (tickers : list string) (days_back : Z)
  : list NewsScraper.NewsArticle :=
  flat_map (fun t => NewsScraper.value (NewsScraper._get_ticker_news w t days_back))
           tickers.

(** The labels the news adapters write in [source]. *)
Definition news_labels : list string :=
  ["Yahoo Finance"; "MarketWatch"; "Google News"].

End Checks.

Module MoreScenarios.

(** Only the Yahoo calendar answers, with a header row and one company. *)
Definition yahoo_one_row : World :=
  mkWorld Scenario.clock
          (Raise RequestException) (Raise RequestException)
          (fun _ => Ok [[[Scenario.plain "Symbol"];
                         [Scenario.linked "MSFT"; Scenario.plain "Microsoft";
                          Scenario.plain "TAS"; Scenario.plain "2.78"]]])
          (Raise RequestException)
          (fun _ => Raise RequestException) (fun _ => Raise RequestException)
          (fun _ => Raise RequestException) (fun _ => Raise RequestException)
          ["utc"].

(** Only the MarketWatch calendar answers, with one table of a header row
    and one company. *)
Definition marketwatch_one_row : World :=
  mkWorld Scenario.clock
          (Raise RequestException) (Raise RequestException)
          (fun _ => Raise RequestException)
          (Ok [[[Scenario.plain "Symbol"];
                [Scenario.linked "NVDA"; Scenario.plain "NVIDIA Corp.";
                 Scenario.plain "After close"]]])
          (fun _ => Raise RequestException) (fun _ => Raise RequestException)
          (fun _ => Raise RequestException) (fun _ => Raise RequestException)
          ["utc"].

(** Only the MarketWatch quote page answers, with one site-relative link;
    no article can be downloaded. *)
Definition marketwatch_relative : World :=
  mkWorld Scenario.clock
          (Raise RequestException) (Raise RequestException)
          (fun _ => Raise RequestException) (Raise RequestException)
          (fun _ => Raise RequestException)
          (fun _ =>
             Ok [ Soup.mkMarketWatchItem
                    (Some (Soup.mkAnchor "Microsoft beats estimates" None
                                         (Some "/story/msft-q2")))
                    None ])
          (fun _ => Raise RequestException) (fun _ => Raise RequestException)
          ["utc"].

Definition microsoft_article : NewsScraper.NewsArticle :=
  NewsScraper.mkNewsArticle
    "MSFT" "Microsoft beats estimates"
    "https://www.marketwatch.com/story/msft-q2"
    (Some Scenario.clock) "" "" "MarketWatch".

(** An article of the first week of January. *)
Definition january_article : NewsScraper.NewsArticle :=
  NewsScraper.mkNewsArticle
    "AAPL" "Apple sets the date of its first quarter call"
    "https://finance.yahoo.com/news/apple-call.html"
    (Some (Calendar.mkdatetime 2024 1 5 16 30 0 0 None))
    "" "" "Yahoo Finance".

(** Only Investing.com answers, with a header row and one company whose
    link carries the symbol in its title. *)
Definition investing_titled : World :=
  mkWorld Scenario.clock
          (Raise RequestException)
          (Ok (Some [[Scenario.plain "Company"];
                     [Scenario.plain "";
                      Soup.mkCell "Apple Inc." None
                        (Some (Soup.mkAnchor "Apple Inc."
                                             (Some "Apple Inc (AAPL)") None));
                      Scenario.plain "After close"; Scenario.plain "2.10"]]))
          (fun _ => Raise RequestException) (Raise RequestException)
          (fun _ => Raise RequestException) (fun _ => Raise RequestException)
          (fun _ => Raise RequestException) (fun _ => Raise RequestException)
          ["utc"].

(** A block of the Yahoo quote page about a story of January 2020. *)
Definition old_block : Soup.YahooItem :=
  Soup.mkYahooItem
    (Some (Soup.mkAnchor "" None (Some "/news/apple-2020.html")))
    (Some "Apple opens the year") None (Some "Jan 05, 2020").

(** Only the Yahoo quote page answers, with that one block; no article can
    be downloaded. *)
Definition yahoo_old_story : World :=
  mkWorld Scenario.clock
          (Raise RequestException) (Raise RequestException)
          (fun _ => Raise RequestException) (Raise RequestException)
          (fun _ => Ok [old_block])
          (fun _ => Raise RequestException)
          (fun _ => Raise RequestException) (fun _ => Raise RequestException)
          ["utc"].

End MoreScenarios.

(* ================================================================== *)
(** * Properties *)

(** ** The frame operations *)

Section FrameFacts.

Context {R K : Type}.
Variable key : R -> K.
Variable key_eqb : K -> K -> bool.
Hypothesis key_eqb_eq : forall a b, key_eqb a b = true <-> a = b.

Lemma seen_spec (k : K) (seen : list K) :
  existsb (key_eqb k) seen = true <-> In k seen.
Proof.
  rewrite existsb_exists. split.
  - intros [x [Hin Heq]]. apply key_eqb_eq in Heq. now subst.
  - intros Hin. exists k. split; [assumption | now apply key_eqb_eq].
Qed.

Lemma key_eqb_refl (k : K) : key_eqb k k = true.
Proof. now apply key_eqb_eq. Qed.

Lemma key_eqb_neq (a b : K) : a <> b -> key_eqb a b = false.
Proof.
  intros Hne. destruct (key_eqb a b) eqn:E; [|reflexivity].
  apply key_eqb_eq in E. contradiction.
Qed.

Lemma drop_duplicates_from_In (rows : list R) :
  forall (seen : list K) (r : R),
    In r (Pandas.drop_duplicates_from key key_eqb seen rows) <->
    ~ In (key r) seen /\ Pandas.first_with_key key key_eqb r rows = Some r.
Proof.
  unfold Pandas.first_with_key.
  induction rows as [|r0 rest IH]; intros seen r; simpl.
  - split; [contradiction | intros [_ H]; discriminate].
  - destruct (existsb (key_eqb (key r0)) seen) eqn:Eseen.
    + apply seen_spec in Eseen. rewrite IH.
      split; intros [Hns Hf]; split; try assumption.
      * rewrite key_eqb_neq; [assumption | congruence].
      * rewrite key_eqb_neq in Hf; [assumption | congruence].
    + assert (Hr0 : ~ In (key r0) seen).
      { intros Hin. apply seen_spec in Hin. congruence. }
      simpl. rewrite IH. simpl.
      destruct (key_eqb (key r0) (key r)) eqn:Ek.
      * apply key_eqb_eq in Ek. split.
        -- intros [-> | [Hns _]]; [now split | ].
           exfalso. apply Hns. now left.
        -- intros [_ Hf]. left. congruence.
      * split.
        -- intros [-> | [Hns Hf]].
           ++ rewrite key_eqb_refl in Ek. discriminate.
           ++ split; [intros Hin; apply Hns; now right | assumption].
        -- intros [Hns Hf]. right. split; [|assumption].
           intros [Heq | Hin]; [|contradiction].
           rewrite Heq, key_eqb_refl in Ek. discriminate.
Qed.

Lemma drop_duplicates_from_NoDup (rows : list R) :
  forall seen : list K,
    NoDup (map key (Pandas.drop_duplicates_from key key_eqb seen rows)).
Proof.
  induction rows as [|r0 rest IH]; intros seen; simpl.
  - constructor.
  - destruct (existsb (key_eqb (key r0)) seen) eqn:Eseen; [apply IH|].
    simpl. constructor; [|apply IH].
    rewrite in_map_iff. intros [x [Hk Hin]].
    apply drop_duplicates_from_In in Hin. destruct Hin as [Hns _].
    apply Hns. left. now symmetry.
Qed.

(** A row is kept exactly when it is the first one with its key. *)
Lemma drop_duplicates_In (rows : list R) (r : R) :
  In r (Pandas.drop_duplicates key key_eqb rows) <-> Pandas.first_with_key key key_eqb r rows = Some r.
Proof.
  unfold Pandas.drop_duplicates. rewrite drop_duplicates_from_In.
  split; [now intros [_ H] | intros H; split; [intros [] | exact H]].
Qed.

Lemma drop_duplicates_NoDup (rows : list R) :
  NoDup (map key (Pandas.drop_duplicates key key_eqb rows)).
Proof. apply drop_duplicates_from_NoDup. Qed.

(** Every key of the input keeps a representative: the first row with it. *)
Lemma drop_duplicates_keeps_key (rows : list R) (x : R) :
  In x rows ->
  exists r, In r (Pandas.drop_duplicates key key_eqb rows) /\
            key r = key x /\ Pandas.first_with_key key key_eqb x rows = Some r.
Proof.
  intros Hin.
  destruct (Pandas.first_with_key key key_eqb x rows) as [r|] eqn:Ef;
    unfold Pandas.first_with_key in *.
  - pose proof (find_some _ _ Ef) as [Hr Hk]. apply key_eqb_eq in Hk.
    exists r. split; [|split; [assumption | reflexivity]].
    apply drop_duplicates_In. unfold Pandas.first_with_key. now rewrite Hk.
  - exfalso. pose proof (find_none _ _ Ef x Hin) as Hn. cbv beta in Hn.
    rewrite key_eqb_refl in Hn. discriminate.
Qed.

End FrameFacts.

Section SortFacts.

Context {R : Type}.
Variable by_ : R -> option Z.
Variable ascending : bool.

Lemma before_total (x y : option Z) :
  Pandas.before ascending x y = false -> Pandas.before ascending y x = true.
Proof.
  destruct x as [a|], y as [b|], ascending; simpl; intros H;
    try discriminate; try reflexivity;
    apply Z.leb_gt in H; apply Z.leb_le; lia.
Qed.

Lemma before_trans (x y z : option Z) :
  Pandas.before ascending x y = true ->
  Pandas.before ascending y z = true ->
  Pandas.before ascending x z = true.
Proof.
  destruct x as [a|], y as [b|], z as [c|], ascending; simpl;
    intros H1 H2; try discriminate; try reflexivity;
    apply Z.leb_le in H1, H2; apply Z.leb_le; lia.
Qed.

Lemma insert_row_perm (r : R) (l : list R) :
  Permutation (Pandas.insert_row by_ ascending r l) (r :: l).
Proof.
  induction l as [|x rest IH]; simpl; [reflexivity|].
  destruct (Pandas.before ascending (by_ r) (by_ x)); [reflexivity|].
  rewrite IH. apply perm_swap.
Qed.

Lemma sort_values_perm (rows : list R) :
  Permutation (Pandas.sort_values by_ ascending rows) rows.
Proof.
  induction rows as [|r rest IH]; simpl; [reflexivity|].
  rewrite insert_row_perm. now constructor.
Qed.

Lemma insert_row_sorted (r : R) (l : list R) :
  Sorted (Pandas.in_order by_ ascending) l -> Sorted (Pandas.in_order by_ ascending) (Pandas.insert_row by_ ascending r l).
Proof.
  induction l as [|x rest IH]; simpl; intros Hs.
  - repeat constructor.
  - destruct (Pandas.before ascending (by_ r) (by_ x)) eqn:E.
    + constructor; [assumption | constructor; exact E].
    + inversion Hs as [|? ? Hrest Hhd]; subst.
      constructor; [now apply IH|].
      destruct rest as [|y rest']; simpl.
      * constructor. now apply before_total.
      * destruct (Pandas.before ascending (by_ r) (by_ y)).
        -- constructor. now apply before_total.
        -- inversion Hhd; subst. now constructor.
Qed.

Lemma sort_values_sorted (rows : list R) :
  StronglySorted (Pandas.in_order by_ ascending) (Pandas.sort_values by_ ascending rows).
Proof.
  apply Sorted_StronglySorted.
  - intros x y z. apply before_trans.
  - induction rows as [|r rest IH]; simpl; [constructor|].
    now apply insert_row_sorted.
Qed.

Lemma sort_values_In (rows : list R) (r : R) :
  In r (Pandas.sort_values by_ ascending rows) <-> In r rows.
Proof.
  split; apply Permutation_in;
    [apply sort_values_perm | symmetry; apply sort_values_perm].
Qed.

End SortFacts.

Lemma StronglySorted_weaken {A : Type} (P Q : A -> A -> Prop) (l : list A) :
  (forall x y, P x y -> Q x y) -> StronglySorted P l -> StronglySorted Q l.
Proof.
  intros HPQ Hs. induction Hs as [|x l Hs IH Hall]; constructor.
  - exact IH.
  - eapply Forall_impl; [|exact Hall]. intros y. apply HPQ.
Qed.

(** ** The earnings aggregator *)

Module EarningsFacts.

Import EarningsScraper.

Lemma date_eqb_eq (d1 d2 : Calendar.date) :
  Calendar.date_eqb d1 d2 = true <-> d1 = d2.
Proof.
  destruct d1 as [y1 m1 a1], d2 as [y2 m2 a2]. unfold Calendar.date_eqb. simpl.
  rewrite !andb_true_iff, !Z.eqb_eq. split.
  - intros [[-> ->] ->]. reflexivity.
  - intros H. injection H as -> -> ->. auto.
Qed.

Lemma dedup_key_eqb_eq (k1 k2 : string * Calendar.date) :
  dedup_key_eqb k1 k2 = true <-> k1 = k2.
Proof.
  destruct k1 as [t1 d1], k2 as [t2 d2]. unfold dedup_key_eqb. simpl.
  rewrite andb_true_iff, String.eqb_eq, date_eqb_eq. split.
  - intros [-> ->]. reflexivity.
  - intros H. injection H as -> ->. auto.
Qed.

(** The loop gathers the contributions of the sources in the order of the
    [sources] list. *)
Lemma collect_concat (sources : list Adapter) (days_ahead : Z) :
  forall acc,
    collect sources days_ahead acc =
    acc ++ flat_map (contribution days_ahead) sources.
Proof.
  induction sources as [|s rest IH]; intros acc; simpl.
  - now rewrite app_nil_r.
  - unfold contribution at 1.
    destruct (s days_ahead) as [[|r earnings]|e]; rewrite IH; simpl;
      try reflexivity.
    now rewrite <- app_assoc.
Qed.

Lemma get_earnings_calendar_from_eq (sources : list Adapter) (days_ahead : Z) :
  get_earnings_calendar_from sources days_ahead =
  Ok (Pandas.sort_values to_datetime true
        (Pandas.drop_duplicates dedup_key dedup_key_eqb
           (flat_map (contribution days_ahead) sources))).
Proof.
  unfold get_earnings_calendar_from. rewrite collect_concat. simpl.
  destruct (flat_map (contribution days_ahead) sources); reflexivity.
Qed.

End EarningsFacts.



Lemma NoDup_map_injective {A B : Type} (f : A -> B) (l : list A) :
  NoDup (map f l) -> forall x y, In x l -> In y l -> f x = f y -> x = y.
Proof.
  induction l as [|a rest IH]; simpl; intros Hnd x y Hx Hy Hxy; [contradiction|].
  inversion Hnd as [|? ? Hnotin Hrest]; subst.
  destruct Hx as [-> | Hx], Hy as [-> | Hy].
  - reflexivity.
  - exfalso. apply Hnotin. rewrite Hxy. now apply in_map.
  - exfalso. apply Hnotin. rewrite <- Hxy. now apply in_map.
  - now apply IH.
Qed.



(** The example of the specification: two sources give AAPL on the same
    day with different session labels; the first one's row is the one kept. *)
Example earnings_dedup_example :
  EarningsScraper.get_earnings_calendar_from
    [Scenario.source_a; Scenario.source_b] 30 = Ok [Scenario.aapl_pre_market].
Proof. reflexivity. Qed.

(** The scenario of the specification: one source returns one row, the
    others nothing (or fail); the table is that row. *)
Example earnings_single_row_example :
  let row := EarningsScraper.mkEarningsRecord
               "MSFT" "Microsoft" (Calendar.mkdate 2024 2 5) "Pre-market" "Finviz" in
  EarningsScraper.get_earnings_calendar_from
    [(fun _ => Ok []); (fun _ => Ok [row]); (fun _ => Raise RequestException);
     (fun _ => Ok [])] 30 = Ok [row].
Proof. reflexivity. Qed.

(** ** The news aggregator *)

Module NewsFacts.

Import NewsScraper.

Lemma value_and_then {A B : Type} (m : Eff A) (k : A -> Eff B) :
  value (and_then m k) = value (k (value m)).
Proof.
  unfold and_then, value. destruct m as [x c1]. simpl.
  destruct (k x); reflexivity.
Qed.

Lemma calls_and_then {A B : Type} (m : Eff A) (k : A -> Eff B) :
  calls (and_then m k) = calls m ++ calls (k (value m)).
Proof.
  unfold and_then, calls, value. destruct m as [x c1]. simpl.
  destruct (k x); reflexivity.
Qed.

Lemma ticker_news_loop_value (sources : list Source) (ticker_ : string)
      (days_back : Z) :
  forall acc,
    value (ticker_news_loop sources ticker_ days_back acc) =
    acc ++ flat_map (contribution ticker_ days_back) sources.
Proof.
  induction sources as [|s rest IH]; intros acc; simpl.
  - now rewrite app_nil_r.
  - rewrite value_and_then, IH. unfold contribution at 2.
    destruct (value (s ticker_ days_back)); simpl.
    + now rewrite <- app_assoc.
    + reflexivity.
Qed.

(** All the articles gathered for [tickers], ticker by ticker and, for each
    ticker, source by source. *)
Lemma tickers_loop_value (sources : list Source) (tickers : list string)
      (days_back : Z) :
  forall acc,
    value (tickers_loop sources tickers days_back acc) =
    acc ++ flat_map (fun t => flat_map (contribution t days_back) sources) tickers.
Proof.
  induction tickers as [|t rest IH]; intros acc; simpl.
  - now rewrite app_nil_r.
  - rewrite value_and_then, IH. unfold _get_ticker_news_from.
    rewrite ticker_news_loop_value. simpl. now rewrite <- app_assoc.
Qed.

Lemma get_news_for_tickers_from_eq (sources : list Source)
      (tickers : list string) (days_back : Z) :
  value (get_news_for_tickers_from sources tickers days_back) =
  (df <- Pandas.to_datetime
           date
           (Pandas.drop_duplicates url String.eqb
              (flat_map (fun t => flat_map (contribution t days_back) sources)
                        tickers)) ;;
   Ok (Pandas.sort_values timestamp false df)).
Proof.
  unfold get_news_for_tickers_from.
  rewrite value_and_then, tickers_loop_value. simpl.
  destruct (flat_map _ tickers); reflexivity.
Qed.

(** The table, when there is one, is the deduplicated frame, sorted. *)
Lemma news_table (sources : list Source) (tickers : list string)
      (days_back : Z) (table : list NewsArticle) :
  value (get_news_for_tickers_from sources tickers days_back) = Ok table ->
  table =
  Pandas.sort_values timestamp false
    (Pandas.drop_duplicates url String.eqb
       (flat_map (fun t => flat_map (contribution t days_back) sources) tickers)).
Proof.
  rewrite get_news_for_tickers_from_eq. unfold Pandas.to_datetime.
  destruct (Pandas.convertible date None _); cbn [bind]; [|discriminate].
  intros H. now injection H as <-.
Qed.

Lemma same_zone_naive (a b : Calendar.datetime) :
  Calendar.tzinfo a = None -> Calendar.tzinfo b = None ->
  Pandas.same_zone a b = true.
Proof. unfold Pandas.same_zone. now intros -> ->. Qed.

(** A frame of naive datetimes within range is converted. *)
Lemma convertible_naive (df : list NewsArticle) :
  Forall naive_date df ->
  forall found,
    match found with
    | Some d0 => Calendar.tzinfo d0 = None
    | None => True
    end ->
    Pandas.convertible date found df = true.
Proof.
  induction 1 as [|x rest Hx _ IH]; intros found Hfound; [reflexivity|].
  cbn [Pandas.convertible]. unfold naive_date in Hx.
  destruct (date x) as [d|]; [|now apply IH].
  destruct Hx as [Htz Hin]. rewrite Hin. cbn [andb].
  destruct found as [d0|].
  - rewrite (same_zone_naive d0 d Hfound Htz). cbn [andb]. now apply IH.
  - now apply IH.
Qed.




(** The deduplicated frame of naive datetimes within range is converted:
    the aggregator returns a table. *)
Lemma news_table_exists (sources : list Source) (tickers : list string)
      (days_back : Z) :
  Forall naive_date
         (flat_map (fun t => flat_map (contribution t days_back) sources) tickers) ->
  exists table,
    value (get_news_for_tickers_from sources tickers days_back) = Ok table.
Proof.
  intros Hnaive. rewrite get_news_for_tickers_from_eq.
  unfold Pandas.to_datetime. rewrite (convertible_naive _) with (found := None).
  - cbn [bind]. eexists. reflexivity.
  - rewrite Forall_forall in *. intros x Hx. apply Hnaive.
    apply (drop_duplicates_In _ _ String.eqb_eq) in Hx.
    apply find_some in Hx. tauto.
  - exact I.
Qed.



End NewsFacts.

(** C3.  Whatever the news sources return, the table that
    [get_news_for_tickers] yields holds an article exactly when it is the
    first one gathered (ticker by ticker, source by source) to carry its
    url; so no url occurs twice, every gathered url keeps the article seen
    first, and the table runs from the most recent date to the oldest.
    There is such a table whenever the gathered dates are naive datetimes
    that pandas can convert. *)
Theorem news_dedup_first_sorted
        (sources : list NewsScraper.Source) (tickers : list string)
        (days_back : Z) :
  let all_articles :=
    flat_map (fun t => flat_map (NewsScraper.contribution t days_back) sources)
             tickers in
  (forall table,
      NewsScraper.value
        (NewsScraper.get_news_for_tickers_from sources tickers days_back)
      = Ok table ->
      (forall x, In x table <->
                 Pandas.first_with_key NewsScraper.url String.eqb x all_articles
                 = Some x) /\
      NoDup (map NewsScraper.url table) /\
      (forall x y, In x table -> In y table ->
                   NewsScraper.url x = NewsScraper.url y -> x = y) /\
      (forall x, In x all_articles ->
                 exists y, In y table /\ NewsScraper.url y = NewsScraper.url x /\
                           Pandas.first_with_key NewsScraper.url String.eqb x
                             all_articles = Some y) /\
      StronglySorted NewsScraper.newest_first table) /\
  (Forall NewsScraper.naive_date all_articles ->
   exists table,
     NewsScraper.value
       (NewsScraper.get_news_for_tickers_from sources tickers days_back)
     = Ok table).
Proof.
  intros all_articles. split; [|apply NewsFacts.news_table_exists].
  intros table Htable. apply NewsFacts.news_table in Htable.
  fold all_articles in Htable. subst table.
  assert (Hnodup :
    NoDup (map NewsScraper.url
             (Pandas.sort_values NewsScraper.timestamp false
                (Pandas.drop_duplicates NewsScraper.url String.eqb all_articles)))).
  { eapply Permutation_NoDup.
    - apply Permutation_map. symmetry. apply sort_values_perm.
    - apply (drop_duplicates_NoDup _ _ String.eqb_eq). }
  split; [|split; [exact Hnodup|split; [|split]]].
  - intros x. rewrite sort_values_In.
    apply (drop_duplicates_In _ _ String.eqb_eq).
  - intros x y Hx Hy Hxy.
    now apply (NoDup_map_injective NewsScraper.url _ Hnodup).
  - intros x Hx.
    destruct (drop_duplicates_keeps_key NewsScraper.url _ String.eqb_eq
                all_articles x Hx) as [y [Hy [Hk Hf]]].
    exists y. repeat split; try assumption. now apply sort_values_In.
  - eapply StronglySorted_weaken; [|apply sort_values_sorted].
    intros x y.
    unfold Pandas.in_order, NewsScraper.timestamp, NewsScraper.newest_first.
    destruct (NewsScraper.date x), (NewsScraper.date y); simpl;
      try discriminate; auto.
    apply Z.leb_le.
Qed.

Lemma news_dedup_first_sorted_witness :
  exists table,
    NewsScraper.value
      (NewsScraper.get_news_for_tickers_from
         (NewsScraper.sources Scenario.yahoo_unreachable) ["AAPL"; "MSFT"] 7)
    = Ok table /\
    In Scenario.apple_article table /\
    forall y, In y table ->
              NewsScraper.url y = NewsScraper.url Scenario.apple_article ->
              y = Scenario.apple_article.
Proof.
  destruct (news_dedup_first_sorted
              (NewsScraper.sources Scenario.yahoo_unreachable) ["AAPL"; "MSFT"] 7)
    as [Hrows Hsome].
  destruct Hsome as [table Htable].
  { apply Forall_forall. intros x Hx. vm_compute in Hx.
    destruct Hx as [<- | [<- | []]]; vm_compute; split; reflexivity. }
  destruct (Hrows table Htable) as (Hin & _ & Huniq & _).
  assert (Hfirst : In Scenario.apple_article table).
  { apply Hin. vm_compute. reflexivity. }
  exists table. split; [exact Htable|]. split; [exact Hfirst|].
  intros y Hy Hurl. now apply Huniq.
Defined.


(** ** The earnings adapters *)

Lemma fold_left_invariant {S X : Type} (f : S -> X -> S) (Inv : S -> Prop) :
  (forall st x, Inv st -> Inv (f st x)) ->
  forall (l : list X) (st : S), Inv st -> Inv (fold_left f l st).
Proof.
  intros Hstep l. induction l as [|x rest IH]; intros st Hst; simpl.
  - exact Hst.
  - apply IH, Hstep, Hst.
Qed.

Lemma Forall_snoc {A : Type} (P : A -> Prop) (l : list A) (x : A) :
  Forall P l -> P x -> Forall P (l ++ [x]).
Proof.
  intros Hl Hx. apply Forall_app. split; [assumption | now constructor].
Qed.

Module AdapterFacts.

Import EarningsScraper.

Lemma within_days_ahead_spec (w : World) (d : Calendar.date) (days_ahead : Z) :
  within_days_ahead w d days_ahead = true <->
  Calendar.toordinal d <= Calendar.toordinal (today w) + days_ahead.
Proof.
  unfold within_days_ahead, Calendar.days, Calendar.date_sub.
  rewrite Z.div_mul by (vm_compute; discriminate).
  rewrite Z.leb_le. lia.
Qed.

Lemma nonempty_spec (s : string) : Text.nonempty s = true <-> s <> "".
Proof. destruct s; simpl; split; congruence. Qed.

Lemma finviz_row_keeps (w : World) (days_ahead : Z)
      (st : option Calendar.date * list EarningsRecord) (cells : Soup.Row) :
  Forall (timely w days_ahead) (snd st) ->
  Forall (timely w days_ahead) (snd (finviz_row w days_ahead st cells)).
Proof.
  destruct st as [current_date earnings]. unfold finviz_row. intros Hst.
  destruct (match cells with [c] => Soup.truthy (Soup.colspan c) | _ => false end).
  - destruct cells; assumption.
  - destruct cells as [|c0 [|c1 [|c2 rest]]]; try assumption.
    destruct current_date as [cur|]; try assumption.
    destruct (Soup.a c1) as [ticker_elem|]; try assumption.
    destruct (Text.nonempty (Soup.a_text ticker_elem)) eqn:Et; try assumption.
    destruct (within_days_ahead w cur days_ahead) eqn:Ed; try assumption.
    simpl. apply Forall_snoc; [assumption|]. split; simpl.
    + now apply nonempty_spec.
    + now apply within_days_ahead_spec.
Qed.

Lemma finviz_records (w : World) (days_ahead : Z) :
  Forall (timely w days_ahead) (_scrape_finviz_earnings w days_ahead).
Proof.
  unfold _scrape_finviz_earnings.
  destruct (finviz_calendar w) as [[rows|]|e]; try constructor.
  apply (fold_left_invariant (finviz_row w days_ahead)
           (fun st => Forall (timely w days_ahead) (snd st))).
  - intros st x. apply finviz_row_keeps.
  - constructor.
Qed.

Lemma yahoo_row_keeps (w : World) (days_ahead : Z)
      (earnings : list EarningsRecord) (cells : Soup.Row) :
  Forall (timely w days_ahead) earnings ->
  Forall (timely w days_ahead) (yahoo_row w (now w) days_ahead earnings cells).
Proof.
  unfold yahoo_row. intros Hst.
  destruct cells as [|c0 [|c1 [|c2 [|c3 rest]]]]; try assumption.
  destruct (Soup.a c0) as [ticker_link|]; try assumption.
  destruct (Text.nonempty (Soup.a_text ticker_link)) eqn:Et; try assumption.
  destruct (within_days_ahead w (Calendar.date_of (now w)) days_ahead) eqn:Ed;
    try assumption.
  simpl. apply Forall_snoc; [assumption|]. split; simpl.
  - now apply nonempty_spec.
  - now apply within_days_ahead_spec.
Qed.

Lemma yahoo_records (w : World) (days_ahead : Z) :
  Forall (timely w days_ahead) (_scrape_yahoo_finance_api w days_ahead).
Proof.
  unfold _scrape_yahoo_finance_api.
  destruct (_ <- days_delta days_ahead ;; _) as [tables|e]; try constructor.
  apply (fold_left_invariant
           (fun earnings table =>
              fold_left (yahoo_row w (now w) days_ahead) (tl table) earnings)
           (Forall (timely w days_ahead))); [|constructor].
  intros st table Hst.
  apply (fold_left_invariant (yahoo_row w (now w) days_ahead)
           (Forall (timely w days_ahead))); [|assumption].
  intros st' cells. apply yahoo_row_keeps.
Qed.

Lemma investing_records (w : World) (days_ahead : Z) :
  Forall has_ticker (_scrape_investing_earnings w days_ahead).
Proof.
  unfold _scrape_investing_earnings.
  destruct (investing_calendar w) as [[rows|]|e]; try constructor.
  apply (fold_left_invariant (investing_row w) (Forall has_ticker));
    [|constructor].
  intros earnings cells Hst. unfold investing_row.
  destruct cells as [|c0 [|c1 [|c2 [|c3 rest]]]]; try assumption.
  destruct (Soup.a c1) as [company_link|]; try assumption.
  destruct (Text.nonempty (investing_ticker company_link c0)) eqn:Et;
    try assumption.
  destruct (Text.nonempty (Soup.a_text company_link)); try assumption.
  simpl. apply Forall_snoc; [assumption|]. now apply nonempty_spec.
Qed.

Lemma marketwatch_records (w : World) (days_ahead : Z) :
  Forall has_ticker (_scrape_marketwatch_earnings w days_ahead).
Proof.
  unfold _scrape_marketwatch_earnings.
  destruct (marketwatch_calendar w) as [tables|e]; try constructor.
  apply (fold_left_invariant
           (fun earnings table => fold_left (marketwatch_row w) (tl table) earnings)
           (Forall has_ticker)); [|constructor].
  intros st table Hst.
  apply (fold_left_invariant (marketwatch_row w) (Forall has_ticker));
    [|assumption].
  intros earnings cells Hearn. unfold marketwatch_row.
  destruct cells as [|c0 [|c1 [|c2 rest]]]; try assumption.
  destruct (Text.nonempty
              match Soup.a c0 with
              | Some ticker_link => Soup.a_text ticker_link
              | None => Soup.text c0
              end) eqn:Et; try assumption.
  destruct (Text.nonempty (Soup.text c1)); try assumption.
  simpl. apply Forall_snoc; [assumption|]. now apply nonempty_spec.
Qed.

End AdapterFacts.

(** C4, as the code has it.  The two adapters that test the date, Finviz
    (which resolves it from the page) and Yahoo, include a record only if
    its date is at most [days_ahead] days after today.  No lower bound is
    tested. *)
Theorem earnings_date_at_most_days_ahead
        (w : World) (days_ahead : Z) (r : EarningsScraper.EarningsRecord) :
  In r (EarningsScraper._scrape_finviz_earnings w days_ahead) \/
  In r (EarningsScraper._scrape_yahoo_finance_api w days_ahead) ->
  Calendar.toordinal (EarningsScraper.date r) <=
  Calendar.toordinal (EarningsScraper.today w) + days_ahead.
Proof.
  intros [Hin | Hin].
  - pose proof (AdapterFacts.finviz_records w days_ahead) as H.
    rewrite Forall_forall in H. now apply H.
  - pose proof (AdapterFacts.yahoo_records w days_ahead) as H.
    rewrite Forall_forall in H. now apply H.
Qed.

Lemma earnings_date_at_most_days_ahead_witness :
  Calendar.toordinal (Calendar.mkdate 2024 2 5) <=
  Calendar.toordinal (EarningsScraper.today Scenario.finviz_last_week) + 30.
Proof.
  apply (earnings_date_at_most_days_ahead Scenario.finviz_last_week 30
           (EarningsScraper.mkEarningsRecord
              "AAPL" "Apple Inc." (Calendar.mkdate 2024 2 5)
              "Before Market Open" "Finviz")).
  left. vm_compute. left. reflexivity.
Defined.

(** C4 as stated fails: with today on 12 February 2024 and thirty days
    ahead, the Finviz adapter includes a record dated 5 February, a week
    before today. *)
Lemma finviz_keeps_date_before_today :
  exists r,
    In r (EarningsScraper._scrape_finviz_earnings Scenario.finviz_last_week 30) /\
    EarningsScraper.date r = Calendar.mkdate 2024 2 5 /\
    EarningsScraper.today Scenario.finviz_last_week = Calendar.mkdate 2024 2 12 /\
    ~ (Calendar.toordinal (EarningsScraper.today Scenario.finviz_last_week) <=
       Calendar.toordinal (EarningsScraper.date r)).
Proof.
  exists (EarningsScraper.mkEarningsRecord
            "AAPL" "Apple Inc." (Calendar.mkdate 2024 2 5)
            "Before Market Open" "Finviz").
  split; [vm_compute; left; reflexivity|].
  split; [reflexivity|]. split; [reflexivity|].
  vm_compute. intros H. apply H. reflexivity.
Qed.

(** ** Ticker symbols *)

Module TickerFacts.

Import Text.

Lemma upper_char_idem (c : ascii) : upper_char (upper_char c) = upper_char c.
Proof.
  destruct c as [b0 b1 b2 b3 b4 b5 b6 b7].
  destruct b0, b1, b2, b3, b4, b5, b6, b7; reflexivity.
Qed.

Lemma upper_idem (s : string) : upper (upper s) = upper s.
Proof.
  unfold upper. induction s as [|c t IH]; simpl; [reflexivity|].
  now rewrite upper_char_idem, IH.
Qed.

Lemma upper_cons (c : ascii) (t : string) :
  upper (String c t) = String c t <-> upper_char c = c /\ upper t = t.
Proof.
  unfold upper. simpl. split.
  - intros H. injection H as Hc Ht. now split.
  - intros [-> ->]. reflexivity.
Qed.

Lemma upper_lstrip (s : string) : upper s = s -> upper (lstrip s) = lstrip s.
Proof.
  induction s as [|c t IH]; simpl; intros H; [reflexivity|].
  destruct (isspace c); [|exact H].
  apply IH. now apply upper_cons in H.
Qed.

Lemma upper_rstrip (s : string) : upper s = s -> upper (rstrip s) = rstrip s.
Proof.
  induction s as [|c t IH]; simpl; intros H; [reflexivity|].
  apply upper_cons in H. destruct H as [Hc Ht]. specialize (IH Ht).
  destruct (rstrip t) as [|c' r].
  - destruct (isspace c); [reflexivity|]. now apply upper_cons.
  - now apply upper_cons.
Qed.

Lemma upper_take (n : nat) : forall s, upper s = s -> upper (take n s) = take n s.
Proof.
  induction n as [|n IH]; intros s H; [reflexivity|].
  destruct s as [|c t]; [reflexivity|]. simpl.
  apply upper_cons in H. destruct H as [Hc Ht].
  apply upper_cons. split; [assumption | now apply IH].
Qed.

Lemma upper_remove_char (c : ascii) (s : string) :
  upper s = s -> upper (remove_char c s) = remove_char c s.
Proof.
  induction s as [|a t IH]; simpl; intros H; [reflexivity|].
  apply upper_cons in H. destruct H as [Ha Ht].
  destruct (Ascii.eqb a c); [now apply IH|].
  apply upper_cons. split; [assumption | now apply IH].
Qed.

Lemma upper_strip_suffix (ticker suffix : string) :
  upper ticker = ticker ->
  upper (Utils.strip_suffix ticker suffix) = Utils.strip_suffix ticker suffix.
Proof.
  intros H. unfold Utils.strip_suffix, drop_last.
  destruct (endswith suffix ticker); [now apply upper_take | exact H].
Qed.

(** What [clean_ticker] returns has no lower-case letter. *)
Lemma clean_ticker_uppercase (ticker : string) :
  upper (Utils.clean_ticker ticker) = Utils.clean_ticker ticker.
Proof.
  unfold Utils.clean_ticker.
  destruct (negb (nonempty ticker)); [reflexivity|].
  apply upper_remove_char.
  apply (fold_left_invariant Utils.strip_suffix (fun t => upper t = t)).
  - intros t suffix. apply upper_strip_suffix.
  - unfold strip. apply upper_rstrip, upper_lstrip, upper_idem.
Qed.

(** The rows of the table are rows that some adapter returned. *)
Lemma table_rows_from_adapters (w : World) (days_ahead : Z)
      (table : list EarningsScraper.EarningsRecord)
      (r : EarningsScraper.EarningsRecord) :
  EarningsScraper.get_earnings_calendar w days_ahead = Ok table ->
  In r table ->
  In r (EarningsScraper._scrape_finviz_earnings w days_ahead) \/
  In r (EarningsScraper._scrape_investing_earnings w days_ahead) \/
  In r (EarningsScraper._scrape_yahoo_finance_api w days_ahead) \/
  In r (EarningsScraper._scrape_marketwatch_earnings w days_ahead).
Proof.
  unfold EarningsScraper.get_earnings_calendar.
  rewrite EarningsFacts.get_earnings_calendar_from_eq.
  intros Htable Hin. injection Htable as <-.
  apply sort_values_In in Hin.
  apply (drop_duplicates_In _ _ EarningsFacts.dedup_key_eqb_eq) in Hin.
  apply find_some in Hin. destruct Hin as [Hin _].
  simpl in Hin. unfold EarningsScraper.contribution in Hin.
  rewrite app_nil_r in Hin. rewrite !in_app_iff in Hin. tauto.
Qed.

End TickerFacts.

(** C9, as the code has it.  Every record of the earnings table has a
    non-empty ticker and is a record that one of the four adapters built
    from its page: the ticker is the scraped text, to which the pipeline
    applies no case normalisation. *)
Theorem earnings_tickers_nonempty
        (w : World) (days_ahead : Z)
        (table : list EarningsScraper.EarningsRecord)
        (r : EarningsScraper.EarningsRecord) :
  EarningsScraper.get_earnings_calendar w days_ahead = Ok table ->
  In r table ->
  EarningsScraper.ticker r <> "" /\
  (In r (EarningsScraper._scrape_finviz_earnings w days_ahead) \/
   In r (EarningsScraper._scrape_investing_earnings w days_ahead) \/
   In r (EarningsScraper._scrape_yahoo_finance_api w days_ahead) \/
   In r (EarningsScraper._scrape_marketwatch_earnings w days_ahead)).
Proof.
  intros Htable Hin.
  pose proof (TickerFacts.table_rows_from_adapters w days_ahead table r Htable Hin)
    as Hrow.
  split; [|exact Hrow].
  pose proof (AdapterFacts.finviz_records w days_ahead) as Hf.
  pose proof (AdapterFacts.yahoo_records w days_ahead) as Hy.
  pose proof (AdapterFacts.investing_records w days_ahead) as Hi.
  pose proof (AdapterFacts.marketwatch_records w days_ahead) as Hm.
  rewrite Forall_forall in Hf, Hy, Hi, Hm.
  destruct Hrow as [H | [H | [H | H]]].
  - now apply Hf.
  - now apply Hi.
  - now apply Hy.
  - now apply Hm.
Qed.

Lemma earnings_tickers_nonempty_witness :
  "aapl" <> "" /\
  (In (EarningsScraper.mkEarningsRecord
         "aapl" "Apple Inc." (Calendar.mkdate 2024 2 12)
         "After Market Close" "Finviz")
      (EarningsScraper._scrape_finviz_earnings Scenario.finviz_lower_case 30) \/
   In (EarningsScraper.mkEarningsRecord
         "aapl" "Apple Inc." (Calendar.mkdate 2024 2 12)
         "After Market Close" "Finviz")
      (EarningsScraper._scrape_investing_earnings Scenario.finviz_lower_case 30) \/
   In (EarningsScraper.mkEarningsRecord
         "aapl" "Apple Inc." (Calendar.mkdate 2024 2 12)
         "After Market Close" "Finviz")
      (EarningsScraper._scrape_yahoo_finance_api Scenario.finviz_lower_case 30) \/
   In (EarningsScraper.mkEarningsRecord
         "aapl" "Apple Inc." (Calendar.mkdate 2024 2 12)
         "After Market Close" "Finviz")
      (EarningsScraper._scrape_marketwatch_earnings Scenario.finviz_lower_case 30)).
Proof.
  apply (earnings_tickers_nonempty Scenario.finviz_lower_case 30
           [EarningsScraper.mkEarningsRecord
              "aapl" "Apple Inc." (Calendar.mkdate 2024 2 12)
              "After Market Close" "Finviz"]
           (EarningsScraper.mkEarningsRecord
              "aapl" "Apple Inc." (Calendar.mkdate 2024 2 12)
              "After Market Close" "Finviz")).
  - vm_compute. reflexivity.
  - simpl. left. reflexivity.
Defined.

(** C9 as stated fails: Finviz spells a symbol [aapl]; the table carries
    it unchanged, and it is not an uppercase symbol. *)
Lemma earnings_ticker_not_uppercase :
  exists table r,
    EarningsScraper.get_earnings_calendar Scenario.finviz_lower_case 30 = Ok table /\
    In r table /\
    EarningsScraper.ticker r = "aapl" /\
    Text.upper (EarningsScraper.ticker r) <> EarningsScraper.ticker r.
Proof.
  eexists. eexists. split; [vm_compute; reflexivity|].
  split; [left; reflexivity|]. split; [reflexivity|].
  vm_compute. discriminate.
Qed.

(** ** The news date parser *)

Module NewsDateFacts.

Import NewsScraper.

Lemma parse_news_date_some (w : World) (date_str : string) :
  exists d, _parse_news_date w date_str = Some d.
Proof.
  unfold _parse_news_date.
  destruct (negb (Text.nonempty date_str)); [eauto|].
  destruct (parse_news_date_try w date_str) as [[d|]|e]; eauto.
Qed.

Lemma parse_news_date_fallback (w : World) (date_str : string) :
  (forall d, parse_news_date_try w date_str <> Ok (Some d)) ->
  _parse_news_date w date_str = Some (now w).
Proof.
  intros Hno. unfold _parse_news_date.
  destruct (negb (Text.nonempty date_str)); [reflexivity|].
  destruct (parse_news_date_try w date_str) as [[d|]|e]; try reflexivity.
  exfalso. now apply (Hno d).
Qed.

End NewsDateFacts.

(** ** The news adapters *)

Module NewsAdapterFacts.

Import NewsScraper.

Lemma for_each_value {I : Type} (body : I -> Eff (option NewsArticle))
      (items : list I) :
  forall acc,
    value (for_each body items acc) =
    acc ++ flat_map (fun item => appended (value (body item))) items.
Proof.
  induction items as [|item rest IH]; intros acc; simpl.
  - now rewrite app_nil_r.
  - rewrite NewsFacts.value_and_then, IH.
    destruct (value (body item)); simpl.
    + now rewrite <- app_assoc.
    + reflexivity.
Qed.

Lemma for_each_calls {I : Type} (body : I -> Eff (option NewsArticle))
      (items : list I) :
  forall acc,
    calls (for_each body items acc) = flat_map (fun item => calls (body item)) items.
Proof.
  induction items as [|item rest IH]; intros acc; simpl.
  - reflexivity.
  - now rewrite NewsFacts.calls_and_then, IH.
Qed.

End NewsAdapterFacts.

Module TurnFacts.

Import NewsScraper.

Lemma turn_value (w : World) (P : NewsArticle -> Prop)
      (m : Eff (option NewsArticle)) (x : NewsArticle) :
  turn w P m -> value m = Some x ->
  P (without_content x) /\
  summary x = art_summary (value (_parse_article w (url x))) /\
  full_text x = art_text (value (_parse_article w (url x))).
Proof.
  intros [-> | (t & ti & u & d & s & -> & HP)]; simpl; [discriminate|].
  intros H. injection H as <-. simpl. auto.
Qed.

Lemma turn_calls (w : World) (P : NewsArticle -> Prop)
      (m : Eff (option NewsArticle)) :
  turn w P m -> calls m = map url (appended (value m)).
Proof.
  intros [-> | (t & ti & u & d & s & -> & HP)]; reflexivity.
Qed.

Lemma yahoo_item_turn (w : World) (ticker_ : string) (item : Soup.YahooItem) :
  turn w (parsed_date w) (yahoo_item w ticker_ item).
Proof.
  unfold yahoo_item.
  destruct (Soup.y_a item) as [link_elem|]; [|now left].
  match goal with
  | |- turn _ _ (match ?u with Some _ => _ | None => _ end) =>
      destruct u as [u'|]; [|now left]
  end.
  match goal with
  | |- turn _ _ (if ?c then _ else _) => destruct c; [|now left]
  end.
  right. do 5 eexists. split; [reflexivity|]. eexists. reflexivity.
Qed.

Lemma marketwatch_item_turn (w : World) (ticker_ : string)
      (item : Soup.MarketWatchItem) :
  turn w (parsed_date w) (marketwatch_item w ticker_ item).
Proof.
  unfold marketwatch_item.
  destruct (Soup.mw_link item) as [link_elem|]; [|now left].
  match goal with
  | |- turn _ _ (match ?u with Some _ => _ | None => _ end) =>
      destruct u as [u'|]; [|now left]
  end.
  match goal with
  | |- turn _ _ (if ?c then _ else _) => destruct c; [|now left]
  end.
  right. do 5 eexists. split; [reflexivity|]. eexists. reflexivity.
Qed.

Lemma google_item_turn (w : World) (ticker_ : string) (days_back : Z)
      (item : Soup.RssItem) :
  turn w (recent w days_back) (google_item w ticker_ days_back item).
Proof.
  unfold google_item.
  destruct (Soup.rss_title item) as [title_|]; [|now left].
  destruct (Soup.rss_link item) as [link|]; [|now left].
  destruct (Soup.rss_pubDate item) as [pub_date|]; [|now left].
  simpl.
  destruct (too_old w (_parse_news_date w pub_date) days_back) as [[|]|e] eqn:Eold;
    simpl; try now left.
  right. do 5 eexists. split; [reflexivity|]. split; [|exact Eold].
  eexists. reflexivity.
Qed.

(** The three adapters, as loops of such turns. *)
Lemma for_each_articles {I : Type} (w : World) (P : NewsArticle -> Prop)
      (body : I -> Eff (option NewsArticle)) (items : list I) (x : NewsArticle) :
  (forall item, turn w P (body item)) ->
  In x (value (for_each body items [])) ->
  P (without_content x) /\
  summary x = art_summary (value (_parse_article w (url x))) /\
  full_text x = art_text (value (_parse_article w (url x))).
Proof.
  intros Hturn. rewrite NewsAdapterFacts.for_each_value. simpl.
  rewrite in_flat_map. intros [item [_ Hx]].
  apply (turn_value w P (body item)); [apply Hturn|].
  destruct (value (body item)) as [y|]; simpl in Hx; [|contradiction].
  destruct Hx as [-> | []]. reflexivity.
Qed.

Lemma for_each_calls_urls {I : Type} (w : World) (P : NewsArticle -> Prop)
      (body : I -> Eff (option NewsArticle)) (items : list I) :
  (forall item, turn w P (body item)) ->
  calls (for_each body items []) = map url (value (for_each body items [])).
Proof.
  intros Hturn.
  rewrite NewsAdapterFacts.for_each_calls, NewsAdapterFacts.for_each_value.
  simpl. induction items as [|item rest IH]; simpl; [reflexivity|].
  rewrite map_app, IH. f_equal. apply (turn_calls w P), Hturn.
Qed.

Lemma for_each_length {I : Type} (w : World) (P : NewsArticle -> Prop)
      (body : I -> Eff (option NewsArticle)) (items : list I) :
  (forall item, turn w P (body item)) ->
  (List.length (value (for_each body items [])) <= List.length items)%nat.
Proof.
  intros Hturn. rewrite NewsAdapterFacts.for_each_value. simpl.
  induction items as [|item rest IH]; simpl; [lia|].
  rewrite length_app.
  destruct (value (body item)); simpl; lia.
Qed.

End TurnFacts.

Module AdapterShape.

Import NewsScraper.

Lemma yahoo_news_facts (w : World) (ticker_ : string) (days_back : Z) :
  let m := _get_yahoo_news w ticker_ days_back in
  calls m = map url (value m) /\
  (List.length (value m) <= 5)%nat /\
  (forall x, In x (value m) ->
             parsed_date w (without_content x) /\
             summary x = art_summary (value (_parse_article w (url x))) /\
             full_text x = art_text (value (_parse_article w (url x)))).
Proof.
  unfold _get_yahoo_news.
  destruct (yahoo_news w ticker_) as [items|e];
    [|simpl; repeat split; try lia; contradiction].
  pose proof (TurnFacts.yahoo_item_turn w ticker_) as Hturn.
  split; [|split].
  - now apply (TurnFacts.for_each_calls_urls w (parsed_date w)).
  - etransitivity;
      [apply (TurnFacts.for_each_length w (parsed_date w)); assumption|].
    apply firstn_le_length.
  - intros x Hx.
    now apply (TurnFacts.for_each_articles w (parsed_date w)) in Hx.
Qed.

Lemma marketwatch_news_facts (w : World) (ticker_ : string) (days_back : Z) :
  let m := _get_marketwatch_news w ticker_ days_back in
  calls m = map url (value m) /\
  (List.length (value m) <= 5)%nat /\
  (forall x, In x (value m) ->
             parsed_date w (without_content x) /\
             summary x = art_summary (value (_parse_article w (url x))) /\
             full_text x = art_text (value (_parse_article w (url x)))).
Proof.
  unfold _get_marketwatch_news.
  destruct (marketwatch_news w ticker_) as [items|e];
    [|simpl; repeat split; try lia; contradiction].
  pose proof (TurnFacts.marketwatch_item_turn w ticker_) as Hturn.
  split; [|split].
  - now apply (TurnFacts.for_each_calls_urls w (parsed_date w)).
  - etransitivity;
      [apply (TurnFacts.for_each_length w (parsed_date w)); assumption|].
    apply firstn_le_length.
  - intros x Hx.
    now apply (TurnFacts.for_each_articles w (parsed_date w)) in Hx.
Qed.

Lemma google_news_facts (w : World) (ticker_ : string) (days_back : Z) :
  let m := _get_google_news w ticker_ days_back in
  calls m = map url (value m) /\
  (List.length (value m) <= 3)%nat /\
  (forall x, In x (value m) ->
             recent w days_back (without_content x) /\
             summary x = art_summary (value (_parse_article w (url x))) /\
             full_text x = art_text (value (_parse_article w (url x)))).
Proof.
  unfold _get_google_news.
  destruct (google_news w ticker_) as [items|e];
    [|simpl; repeat split; try lia; contradiction].
  pose proof (TurnFacts.google_item_turn w ticker_ days_back) as Hturn.
  split; [|split].
  - now apply (TurnFacts.for_each_calls_urls w (recent w days_back)).
  - etransitivity;
      [apply (TurnFacts.for_each_length w (recent w days_back)); assumption|].
    apply firstn_le_length.
  - intros x Hx.
    now apply (TurnFacts.for_each_articles w (recent w days_back)) in Hx.
Qed.

Lemma value_lift (adapter : string -> Z -> Eff (list NewsArticle))
      (ticker_ : string) (days_back : Z) :
  value (lift adapter ticker_ days_back) = Ok (value (adapter ticker_ days_back)).
Proof. unfold lift. now rewrite NewsFacts.value_and_then. Qed.

Lemma calls_lift (adapter : string -> Z -> Eff (list NewsArticle))
      (ticker_ : string) (days_back : Z) :
  calls (lift adapter ticker_ days_back) = calls (adapter ticker_ days_back).
Proof.
  unfold lift. rewrite NewsFacts.calls_and_then. simpl. apply app_nil_r.
Qed.

Lemma ticker_news_loop_calls (sources : list Source) (ticker_ : string)
      (days_back : Z) :
  forall acc,
    calls (ticker_news_loop sources ticker_ days_back acc) =
    flat_map (fun s => calls (s ticker_ days_back)) sources.
Proof.
  induction sources as [|s rest IH]; intros acc; simpl; [reflexivity|].
  now rewrite NewsFacts.calls_and_then, IH.
Qed.

Lemma tickers_loop_calls (sources : list Source) (tickers : list string)
      (days_back : Z) :
  forall acc,
    calls (tickers_loop sources tickers days_back acc) =
    flat_map (fun t => flat_map (fun s => calls (s t days_back)) sources) tickers.
Proof.
  induction tickers as [|t rest IH]; intros acc; simpl; [reflexivity|].
  rewrite NewsFacts.calls_and_then, IH. unfold _get_ticker_news_from.
  now rewrite ticker_news_loop_calls.
Qed.

Lemma get_news_for_tickers_from_calls (sources : list Source)
      (tickers : list string) (days_back : Z) :
  calls (get_news_for_tickers_from sources tickers days_back) =
  flat_map (fun t => flat_map (fun s => calls (s t days_back)) sources) tickers.
Proof.
  unfold get_news_for_tickers_from.
  rewrite NewsFacts.calls_and_then, tickers_loop_calls.
  destruct (value (tickers_loop sources tickers days_back [])); simpl;
    apply app_nil_r.
Qed.

(** The articles and the calls of [_get_ticker_news], adapter by adapter. *)
Lemma ticker_news_value (w : World) (ticker_ : string) (days_back : Z) :
  value (_get_ticker_news w ticker_ days_back) =
  value (_get_yahoo_news w ticker_ days_back) ++
  value (_get_marketwatch_news w ticker_ days_back) ++
  value (_get_google_news w ticker_ days_back).
Proof.
  unfold _get_ticker_news, _get_ticker_news_from.
  rewrite NewsFacts.ticker_news_loop_value. simpl.
  unfold contribution. rewrite !value_lift. now rewrite app_nil_r.
Qed.

Lemma ticker_news_calls (w : World) (ticker_ : string) (days_back : Z) :
  calls (_get_ticker_news w ticker_ days_back) =
  calls (_get_yahoo_news w ticker_ days_back) ++
  calls (_get_marketwatch_news w ticker_ days_back) ++
  calls (_get_google_news w ticker_ days_back).
Proof.
  unfold _get_ticker_news, _get_ticker_news_from.
  rewrite ticker_news_loop_calls. simpl.
  rewrite !calls_lift. now rewrite app_nil_r.
Qed.

Lemma gathered_articles (w : World) (tickers : list string) (days_back : Z) :
  flat_map (fun t => flat_map (contribution t days_back) (sources w)) tickers =
  flat_map (fun t => value (_get_ticker_news w t days_back)) tickers.
Proof.
  apply flat_map_ext. intros t.
  unfold _get_ticker_news, _get_ticker_news_from.
  now rewrite NewsFacts.ticker_news_loop_value.
Qed.

End AdapterShape.

(** C7, as the code has it.  Every article the Google News adapter emits
    has a date whose distance to now, counted in whole days
    ([(now - date).days]), is at most [days_back]: an article is excluded
    once it is [days_back + 1] full days old, not before. *)
Theorem google_news_age_bound
        (w : World) (ticker_ : string) (days_back : Z)
        (x : NewsScraper.NewsArticle) :
  In x (NewsScraper.value (NewsScraper._get_google_news w ticker_ days_back)) ->
  exists d age,
    NewsScraper.date x = Some d /\
    Calendar.datetime_sub (now w) d = Ok age /\
    Calendar.days age <= days_back.
Proof.
  intros Hin.
  destruct (AdapterShape.google_news_facts w ticker_ days_back) as [_ [_ H]].
  destruct (H x Hin) as [[[date_str Hdate] Hold] _]. simpl in Hdate, Hold.
  destruct (NewsDateFacts.parse_news_date_some w date_str) as [d Hd].
  rewrite Hdate, Hd in Hold. rewrite Hdate, Hd.
  unfold NewsScraper.too_old in Hold.
  destruct (Calendar.datetime_sub (now w) d) as [age|e] eqn:Eage;
    simpl in Hold; [|discriminate].
  exists d, age. split; [reflexivity|]. split; [exact Eage|].
  injection Hold as Hold. now apply Z.ltb_ge.
Qed.

Lemma google_news_age_bound_witness :
  exists d age,
    Some (Calendar.mkdatetime 2024 2 5 8 0 0 0 None) = Some d /\
    Calendar.datetime_sub (now Scenario.google_week_old) d = Ok age /\
    Calendar.days age <= 7.
Proof.
  apply (google_news_age_bound Scenario.google_week_old "AAPL" 7
           (NewsScraper.mkNewsArticle
              "AAPL" "Apple beats estimates" "https://news.example.com/apple"
              (Some (Calendar.mkdatetime 2024 2 5 8 0 0 0 None))
              "" "" "Google News")).
  vm_compute. left. reflexivity.
Defined.

(** C7 as stated fails: at 09:00 on 12 February 2024 with [days_back = 7],
    an item published at 08:00 on 5 February is older than now minus seven
    days, and the adapter emits it. *)
Lemma google_keeps_article_older_than_days_back :
  exists x d,
    In x (NewsScraper.value
            (NewsScraper._get_google_news Scenario.google_week_old "AAPL" 7)) /\
    NewsScraper.date x = Some d /\
    Calendar.utc_us d <
    Calendar.utc_us (now Scenario.google_week_old) - 7 * Calendar.US_PER_DAY.
Proof.
  eexists. eexists. split; [vm_compute; left; reflexivity|].
  split; [reflexivity|]. vm_compute. reflexivity.
Qed.

(** C8.  Per ticker the Yahoo and MarketWatch adapters emit at most five
    articles and the Google adapter at most three, each with one call of
    the content extractor; so [get_news_for_tickers] makes at most
    [N * 3 * 5] such calls (indeed at most [13 * N]) for [N] tickers. *)
Theorem extraction_calls_bounded
        (w : World) (tickers : list string) (days_back : Z) :
  (forall t,
      (List.length (NewsScraper.value (NewsScraper._get_yahoo_news w t days_back)) <= 5 /\
       List.length (NewsScraper.calls (NewsScraper._get_yahoo_news w t days_back)) <= 5 /\
       List.length (NewsScraper.value (NewsScraper._get_marketwatch_news w t days_back)) <= 5 /\
       List.length (NewsScraper.calls (NewsScraper._get_marketwatch_news w t days_back)) <= 5 /\
       List.length (NewsScraper.value (NewsScraper._get_google_news w t days_back)) <= 3 /\
       List.length (NewsScraper.calls (NewsScraper._get_google_news w t days_back)) <= 3)%nat)
  /\
  (List.length (NewsScraper.calls (NewsScraper.get_news_for_tickers w tickers days_back))
   <= List.length tickers * List.length (NewsScraper.sources w) * 5)%nat
  /\
  (List.length (NewsScraper.calls (NewsScraper.get_news_for_tickers w tickers days_back))
   <= 13 * List.length tickers)%nat.
Proof.
  assert (Hper : forall t,
    (List.length (NewsScraper.value (NewsScraper._get_yahoo_news w t days_back)) <= 5 /\
     List.length (NewsScraper.calls (NewsScraper._get_yahoo_news w t days_back)) <= 5 /\
     List.length (NewsScraper.value (NewsScraper._get_marketwatch_news w t days_back)) <= 5 /\
     List.length (NewsScraper.calls (NewsScraper._get_marketwatch_news w t days_back)) <= 5 /\
     List.length (NewsScraper.value (NewsScraper._get_google_news w t days_back)) <= 3 /\
     List.length (NewsScraper.calls (NewsScraper._get_google_news w t days_back)) <= 3)%nat).
  { intros t.
    destruct (AdapterShape.yahoo_news_facts w t days_back) as [Hy1 [Hy2 _]].
    destruct (AdapterShape.marketwatch_news_facts w t days_back) as [Hm1 [Hm2 _]].
    destruct (AdapterShape.google_news_facts w t days_back) as [Hg1 [Hg2 _]].
    simpl in *. rewrite Hy1, Hm1, Hg1, !length_map. lia. }
  assert (Htotal :
    (List.length (NewsScraper.calls (NewsScraper.get_news_for_tickers w tickers days_back))
     <= 13 * List.length tickers)%nat).
  { unfold NewsScraper.get_news_for_tickers.
    rewrite AdapterShape.get_news_for_tickers_from_calls.
    induction tickers as [|t rest IH]; simpl; [lia|].
    rewrite !length_app, !AdapterShape.calls_lift. simpl in IH.
    destruct (Hper t) as (_ & Hy & _ & Hm & _ & Hg). simpl. lia. }
  split; [exact Hper|]. split; [|exact Htotal].
  simpl. lia.
Qed.

Module NewsTableFacts.

Import NewsScraper.

Lemma gathered_from_adapters (w : World) (tickers : list string)
      (days_back : Z) (x : NewsArticle) :
  In x (flat_map (fun t => flat_map (contribution t days_back) (sources w))
                 tickers) ->
  exists t,
    In t tickers /\
    (In x (value (_get_yahoo_news w t days_back)) \/
     In x (value (_get_marketwatch_news w t days_back)) \/
     In x (value (_get_google_news w t days_back))).
Proof.
  rewrite AdapterShape.gathered_articles. intros Hin.
  apply in_flat_map in Hin. destruct Hin as [t [Ht Hin]].
  rewrite AdapterShape.ticker_news_value in Hin.
  rewrite !in_app_iff in Hin. exists t. tauto.
Qed.

(** The rows of the news table are articles that some adapter emitted for
    some requested ticker. *)
Lemma news_rows_from_adapters (w : World) (tickers : list string)
      (days_back : Z) (table : list NewsArticle) (x : NewsArticle) :
  value (get_news_for_tickers w tickers days_back) = Ok table ->
  In x table ->
  exists t,
    In t tickers /\
    (In x (value (_get_yahoo_news w t days_back)) \/
     In x (value (_get_marketwatch_news w t days_back)) \/
     In x (value (_get_google_news w t days_back))).
Proof.
  unfold get_news_for_tickers. intros Htable Hin.
  apply NewsFacts.news_table in Htable. subst table.
  apply sort_values_In in Hin.
  apply (drop_duplicates_In _ _ String.eqb_eq) in Hin.
  apply find_some in Hin. destruct Hin as [Hin _].
  apply gathered_from_adapters. exact Hin.
Qed.

Lemma parsed_date_some (w : World) (x : NewsArticle) :
  parsed_date w (without_content x) -> date x <> None.
Proof.
  intros [date_str Hdate]. simpl in Hdate. rewrite Hdate.
  destruct (NewsDateFacts.parse_news_date_some w date_str) as [d ->].
  discriminate.
Qed.

End NewsTableFacts.

(** C10.  [_parse_news_date] returns a datetime for every text: the
    current time for the empty text and whenever its [try] block yields no
    date (it falls through or raises).  Hence every article of the news
    table carries a date. *)
Theorem parse_news_date_never_none (w : World) :
  (forall date_str, exists d, NewsScraper._parse_news_date w date_str = Some d) /\
  NewsScraper._parse_news_date w "" = Some (now w) /\
  (forall date_str,
      (forall d, NewsScraper.parse_news_date_try w date_str <> Ok (Some d)) ->
      NewsScraper._parse_news_date w date_str = Some (now w)) /\
  (forall tickers days_back table x,
      NewsScraper.value (NewsScraper.get_news_for_tickers w tickers days_back)
      = Ok table ->
      In x table -> NewsScraper.date x <> None).
Proof.
  split; [apply NewsDateFacts.parse_news_date_some|].
  split; [reflexivity|].
  split; [apply NewsDateFacts.parse_news_date_fallback|].
  intros tickers days_back table x Htable Hin.
  destruct (NewsTableFacts.news_rows_from_adapters
              w tickers days_back table x Htable Hin) as [t [_ Hx]].
  apply (NewsTableFacts.parsed_date_some w).
  destruct Hx as [Hx | [Hx | Hx]].
  - now apply (AdapterShape.yahoo_news_facts w t days_back).
  - now apply (AdapterShape.marketwatch_news_facts w t days_back).
  - now apply (AdapterShape.google_news_facts w t days_back).
Qed.

Lemma parse_news_date_never_none_witness :
  NewsScraper._parse_news_date Scenario.offline "next week"
  = Some (now Scenario.offline) /\
  NewsScraper.date Scenario.apple_article <> None.
Proof.
  split.
  - apply (proj1 (proj2 (proj2 (parse_news_date_never_none Scenario.offline)))).
    intros d. vm_compute. discriminate.
  - apply (proj2 (proj2 (proj2 (parse_news_date_never_none
                                  Scenario.yahoo_unreachable)))
             ["AAPL"] 7 [Scenario.apple_article] Scenario.apple_article).
    + vm_compute. reflexivity.
    + simpl. left. reflexivity.
Defined.

(** [%Z] reads the names under which the process knows its own time zone:
    a date that ends in "EST" is read, as a naive datetime, by a process
    in New York; in a process in UTC no format reads it, it holds no
    relative phrase, and the parser answers the current time. *)
Example zone_name_example :
  NewsScraper._parse_news_date Scenario.new_york "Mon, 05 Feb 2024 08:00:00 EST"
  = Some (Calendar.mkdatetime 2024 2 5 8 0 0 0 None) /\
  NewsScraper._parse_news_date Scenario.offline "Mon, 05 Feb 2024 08:00:00 EST"
  = Some (now Scenario.offline).
Proof. split; vm_compute; reflexivity. Qed.

(** C5, as the code has it.  No parser takes a fallback from its caller;
    each has its own.  When the [try] block of a parser falls through (no
    format and no relative phrase applies), [_parse_news_date] returns the
    current time, [_parse_finviz_date] returns today's date and
    [_parse_date] returns [None]; none of them raises. *)
Theorem date_parsers_fallback (w : World) (date_str : string) :
  (NewsScraper.parse_news_date_try w date_str = Ok None ->
   NewsScraper._parse_news_date w date_str = Some (now w)) /\
  (EarningsScraper.parse_finviz_date_try w date_str = Ok None ->
   EarningsScraper._parse_finviz_date w date_str = Some (EarningsScraper.today w)) /\
  (EarningsScraper.parse_date_try w date_str = Ok None ->
   EarningsScraper._parse_date w date_str = None).
Proof.
  split; [|split].
  - intros Htry. apply NewsDateFacts.parse_news_date_fallback. intros d.
    rewrite Htry. discriminate.
  - intros Htry. unfold EarningsScraper._parse_finviz_date. now rewrite Htry.
  - intros Htry. unfold EarningsScraper._parse_date. now rewrite Htry.
Qed.

Lemma date_parsers_fallback_witness :
  NewsScraper._parse_news_date Scenario.offline "next week"
  = Some (now Scenario.offline) /\
  EarningsScraper._parse_finviz_date Scenario.offline "next week"
  = Some (EarningsScraper.today Scenario.offline) /\
  EarningsScraper._parse_date Scenario.offline "next week" = None.
Proof.
  destruct (date_parsers_fallback Scenario.offline "next week") as [Hn [Hf Hd]].
  split; [|split].
  - apply Hn. vm_compute. reflexivity.
  - apply Hf. vm_compute. reflexivity.
  - apply Hd. vm_compute. reflexivity.
Defined.

(** C5 as stated fails: "next week" matches no format and no relative
    phrase of [_parse_date], which then returns [None], not a timestamp. *)
Lemma parse_date_returns_none :
  EarningsScraper.unparseable "next week" /\
  forall T, EarningsScraper._parse_date Scenario.offline "next week" <> Some T.
Proof.
  split.
  - unfold EarningsScraper.unparseable. vm_compute. repeat split.
  - intros T. vm_compute. discriminate.
Qed.

(** ** Content extraction *)

(** Two frames that agree under a view [f] which determines the keys stay
    in agreement through [drop_duplicates] and [sort_values]. *)
Section FrameCongruence.

Context {R M K : Type}.
Variable f : R -> M.

Lemma drop_duplicates_from_congr (key : R -> K) (key_eqb : K -> K -> bool) :
  (forall x y, f x = f y -> key x = key y) ->
  forall (l l' : list R) (seen : list K),
    map f l = map f l' ->
    map f (Pandas.drop_duplicates_from key key_eqb seen l) =
    map f (Pandas.drop_duplicates_from key key_eqb seen l').
Proof.
  intros Hkey l. induction l as [|r rest IH]; intros [|r' rest'] seen Hmap;
    simpl in *; try discriminate; [reflexivity|].
  injection Hmap as Hr Hrest. rewrite <- (Hkey r r' Hr).
  destruct (existsb (key_eqb (key r)) seen); simpl.
  - now apply IH.
  - rewrite Hr. f_equal. now apply IH.
Qed.

Lemma insert_row_congr (by_ : R -> option Z) (ascending : bool) :
  (forall x y, f x = f y -> by_ x = by_ y) ->
  forall (r r' : R) (l l' : list R),
    f r = f r' -> map f l = map f l' ->
    map f (Pandas.insert_row by_ ascending r l) =
    map f (Pandas.insert_row by_ ascending r' l').
Proof.
  intros Hby r r' l. induction l as [|x rest IH]; intros [|x' rest'] Hr Hmap;
    simpl in *; try discriminate; [now rewrite Hr|].
  injection Hmap as Hx Hrest.
  rewrite <- (Hby r r' Hr), <- (Hby x x' Hx).
  destruct (Pandas.before ascending (by_ r) (by_ x)); simpl.
  - now rewrite Hr, Hx, Hrest.
  - rewrite Hx. f_equal. now apply IH.
Qed.

Lemma sort_values_congr (by_ : R -> option Z) (ascending : bool) :
  (forall x y, f x = f y -> by_ x = by_ y) ->
  forall l l' : list R,
    map f l = map f l' ->
    map f (Pandas.sort_values by_ ascending l) =
    map f (Pandas.sort_values by_ ascending l').
Proof.
  intros Hby l. induction l as [|r rest IH]; intros [|r' rest'] Hmap;
    simpl in *; try discriminate; [reflexivity|].
  injection Hmap as Hr Hrest.
  apply insert_row_congr; [assumption | assumption | now apply IH].
Qed.

End FrameCongruence.

Module ContentFacts.

Import NewsScraper.

Lemma parse_news_date_with_newspaper (w : World)
      (f : string -> result ArticleData) (date_str : string) :
  _parse_news_date (with_newspaper w f) date_str = _parse_news_date w date_str.
Proof. reflexivity. Qed.

Lemma too_old_with_newspaper (w : World) (f : string -> result ArticleData)
      (d : option Calendar.datetime) (days_back : Z) :
  too_old (with_newspaper w f) d days_back = too_old w d days_back.
Proof. reflexivity. Qed.

Lemma make_article_without_content (w w' : World)
      (t ti u : string) (d : option Calendar.datetime) (s : string) :
  option_map without_content (value (make_article w' t ti u d s)) =
  option_map without_content (value (make_article w t ti u d s)).
Proof. reflexivity. Qed.

Lemma yahoo_item_without_content (w : World) (f : string -> result ArticleData)
      (ticker_ : string) (item : Soup.YahooItem) :
  option_map without_content (value (yahoo_item (with_newspaper w f) ticker_ item)) =
  option_map without_content (value (yahoo_item w ticker_ item)).
Proof.
  unfold yahoo_item.
  destruct (Soup.y_a item) as [link_elem|]; [|reflexivity].
  match goal with
  | |- context [match ?u with Some _ => _ | None => _ end] =>
      destruct u as [u'|]; [|reflexivity]
  end.
  match goal with
  | |- context [if ?c then _ else _] => destruct c; [|reflexivity]
  end.
  rewrite parse_news_date_with_newspaper. apply make_article_without_content.
Qed.

Lemma marketwatch_item_without_content (w : World)
      (f : string -> result ArticleData) (ticker_ : string)
      (item : Soup.MarketWatchItem) :
  option_map without_content
             (value (marketwatch_item (with_newspaper w f) ticker_ item)) =
  option_map without_content (value (marketwatch_item w ticker_ item)).
Proof.
  unfold marketwatch_item.
  destruct (Soup.mw_link item) as [link_elem|]; [|reflexivity].
  match goal with
  | |- context [match ?u with Some _ => _ | None => _ end] =>
      destruct u as [u'|]; [|reflexivity]
  end.
  match goal with
  | |- context [if ?c then _ else _] => destruct c; [|reflexivity]
  end.
  rewrite parse_news_date_with_newspaper. apply make_article_without_content.
Qed.

Lemma google_item_without_content (w : World) (f : string -> result ArticleData)
      (ticker_ : string) (days_back : Z) (item : Soup.RssItem) :
  option_map without_content
             (value (google_item (with_newspaper w f) ticker_ days_back item)) =
  option_map without_content (value (google_item w ticker_ days_back item)).
Proof.
  unfold google_item.
  destruct (Soup.rss_title item) as [title_|]; [|reflexivity].
  destruct (Soup.rss_link item) as [link|]; [|reflexivity].
  destruct (Soup.rss_pubDate item) as [pub_date|]; [|reflexivity].
  simpl bind. rewrite parse_news_date_with_newspaper, too_old_with_newspaper.
  destruct (too_old w (_parse_news_date w pub_date) days_back) as [[|]|e];
    reflexivity.
Qed.

Lemma for_each_without_content {I : Type}
      (body body' : I -> Eff (option NewsArticle)) (items : list I) :
  (forall item, option_map without_content (value (body' item)) =
                option_map without_content (value (body item))) ->
  map without_content (value (for_each body' items [])) =
  map without_content (value (for_each body items [])).
Proof.
  intros Hbody. rewrite !NewsAdapterFacts.for_each_value. simpl.
  induction items as [|item rest IH]; simpl; [reflexivity|].
  rewrite !map_app, IH. f_equal.
  specialize (Hbody item).
  destruct (value (body' item)), (value (body item));
    cbn [map appended option_map] in *; congruence.
Qed.

(** What an adapter emits does not depend on the downloader, content
    apart. *)
Lemma ticker_news_without_content (w : World) (f : string -> result ArticleData)
      (ticker_ : string) (days_back : Z) :
  map without_content (value (_get_ticker_news (with_newspaper w f) ticker_ days_back)) =
  map without_content (value (_get_ticker_news w ticker_ days_back)).
Proof.
  rewrite !AdapterShape.ticker_news_value, !map_app. f_equal; [|f_equal].
  - unfold _get_yahoo_news.
    change (yahoo_news (with_newspaper w f) ticker_) with (yahoo_news w ticker_).
    destruct (yahoo_news w ticker_); [|reflexivity].
    apply for_each_without_content. intros item.
    apply yahoo_item_without_content.
  - unfold _get_marketwatch_news.
    change (marketwatch_news (with_newspaper w f) ticker_)
      with (marketwatch_news w ticker_).
    destruct (marketwatch_news w ticker_); [|reflexivity].
    apply for_each_without_content. intros item.
    apply marketwatch_item_without_content.
  - unfold _get_google_news.
    change (google_news (with_newspaper w f) ticker_) with (google_news w ticker_).
    destruct (google_news w ticker_); [|reflexivity].
    apply for_each_without_content. intros item.
    apply google_item_without_content.
Qed.

Lemma table_without_content (w : World) (f : string -> result ArticleData)
      (tickers : list string) (days_back : Z) (table table' : list NewsArticle) :
  value (get_news_for_tickers w tickers days_back) = Ok table ->
  value (get_news_for_tickers (with_newspaper w f) tickers days_back) = Ok table' ->
  map without_content table' = map without_content table.
Proof.
  unfold get_news_for_tickers. intros H H'.
  apply NewsFacts.news_table in H, H'. subst table table'.
  rewrite !AdapterShape.gathered_articles.
  apply sort_values_congr.
  { intros x y Hxy. unfold timestamp.
    now rewrite (f_equal date Hxy : date x = date y). }
  apply (drop_duplicates_from_congr without_content url String.eqb).
  { intros x y Hxy. exact (f_equal url Hxy). }
  induction tickers as [|t rest IH]; simpl; [reflexivity|].
  rewrite !map_app, IH. f_equal. apply ticker_news_without_content.
Qed.

End ContentFacts.

Module ExtractionFacts.

Import NewsScraper.

Lemma ticker_news_calls_urls (w : World) (ticker_ : string) (days_back : Z) :
  calls (_get_ticker_news w ticker_ days_back) =
  map url (value (_get_ticker_news w ticker_ days_back)).
Proof.
  rewrite AdapterShape.ticker_news_calls, AdapterShape.ticker_news_value.
  rewrite !map_app.
  destruct (AdapterShape.yahoo_news_facts w ticker_ days_back) as [-> _].
  destruct (AdapterShape.marketwatch_news_facts w ticker_ days_back) as [-> _].
  destruct (AdapterShape.google_news_facts w ticker_ days_back) as [-> _].
  reflexivity.
Qed.

(** Every url handed to the extractor during a run belongs to a gathered
    article, in the same order. *)
Lemma run_calls_urls (w : World) (tickers : list string) (days_back : Z) :
  calls (get_news_for_tickers w tickers days_back) =
  map url (flat_map (fun t => value (_get_ticker_news w t days_back)) tickers).
Proof.
  unfold get_news_for_tickers.
  rewrite AdapterShape.get_news_for_tickers_from_calls.
  induction tickers as [|t rest IH]; [reflexivity|].
  cbn [flat_map]. rewrite map_app, <- IH. f_equal.
  rewrite <- ticker_news_calls_urls.
  unfold _get_ticker_news, _get_ticker_news_from.
  now rewrite AdapterShape.ticker_news_loop_calls.
Qed.

Lemma content_of_article (w : World) (ticker_ : string) (days_back : Z)
      (x : NewsArticle) :
  In x (value (_get_ticker_news w ticker_ days_back)) ->
  summary x = art_summary (value (_parse_article w (url x))) /\
  full_text x = art_text (value (_parse_article w (url x))).
Proof.
  rewrite AdapterShape.ticker_news_value, !in_app_iff.
  intros [Hx | [Hx | Hx]].
  - now apply (AdapterShape.yahoo_news_facts w ticker_ days_back).
  - now apply (AdapterShape.marketwatch_news_facts w ticker_ days_back).
  - now apply (AdapterShape.google_news_facts w ticker_ days_back).
Qed.

Lemma parse_article_failure (w : World) (url_ : string) (e : exn) :
  newspaper w url_ = Raise e -> value (_parse_article w url_) = empty_article.
Proof. intros H. unfold _parse_article. simpl. now rewrite H. Qed.

End ExtractionFacts.

(** The scenario of the specification: the article's page cannot be
    reached; the article is in the table with its url, title and date, and
    with empty summary and text. *)
Example unreachable_article_example :
  NewsScraper.value
    (NewsScraper.get_news_for_tickers Scenario.yahoo_unreachable ["AAPL"] 7) =
  Ok [Scenario.apple_article].
Proof. vm_compute. reflexivity. Qed.



(* ================================================================== *)
(** * Further properties *)

(** ** The earnings adapters, one by one *)

Lemma fold_left_invariant_in {S X : Type} (f : S -> X -> S) (Inv : S -> Prop)
      (l : list X) :
  (forall st x, In x l -> Inv st -> Inv (f st x)) ->
  forall st, Inv st -> Inv (fold_left f l st).
Proof.
  induction l as [|x rest IH]; intros Hstep st Hst; simpl; [exact Hst|].
  apply IH.
  - intros st' y Hy. apply Hstep. now right.
  - apply Hstep; [now left | exact Hst].
Qed.

Module DatedFacts.

Import EarningsScraper.

Lemma investing_stamped (w : World) (days_ahead : Z) :
  Forall (Checks.stamped_today w) (_scrape_investing_earnings w days_ahead).
Proof.
  unfold _scrape_investing_earnings.
  destruct (investing_calendar w) as [[rows|]|e]; try constructor.
  apply (fold_left_invariant (investing_row w) (Forall (Checks.stamped_today w)));
    [|constructor].
  intros earnings cells Hst. unfold investing_row.
  destruct cells as [|c0 [|c1 [|c2 [|c3 rest]]]]; try assumption.
  destruct (Soup.a c1) as [company_link|]; try assumption.
  destruct (Text.nonempty (investing_ticker company_link c0)) eqn:Et;
    try assumption.
  destruct (Text.nonempty (Soup.a_text company_link)) eqn:Ec; try assumption.
  simpl. apply Forall_snoc; [assumption|].
  repeat split; simpl; now apply AdapterFacts.nonempty_spec.
Qed.

Lemma marketwatch_stamped (w : World) (days_ahead : Z) :
  Forall (Checks.stamped_today w) (_scrape_marketwatch_earnings w days_ahead).
Proof.
  unfold _scrape_marketwatch_earnings.
  destruct (marketwatch_calendar w) as [tables|e]; try constructor.
  apply (fold_left_invariant
           (fun earnings table => fold_left (marketwatch_row w) (tl table) earnings)
           (Forall (Checks.stamped_today w))); [|constructor].
  intros st table Hst.
  apply (fold_left_invariant (marketwatch_row w) (Forall (Checks.stamped_today w)));
    [|assumption].
  intros earnings cells Hearn. unfold marketwatch_row.
  destruct cells as [|c0 [|c1 [|c2 rest]]]; try assumption.
  destruct (Text.nonempty
              match Soup.a c0 with
              | Some ticker_link => Soup.a_text ticker_link
              | None => Soup.text c0
              end) eqn:Et; try assumption.
  destruct (Text.nonempty (Soup.text c1)) eqn:Ec; try assumption.
  simpl. apply Forall_snoc; [assumption|].
  repeat split; simpl; now apply AdapterFacts.nonempty_spec.
Qed.

Lemma today_within (w : World) (days_ahead : Z) :
  within_days_ahead w (Calendar.date_of (now w)) days_ahead = (0 <=? days_ahead).
Proof.
  unfold within_days_ahead, today, Calendar.days, Calendar.date_sub.
  now rewrite Z.sub_diag.
Qed.

Lemma yahoo_row_today (w : World) (days_ahead : Z)
      (earnings : list EarningsRecord) (cells : Soup.Row) :
  Forall (fun r => date r = today w /\ 0 <= days_ahead) earnings ->
  Forall (fun r => date r = today w /\ 0 <= days_ahead)
         (yahoo_row w (now w) days_ahead earnings cells).
Proof.
  unfold yahoo_row. intros Hst.
  destruct cells as [|c0 [|c1 [|c2 [|c3 rest]]]]; try assumption.
  destruct (Soup.a c0) as [ticker_link|]; try assumption.
  rewrite today_within.
  destruct (Text.nonempty (Soup.a_text ticker_link)); try assumption.
  destruct (0 <=? days_ahead) eqn:Ed; try assumption.
  simpl. apply Forall_snoc; [assumption|]. split; [reflexivity|].
  now apply Z.leb_le.
Qed.

Lemma yahoo_today (w : World) (days_ahead : Z) :
  Forall (fun r => date r = today w /\ 0 <= days_ahead)
         (_scrape_yahoo_finance_api w days_ahead).
Proof.
  unfold _scrape_yahoo_finance_api.
  destruct (_ <- days_delta days_ahead ;; _) as [tables|e]; try constructor.
  apply (fold_left_invariant
           (fun earnings table =>
              fold_left (yahoo_row w (now w) days_ahead) (tl table) earnings)
           (Forall (fun r => date r = today w /\ 0 <= days_ahead))); [|constructor].
  intros st table Hst.
  apply (fold_left_invariant (yahoo_row w (now w) days_ahead)
           (Forall (fun r => date r = today w /\ 0 <= days_ahead))); [|assumption].
  intros st' cells. apply yahoo_row_today.
Qed.

(** The state of the Finviz loop over [rows]: the current date and the
    date of every record come from header rows of [rows]. *)
Lemma finviz_row_header (w : World) (days_ahead : Z) (rows : Soup.Table)
      (st : option Calendar.date * list EarningsRecord) (cells : Soup.Row) :
  In cells rows ->
  (forall cur, fst st = Some cur -> Checks.header_date w rows cur) /\
  Forall (fun r => Checks.header_date w rows (date r) /\ source r = "Finviz") (snd st) ->
  (forall cur, fst (finviz_row w days_ahead st cells) = Some cur ->
               Checks.header_date w rows cur) /\
  Forall (fun r => Checks.header_date w rows (date r) /\ source r = "Finviz")
         (snd (finviz_row w days_ahead st cells)).
Proof.
  destruct st as [current_date earnings]. unfold finviz_row.
  intros Hin [Hcur Hearn]. simpl in Hcur, Hearn.
  destruct cells as [|c0 [|c1 rest]].
  - simpl. split; assumption.
  - destruct (Soup.truthy (Soup.colspan c0)) eqn:Eh; simpl.
    + split; [|assumption]. intros cur Hparse.
      exists c0. repeat split; assumption.
    + split; assumption.
  - cbv beta iota.
    destruct rest as [|c2 rest]; [split; assumption|].
    destruct current_date as [cur|]; [|split; assumption].
    destruct (Soup.a c1) as [ticker_elem|]; [|split; assumption].
    destruct (Text.nonempty (Soup.a_text ticker_elem) &&
              within_days_ahead w cur days_ahead); [|split; assumption].
    simpl. split; [assumption|].
    apply Forall_snoc; [assumption|]. simpl. split; [|reflexivity].
    now apply Hcur.
Qed.

Lemma finviz_header_dates (w : World) (days_ahead : Z) (rows : Soup.Table) :
  finviz_calendar w = Ok (Some rows) ->
  Forall (fun r => Checks.header_date w rows (date r) /\ source r = "Finviz")
         (_scrape_finviz_earnings w days_ahead).
Proof.
  intros Hpage. unfold _scrape_finviz_earnings. rewrite Hpage.
  apply (fold_left_invariant_in (finviz_row w days_ahead)
           (fun st =>
              (forall cur, fst st = Some cur -> Checks.header_date w rows cur) /\
              Forall (fun r => Checks.header_date w rows (date r) /\
                               source r = "Finviz") (snd st))).
  - intros st cells Hin. now apply finviz_row_header.
  - split; [intros cur H; discriminate | constructor].
Qed.

(** A loop whose body only appends keeps what was gathered and gathers
    what the body appends for an element of the list. *)
Lemma fold_left_appends {X R : Type} (f : list R -> X -> list R) :
  (forall st x, exists l, f st x = st ++ l) ->
  forall xs st, exists l, fold_left f xs st = st ++ l.
Proof.
  intros Hf xs. induction xs as [|x xs IH]; intros st; simpl.
  - exists []. now rewrite app_nil_r.
  - destruct (Hf st x) as [l1 ->]. destruct (IH (st ++ l1)) as [l2 ->].
    exists (l1 ++ l2). now rewrite app_assoc.
Qed.

Lemma fold_left_records {X R : Type} (f : list R -> X -> list R) (x : X) (r : R) :
  (forall st x, exists l, f st x = st ++ l) ->
  (forall st, In r (f st x)) ->
  forall xs st, In x xs -> In r (fold_left f xs st).
Proof.
  intros Hf Hr xs. induction xs as [|y xs IH]; intros st Hin; [destruct Hin|].
  simpl. destruct Hin as [-> | Hin].
  - destruct (fold_left_appends f Hf xs (f st x)) as [l ->].
    apply in_or_app. left. apply Hr.
  - now apply IH.
Qed.

Lemma investing_row_appends (w : World) (st : list EarningsRecord) (cells : Soup.Row) :
  exists l, investing_row w st cells = st ++ l.
Proof.
  unfold investing_row.
  destruct cells as [|c0 [|c1 [|c2 [|c3 rest]]]];
    try (exists []; now rewrite app_nil_r).
  destruct (Soup.a c1) as [company_link|]; [|exists []; now rewrite app_nil_r].
  cbv zeta.
  destruct (Text.nonempty (investing_ticker company_link c0) &&
            Text.nonempty (Soup.a_text company_link));
    [eexists; reflexivity | exists []; now rewrite app_nil_r].
Qed.

Lemma marketwatch_row_appends (w : World) (st : list EarningsRecord)
      (cells : Soup.Row) :
  exists l, marketwatch_row w st cells = st ++ l.
Proof.
  unfold marketwatch_row.
  destruct cells as [|c0 [|c1 [|c2 rest]]];
    try (exists []; now rewrite app_nil_r).
  cbv zeta.
  destruct (Text.nonempty _ && Text.nonempty (Soup.text c1));
    [eexists; reflexivity | exists []; now rewrite app_nil_r].
Qed.

Lemma investing_row_recorded (w : World) (c0 c1 c2 c3 : Soup.Cell)
      (rest : Soup.Row) (company_link : Soup.Anchor) (title : string) :
  Soup.a c1 = Some company_link ->
  Soup.a_title company_link = Some title ->
  Text.contains "(" title = true ->
  Checks.titled_symbol title <> "" ->
  Soup.a_text company_link <> "" ->
  exists r,
    Checks.row_record r (Checks.titled_symbol title) (Soup.a_text company_link)
                      (Soup.text c2) "Investing.com" /\
    forall st, In r (investing_row w st (c0 :: c1 :: c2 :: c3 :: rest)).
Proof.
  intros Hlink Htitle Hparen Hsym Htext.
  exists (mkEarningsRecord (Checks.titled_symbol title) (Soup.a_text company_link)
                           (today w) (Soup.text c2) "Investing.com").
  split; [now repeat split|]. intros st.
  unfold investing_row. rewrite Hlink. cbv zeta.
  assert (Hticker : investing_ticker company_link c0 = Checks.titled_symbol title).
  { unfold investing_ticker. rewrite Htitle, Hparen.
    fold (Checks.titled_symbol title).
    apply AdapterFacts.nonempty_spec in Hsym. now rewrite Hsym. }
  rewrite Hticker.
  apply AdapterFacts.nonempty_spec in Hsym. apply AdapterFacts.nonempty_spec in Htext.
  rewrite Hsym, Htext. apply in_or_app. right. now left.
Qed.

Lemma marketwatch_row_recorded (w : World) (c0 c1 c2 : Soup.Cell) (rest : Soup.Row) :
  Checks.marketwatch_symbol c0 <> "" ->
  Soup.text c1 <> "" ->
  exists r,
    Checks.row_record r (Checks.marketwatch_symbol c0) (Soup.text c1)
                      (Soup.text c2) "MarketWatch" /\
    forall st, In r (marketwatch_row w st (c0 :: c1 :: c2 :: rest)).
Proof.
  intros Hsym Htext.
  exists (mkEarningsRecord (Checks.marketwatch_symbol c0) (Soup.text c1)
                           (today w) (Soup.text c2) "MarketWatch").
  split; [now repeat split|]. intros st.
  unfold marketwatch_row. cbv zeta. fold (Checks.marketwatch_symbol c0).
  apply AdapterFacts.nonempty_spec in Hsym. apply AdapterFacts.nonempty_spec in Htext.
  rewrite Hsym, Htext. apply in_or_app. right. now left.
Qed.

Lemma investing_labelled (w : World) (days_ahead : Z) :
  Forall (Checks.labelled "Investing.com") (_scrape_investing_earnings w days_ahead).
Proof.
  unfold _scrape_investing_earnings.
  destruct (investing_calendar w) as [[rows|]|e]; try constructor.
  apply (fold_left_invariant (investing_row w)
           (Forall (Checks.labelled "Investing.com"))); [|constructor].
  intros earnings cells Hst. unfold investing_row.
  destruct cells as [|c0 [|c1 [|c2 [|c3 rest]]]]; try assumption.
  destruct (Soup.a c1) as [company_link|]; try assumption.
  destruct (Text.nonempty (investing_ticker company_link c0)) eqn:Et;
    try assumption.
  destruct (Text.nonempty (Soup.a_text company_link)) eqn:Ec; try assumption.
  simpl. apply Forall_snoc; [assumption|].
  repeat split; simpl; now apply AdapterFacts.nonempty_spec.
Qed.

Lemma marketwatch_labelled (w : World) (days_ahead : Z) :
  Forall (Checks.labelled "MarketWatch") (_scrape_marketwatch_earnings w days_ahead).
Proof.
  unfold _scrape_marketwatch_earnings.
  destruct (marketwatch_calendar w) as [tables|e]; try constructor.
  apply (fold_left_invariant
           (fun earnings table => fold_left (marketwatch_row w) (tl table) earnings)
           (Forall (Checks.labelled "MarketWatch"))); [|constructor].
  intros st table Hst.
  apply (fold_left_invariant (marketwatch_row w)
           (Forall (Checks.labelled "MarketWatch"))); [|assumption].
  intros earnings cells Hearn. unfold marketwatch_row.
  destruct cells as [|c0 [|c1 [|c2 rest]]]; try assumption.
  destruct (Text.nonempty
              match Soup.a c0 with
              | Some ticker_link => Soup.a_text ticker_link
              | None => Soup.text c0
              end) eqn:Et; try assumption.
  destruct (Text.nonempty (Soup.text c1)) eqn:Ec; try assumption.
  simpl. apply Forall_snoc; [assumption|].
  repeat split; simpl; now apply AdapterFacts.nonempty_spec.
Qed.

Lemma yahoo_labelled (w : World) (days_ahead : Z) :
  Forall (fun r => date r = Calendar.date_of (now w) /\ ticker r <> "" /\
                   source r = "Yahoo Finance")
         (_scrape_yahoo_finance_api w days_ahead).
Proof.
  unfold _scrape_yahoo_finance_api.
  destruct (_ <- days_delta days_ahead ;; _) as [tables|e]; try constructor.
  apply (fold_left_invariant
           (fun earnings table =>
              fold_left (yahoo_row w (now w) days_ahead) (tl table) earnings)
           (Forall (fun r => date r = Calendar.date_of (now w) /\ ticker r <> "" /\
                             source r = "Yahoo Finance"))); [|constructor].
  intros st table Hst.
  apply (fold_left_invariant (yahoo_row w (now w) days_ahead)
           (Forall (fun r => date r = Calendar.date_of (now w) /\ ticker r <> "" /\
                             source r = "Yahoo Finance"))); [|assumption].
  intros earnings cells Hearn. unfold yahoo_row.
  destruct cells as [|c0 [|c1 [|c2 [|c3 rest]]]]; try assumption.
  destruct (Soup.a c0) as [ticker_link|]; try assumption.
  cbv zeta.
  destruct (Text.nonempty (Soup.a_text ticker_link)) eqn:Et; try assumption.
  destruct (within_days_ahead w (Calendar.date_of (now w)) days_ahead);
    try assumption.
  simpl. apply Forall_snoc; [assumption|].
  repeat split; simpl. now apply AdapterFacts.nonempty_spec.
Qed.

Lemma days_delta_overflow (n : Z) :
  999999999 < Z.abs n -> days_delta n = Raise OverflowError.
Proof.
  intros Hbig. unfold days_delta, Calendar.timedelta_new, Calendar.days.
  replace (((n * 24 + 0) * 60 + 0) * 60 * Calendar.US_PER_SECOND / Calendar.US_PER_DAY)
    with n.
  - destruct (Z.leb_spec (-999999999) n); [|reflexivity].
    destruct (Z.leb_spec n 999999999); [lia|reflexivity].
  - unfold Calendar.US_PER_DAY, Calendar.US_PER_SECOND.
    replace (((n * 24 + 0) * 60 + 0) * 60 * 1000000) with (n * 86400000000) by lia.
    now rewrite Z.div_mul.
Qed.

End DatedFacts.

(** X1.  Every record of the Investing.com adapter carries a ticker, a
    company name and the label "Investing.com", and every record of the
    MarketWatch adapter a ticker, a company name and the label
    "MarketWatch".  A row of the Investing.com table, below its first, with
    four cells or more, whose second cell holds a link with a text and
    with a title that carries a symbol after its last "(", is recorded
    with that symbol, the text of the link and the text of the third cell;
    a row of a MarketWatch table, below its first, with three cells or
    more, a ticker in the first and a text in the second, is recorded with
    them and the text of the third cell. *)
Theorem undated_adapters_record_rows (w : World) (days_ahead : Z) :
  Forall (Checks.labelled "Investing.com")
         (EarningsScraper._scrape_investing_earnings w days_ahead) /\
  Forall (Checks.labelled "MarketWatch")
         (EarningsScraper._scrape_marketwatch_earnings w days_ahead) /\
  (forall rows c0 c1 c2 c3 rest company_link title,
      investing_calendar w = Ok (Some rows) ->
      In (c0 :: c1 :: c2 :: c3 :: rest) (tl rows) ->
      Soup.a c1 = Some company_link ->
      Soup.a_title company_link = Some title ->
      Text.contains "(" title = true ->
      Checks.titled_symbol title <> "" ->
      Soup.a_text company_link <> "" ->
      exists r,
        In r (EarningsScraper._scrape_investing_earnings w days_ahead) /\
        Checks.row_record r (Checks.titled_symbol title)
                          (Soup.a_text company_link) (Soup.text c2)
                          "Investing.com") /\
  (forall tables table c0 c1 c2 rest,
      marketwatch_calendar w = Ok tables ->
      In table tables ->
      In (c0 :: c1 :: c2 :: rest) (tl table) ->
      Checks.marketwatch_symbol c0 <> "" ->
      Soup.text c1 <> "" ->
      exists r,
        In r (EarningsScraper._scrape_marketwatch_earnings w days_ahead) /\
        Checks.row_record r (Checks.marketwatch_symbol c0) (Soup.text c1)
                          (Soup.text c2) "MarketWatch").
Proof.
  repeat apply conj.
  - apply DatedFacts.investing_labelled.
  - apply DatedFacts.marketwatch_labelled.
  - intros rows c0 c1 c2 c3 rest company_link title
           Hpage Hin Hlink Htitle Hparen Hsym Htext.
    unfold EarningsScraper._scrape_investing_earnings. rewrite Hpage.
    destruct (DatedFacts.investing_row_recorded
                w c0 c1 c2 c3 rest company_link title
                Hlink Htitle Hparen Hsym Htext) as [r [Hrec Hr]].
    exists r. split; [|exact Hrec].
    apply (DatedFacts.fold_left_records
             (EarningsScraper.investing_row w) (c0 :: c1 :: c2 :: c3 :: rest));
      [apply DatedFacts.investing_row_appends | exact Hr | exact Hin].
  - intros tables table c0 c1 c2 rest Hpage Htable Hin Hsym Htext.
    unfold EarningsScraper._scrape_marketwatch_earnings. rewrite Hpage.
    destruct (DatedFacts.marketwatch_row_recorded w c0 c1 c2 rest Hsym Htext)
      as [r [Hrec Hr]].
    exists r. split; [|exact Hrec].
    apply (DatedFacts.fold_left_records
             (fun earnings table =>
                fold_left (EarningsScraper.marketwatch_row w) (tl table) earnings)
             table).
    + intros st t. apply DatedFacts.fold_left_appends.
      apply DatedFacts.marketwatch_row_appends.
    + intros st.
      apply (DatedFacts.fold_left_records
               (EarningsScraper.marketwatch_row w) (c0 :: c1 :: c2 :: rest));
        [apply DatedFacts.marketwatch_row_appends | exact Hr | exact Hin].
    + exact Htable.
Qed.

Lemma undated_adapters_record_rows_witness :
  (exists r,
      In r (EarningsScraper._scrape_investing_earnings
              MoreScenarios.investing_titled 30) /\
      Checks.row_record r "AAPL" "Apple Inc." "After close" "Investing.com") /\
  (exists r,
      In r (EarningsScraper._scrape_marketwatch_earnings
              MoreScenarios.marketwatch_one_row 30) /\
      Checks.row_record r "NVDA" "NVIDIA Corp." "After close" "MarketWatch").
Proof.
  destruct (undated_adapters_record_rows MoreScenarios.investing_titled 30)
    as [_ [_ [Hinvesting _]]].
  destruct (undated_adapters_record_rows MoreScenarios.marketwatch_one_row 30)
    as [_ [_ [_ Hmarketwatch]]].
  split.
  - apply (Hinvesting
             [[Scenario.plain "Company"];
              [Scenario.plain "";
               Soup.mkCell "Apple Inc." None
                 (Some (Soup.mkAnchor "Apple Inc." (Some "Apple Inc (AAPL)") None));
               Scenario.plain "After close"; Scenario.plain "2.10"]]
             (Scenario.plain "")
             (Soup.mkCell "Apple Inc." None
                (Some (Soup.mkAnchor "Apple Inc." (Some "Apple Inc (AAPL)") None)))
             (Scenario.plain "After close") (Scenario.plain "2.10") []
             (Soup.mkAnchor "Apple Inc." (Some "Apple Inc (AAPL)") None)
             "Apple Inc (AAPL)").
    + reflexivity.
    + simpl. left. reflexivity.
    + reflexivity.
    + reflexivity.
    + vm_compute. reflexivity.
    + vm_compute. discriminate.
    + simpl. discriminate.
  - apply (Hmarketwatch
             [[[Scenario.plain "Symbol"];
               [Scenario.linked "NVDA"; Scenario.plain "NVIDIA Corp.";
                Scenario.plain "After close"]]]
             [[Scenario.plain "Symbol"];
              [Scenario.linked "NVDA"; Scenario.plain "NVIDIA Corp.";
               Scenario.plain "After close"]]
             (Scenario.linked "NVDA") (Scenario.plain "NVIDIA Corp.")
             (Scenario.plain "After close") []).
    + reflexivity.
    + simpl. left. reflexivity.
    + simpl. left. reflexivity.
    + simpl. discriminate.
    + simpl. discriminate.
Defined.

(** X2.  The records of one call of the Yahoo calendar adapter share one
    date, and each carries a ticker and the label "Yahoo Finance".  With a
    [days_ahead] beyond the 999999999 days that a [timedelta] holds, the
    adapter returns nothing, whatever the page holds. *)
Theorem yahoo_calendar_records_share_date (w : World) (days_ahead : Z) :
  (exists d,
      Forall (fun r => EarningsScraper.date r = d /\
                       EarningsScraper.ticker r <> "" /\
                       EarningsScraper.source r = "Yahoo Finance")
             (EarningsScraper._scrape_yahoo_finance_api w days_ahead)) /\
  (999999999 < Z.abs days_ahead ->
   EarningsScraper._scrape_yahoo_finance_api w days_ahead = []).
Proof.
  split.
  - exists (Calendar.date_of (now w)). apply DatedFacts.yahoo_labelled.
  - intros Hbig. unfold EarningsScraper._scrape_yahoo_finance_api.
    now rewrite (DatedFacts.days_delta_overflow days_ahead Hbig).
Qed.

Lemma yahoo_calendar_records_share_date_witness :
  EarningsScraper._scrape_yahoo_finance_api
    MoreScenarios.yahoo_one_row 1000000000 = [].
Proof.
  apply (proj2 (yahoo_calendar_records_share_date
                  MoreScenarios.yahoo_one_row 1000000000)).
  reflexivity.
Defined.

(** X3.  Every record of the Finviz adapter carries the label "Finviz" and
    the date that [_parse_finviz_date] read in a date header row of the
    page; a calendar table without such a row yields no record. *)
Theorem finviz_dates_come_from_headers
        (w : World) (days_ahead : Z) (rows : Soup.Table) :
  finviz_calendar w = Ok (Some rows) ->
  (forall r, In r (EarningsScraper._scrape_finviz_earnings w days_ahead) ->
             EarningsScraper.source r = "Finviz" /\
             Checks.header_date w rows (EarningsScraper.date r)) /\
  ((forall cells, In cells rows -> Checks.is_date_header cells = false) ->
   EarningsScraper._scrape_finviz_earnings w days_ahead = []).
Proof.
  intros Hpage.
  pose proof (DatedFacts.finviz_header_dates w days_ahead rows Hpage) as H.
  rewrite Forall_forall in H. split.
  - intros r Hr. destruct (H r Hr) as [Hd Hs]. now split.
  - intros Hnone.
    destruct (EarningsScraper._scrape_finviz_earnings w days_ahead) as [|r rest];
      [reflexivity|].
    destruct (H r (or_introl eq_refl)) as [[c [Hin [Hc _]]] _].
    specialize (Hnone [c] Hin). simpl in Hnone. congruence.
Qed.

Lemma finviz_dates_come_from_headers_witness :
  EarningsScraper._scrape_finviz_earnings
    (Scenario.finviz_only
       [[Scenario.plain "Before Market Open"; Scenario.linked "AAPL";
         Scenario.plain "Apple Inc."]]) 30 = [].
Proof.
  apply (finviz_dates_come_from_headers
           (Scenario.finviz_only
              [[Scenario.plain "Before Market Open"; Scenario.linked "AAPL";
                Scenario.plain "Apple Inc."]]) 30
           [[Scenario.plain "Before Market Open"; Scenario.linked "AAPL";
             Scenario.plain "Apple Inc."]]).
  - reflexivity.
  - intros cells [<- | []]. reflexivity.
Defined.

(** ** The earnings table as a whole *)

Module EarningsTableFacts.

Import EarningsScraper.

Lemma sources_labelled (w : World) (days_ahead : Z) (r : EarningsRecord) :
  In r (flat_map (contribution days_ahead) (sources w)) ->
  In (source r) Checks.earnings_labels.
Proof.
  simpl. unfold contribution. rewrite app_nil_r, !in_app_iff.
  assert (Hlabel : forall (P : EarningsRecord -> Prop) l,
             Forall P l -> In r l -> P r).
  { intros P l Hl. rewrite Forall_forall in Hl. apply Hl. }
  intros [H | [H | [H | H]]]; revert H.
  - apply (Hlabel (fun r => In (source r) Checks.earnings_labels)).
    unfold _scrape_finviz_earnings.
    destruct (finviz_calendar w) as [[rows|]|e]; try constructor.
    apply (fold_left_invariant (finviz_row w days_ahead)
             (fun st => Forall (fun r => In (source r) Checks.earnings_labels) (snd st)));
      [|constructor].
    intros [cur earnings] cells Hst. unfold finviz_row.
    destruct (match cells with [c] => Soup.truthy (Soup.colspan c) | _ => false end).
    + destruct cells; assumption.
    + destruct cells as [|c0 [|c1 [|c2 rest]]]; try assumption.
      destruct cur as [cur|]; try assumption.
      destruct (Soup.a c1); try assumption.
      destruct (_ && _); try assumption.
      simpl. apply Forall_snoc; [assumption|]. simpl. auto.
  - apply (Hlabel (fun r => In (source r) Checks.earnings_labels)).
    unfold _scrape_investing_earnings.
    destruct (investing_calendar w) as [[rows|]|e]; try constructor.
    apply (fold_left_invariant (investing_row w)
             (Forall (fun r => In (source r) Checks.earnings_labels)));
      [|constructor].
    intros earnings cells Hst. unfold investing_row.
    destruct cells as [|c0 [|c1 [|c2 [|c3 rest]]]]; try assumption.
    destruct (Soup.a c1); try assumption.
    destruct (_ && _); try assumption.
    apply Forall_snoc; [assumption|]. simpl. auto.
  - apply (Hlabel (fun r => In (source r) Checks.earnings_labels)).
    unfold _scrape_yahoo_finance_api.
    destruct (_ <- days_delta days_ahead ;; _) as [tables|e]; try constructor.
    apply (fold_left_invariant
             (fun earnings table =>
                fold_left (yahoo_row w (now w) days_ahead) (tl table) earnings)
             (Forall (fun r => In (source r) Checks.earnings_labels)));
      [|constructor].
    intros st table Hst.
    apply (fold_left_invariant (yahoo_row w (now w) days_ahead)
             (Forall (fun r => In (source r) Checks.earnings_labels)));
      [|assumption].
    intros earnings cells Hearn. unfold yahoo_row.
    destruct cells as [|c0 [|c1 [|c2 [|c3 rest]]]]; try assumption.
    destruct (Soup.a c0); try assumption.
    destruct (_ && _); try assumption.
    apply Forall_snoc; [assumption|]. simpl. auto.
  - apply (Hlabel (fun r => In (source r) Checks.earnings_labels)).
    unfold _scrape_marketwatch_earnings.
    destruct (marketwatch_calendar w) as [tables|e]; try constructor.
    apply (fold_left_invariant
             (fun earnings table => fold_left (marketwatch_row w) (tl table) earnings)
             (Forall (fun r => In (source r) Checks.earnings_labels)));
      [|constructor].
    intros st table Hst.
    apply (fold_left_invariant (marketwatch_row w)
             (Forall (fun r => In (source r) Checks.earnings_labels)));
      [|assumption].
    intros earnings cells Hearn. unfold marketwatch_row.
    destruct cells as [|c0 [|c1 [|c2 rest]]]; try assumption.
    destruct (_ && _); try assumption.
    apply Forall_snoc; [assumption|]. simpl. auto.
Qed.

Lemma drop_duplicates_nil {R K : Type} (key : R -> K) (key_eqb : K -> K -> bool)
      (rows : list R) :
  Pandas.drop_duplicates key key_eqb rows = [] <-> rows = [].
Proof.
  unfold Pandas.drop_duplicates. destruct rows; simpl; split; congruence.
Qed.

Lemma sort_values_nil {R : Type} (by_ : R -> option Z) (ascending : bool)
      (rows : list R) :
  Pandas.sort_values by_ ascending rows = [] <-> rows = [].
Proof.
  split; [|now intros ->].
  intros H. pose proof (sort_values_perm by_ ascending rows) as Hp.
  rewrite H in Hp. now apply Permutation_nil in Hp.
Qed.

End EarningsTableFacts.

(** X4.  For a non-negative [days_ahead], every row of the earnings table
    is dated at most [days_ahead] days after today and carries one of the
    four source labels. *)
Theorem earnings_table_within_days_ahead
        (w : World) (days_ahead : Z)
        (table : list EarningsScraper.EarningsRecord)
        (r : EarningsScraper.EarningsRecord) :
  0 <= days_ahead ->
  EarningsScraper.get_earnings_calendar w days_ahead = Ok table ->
  In r table ->
  Calendar.toordinal (EarningsScraper.date r) <=
  Calendar.toordinal (EarningsScraper.today w) + days_ahead /\
  In (EarningsScraper.source r) Checks.earnings_labels.
Proof.
  intros Hdays Htable Hin. split.
  - pose proof (AdapterFacts.finviz_records w days_ahead) as Hf.
    pose proof (AdapterFacts.yahoo_records w days_ahead) as Hy.
    pose proof (DatedFacts.investing_stamped w days_ahead) as Hi.
    pose proof (DatedFacts.marketwatch_stamped w days_ahead) as Hm.
    rewrite Forall_forall in Hf, Hy, Hi, Hm.
    destruct (TickerFacts.table_rows_from_adapters w days_ahead table r Htable Hin)
      as [H | [H | [H | H]]].
    + now apply Hf.
    + destruct (Hi r H) as [-> _]. lia.
    + now apply Hy.
    + destruct (Hm r H) as [-> _]. lia.
  - apply (EarningsTableFacts.sources_labelled w days_ahead).
    unfold EarningsScraper.get_earnings_calendar in Htable.
    rewrite EarningsFacts.get_earnings_calendar_from_eq in Htable.
    injection Htable as <-.
    apply sort_values_In in Hin.
    apply (drop_duplicates_In _ _ EarningsFacts.dedup_key_eqb_eq) in Hin.
    apply find_some in Hin. apply Hin.
Qed.

Lemma earnings_table_within_days_ahead_witness :
  Calendar.toordinal (Calendar.mkdate 2024 2 5) <=
  Calendar.toordinal (EarningsScraper.today Scenario.finviz_last_week) + 30 /\
  In "Finviz" Checks.earnings_labels.
Proof.
  apply (earnings_table_within_days_ahead Scenario.finviz_last_week 30
           [EarningsScraper.mkEarningsRecord
              "AAPL" "Apple Inc." (Calendar.mkdate 2024 2 5)
              "Before Market Open" "Finviz"]
           (EarningsScraper.mkEarningsRecord
              "AAPL" "Apple Inc." (Calendar.mkdate 2024 2 5)
              "Before Market Open" "Finviz")).
  - lia.
  - vm_compute. reflexivity.
  - simpl. left. reflexivity.
Defined.

(** X5.  Either aggregator returns the empty table exactly when its
    sources contributed no row at all: removing duplicates and sorting never
    empty a frame. *)
Theorem empty_table_iff_nothing_gathered :
  (forall (sources : list EarningsScraper.Adapter) (days_ahead : Z),
      EarningsScraper.get_earnings_calendar_from sources days_ahead = Ok [] <->
      flat_map (EarningsScraper.contribution days_ahead) sources = []) /\
  (forall (sources : list NewsScraper.Source) (tickers : list string)
          (days_back : Z),
      NewsScraper.value
        (NewsScraper.get_news_for_tickers_from sources tickers days_back) = Ok [] <->
      flat_map (fun t => flat_map (NewsScraper.contribution t days_back) sources)
               tickers = []).
Proof.
  split.
  - intros sources days_ahead.
    rewrite EarningsFacts.get_earnings_calendar_from_eq.
    rewrite <- (EarningsTableFacts.drop_duplicates_nil
                  EarningsScraper.dedup_key EarningsScraper.dedup_key_eqb).
    rewrite <- (EarningsTableFacts.sort_values_nil EarningsScraper.to_datetime true).
    split; congruence.
  - intros sources tickers days_back. split.
    + intros Htable. apply NewsFacts.news_table in Htable.
      apply (EarningsTableFacts.drop_duplicates_nil NewsScraper.url String.eqb).
      apply (EarningsTableFacts.sort_values_nil NewsScraper.timestamp false).
      now symmetry.
    + intros Hnone. rewrite NewsFacts.get_news_for_tickers_from_eq, Hnone.
      reflexivity.
Qed.

Lemma empty_table_iff_nothing_gathered_witness :
  EarningsScraper.get_earnings_calendar_from
    [fun _ => Raise RequestException] 30 = Ok [].
Proof.
  apply (proj1 empty_table_iff_nothing_gathered
               [fun _ => Raise RequestException] 30).
  reflexivity.
Defined.

(** ** The news adapters, one by one *)

Module NewsItemFacts.

Import NewsScraper.

Lemma startswith_append (p s : string) : Text.startswith p (append p s) = true.
Proof.
  induction p as [|c p IH]; simpl; [reflexivity|].
  now rewrite Ascii.eqb_refl, IH.
Qed.

Lemma append_nonempty (p s : string) : p <> "" -> append p s <> "".
Proof. destruct p; simpl; congruence. Qed.

Lemma yahoo_item_full (w : World) (ticker_ : string) (item : Soup.YahooItem) :
  turn w (Checks.yahoo_article ticker_) (yahoo_item w ticker_ item).
Proof.
  unfold yahoo_item.
  destruct (Soup.y_a item) as [link_elem|]; [|now left].
  destruct (Soup.a_href link_elem) as [u|]; [|now left].
  destruct (Text.nonempty u && Text.startswith "/" u) eqn:Eslash.
  - match goal with
    | |- turn _ _ (if ?c then _ else _) => destruct c eqn:Ec; [|now left]
    end.
    apply andb_true_iff in Ec. destruct Ec as [Et _].
    right. do 5 eexists. split; [reflexivity|].
    repeat split; simpl.
    + now apply AdapterFacts.nonempty_spec.
    + discriminate.
  - match goal with
    | |- turn _ _ (if ?c then _ else _) => destruct c eqn:Ec; [|now left]
    end.
    apply andb_true_iff in Ec. destruct Ec as [Et Eu].
    right. do 5 eexists. split; [reflexivity|].
    repeat split; simpl.
    + now apply AdapterFacts.nonempty_spec.
    + now apply AdapterFacts.nonempty_spec.
    + rewrite Eu in Eslash. exact Eslash.
Qed.

Lemma marketwatch_item_full (w : World) (ticker_ : string)
      (item : Soup.MarketWatchItem) :
  turn w (Checks.marketwatch_article ticker_) (marketwatch_item w ticker_ item).
Proof.
  unfold marketwatch_item.
  destruct (Soup.mw_link item) as [link_elem|]; [|now left].
  destruct (Soup.a_href link_elem) as [u|]; [|now left].
  destruct (Text.nonempty u && negb (Text.startswith "http" u)) eqn:Ehttp.
  - match goal with
    | |- turn _ _ (if ?c then _ else _) => destruct c eqn:Ec; [|now left]
    end.
    apply andb_true_iff in Ec. destruct Ec as [Et _].
    right. do 5 eexists. split; [reflexivity|].
    repeat split; simpl.
    + now apply AdapterFacts.nonempty_spec.
    + discriminate.
  - match goal with
    | |- turn _ _ (if ?c then _ else _) => destruct c eqn:Ec; [|now left]
    end.
    apply andb_true_iff in Ec. destruct Ec as [Et Eu].
    right. do 5 eexists. split; [reflexivity|].
    repeat split; simpl.
    + now apply AdapterFacts.nonempty_spec.
    + now apply AdapterFacts.nonempty_spec.
    + rewrite Eu in Ehttp. simpl in Ehttp.
      now apply negb_false_iff in Ehttp.
Qed.

Lemma google_item_full (w : World) (ticker_ : string) (days_back : Z)
      (item : Soup.RssItem) :
  turn w (Checks.google_article ticker_) (google_item w ticker_ days_back item).
Proof.
  unfold google_item.
  destruct (Soup.rss_title item) as [title_|]; [|now left].
  destruct (Soup.rss_link item) as [link|]; [|now left].
  destruct (Soup.rss_pubDate item) as [pub_date|]; [|now left].
  simpl.
  destruct (too_old w (_parse_news_date w pub_date) days_back) as [[|]|e];
    simpl; try now left.
  right. do 5 eexists. split; [reflexivity|]. split; reflexivity.
Qed.

Lemma yahoo_articles (w : World) (ticker_ : string) (days_back : Z)
      (x : NewsArticle) :
  In x (value (_get_yahoo_news w ticker_ days_back)) ->
  Checks.yahoo_article ticker_ x.
Proof.
  unfold _get_yahoo_news.
  destruct (yahoo_news w ticker_) as [items|e]; [|contradiction].
  intros Hin.
  apply (TurnFacts.for_each_articles w (Checks.yahoo_article ticker_)) in Hin;
    [apply Hin | apply yahoo_item_full].
Qed.

Lemma marketwatch_articles (w : World) (ticker_ : string) (days_back : Z)
      (x : NewsArticle) :
  In x (value (_get_marketwatch_news w ticker_ days_back)) ->
  Checks.marketwatch_article ticker_ x.
Proof.
  unfold _get_marketwatch_news.
  destruct (marketwatch_news w ticker_) as [items|e]; [|contradiction].
  intros Hin.
  apply (TurnFacts.for_each_articles w (Checks.marketwatch_article ticker_)) in Hin;
    [apply Hin | apply marketwatch_item_full].
Qed.

Lemma google_articles (w : World) (ticker_ : string) (days_back : Z)
      (x : NewsArticle) :
  In x (value (_get_google_news w ticker_ days_back)) ->
  Checks.google_article ticker_ x.
Proof.
  unfold _get_google_news.
  destruct (google_news w ticker_) as [items|e]; [|contradiction].
  intros Hin.
  apply (TurnFacts.for_each_articles w (Checks.google_article ticker_)) in Hin;
    [apply Hin | apply google_item_full].
Qed.

End NewsItemFacts.

(** X6.  Every article of the Yahoo news adapter carries the requested
    ticker, the label "Yahoo Finance", a non-empty title and a non-empty url
    that does not begin with a slash (a site-relative link has been prefixed
    with the site). *)
Theorem yahoo_news_articles_wellformed
        (w : World) (ticker_ : string) (days_back : Z)
        (x : NewsScraper.NewsArticle) :
  In x (NewsScraper.value (NewsScraper._get_yahoo_news w ticker_ days_back)) ->
  NewsScraper.ticker x = ticker_ /\
  NewsScraper.source x = "Yahoo Finance" /\
  NewsScraper.title x <> "" /\
  NewsScraper.url x <> "" /\
  Text.startswith "/" (NewsScraper.url x) = false.
Proof. apply NewsItemFacts.yahoo_articles. Qed.

Lemma yahoo_news_articles_wellformed_witness :
  NewsScraper.ticker Scenario.apple_article = "AAPL" /\
  NewsScraper.source Scenario.apple_article = "Yahoo Finance" /\
  NewsScraper.title Scenario.apple_article <> "" /\
  NewsScraper.url Scenario.apple_article <> "" /\
  Text.startswith "/" (NewsScraper.url Scenario.apple_article) = false.
Proof.
  apply (yahoo_news_articles_wellformed Scenario.yahoo_unreachable "AAPL" 7).
  vm_compute. left. reflexivity.
Defined.

(** X7.  Every article of the MarketWatch news adapter carries the
    requested ticker, the label "MarketWatch", a non-empty title and a url
    that begins with "http" (any other link has been prefixed with the
    site). *)
Theorem marketwatch_news_articles_wellformed
        (w : World) (ticker_ : string) (days_back : Z)
        (x : NewsScraper.NewsArticle) :
  In x (NewsScraper.value (NewsScraper._get_marketwatch_news w ticker_ days_back)) ->
  NewsScraper.ticker x = ticker_ /\
  NewsScraper.source x = "MarketWatch" /\
  NewsScraper.title x <> "" /\
  NewsScraper.url x <> "" /\
  Text.startswith "http" (NewsScraper.url x) = true.
Proof. apply NewsItemFacts.marketwatch_articles. Qed.

Lemma marketwatch_news_articles_wellformed_witness :
  NewsScraper.ticker MoreScenarios.microsoft_article = "MSFT" /\
  NewsScraper.source MoreScenarios.microsoft_article = "MarketWatch" /\
  NewsScraper.title MoreScenarios.microsoft_article <> "" /\
  NewsScraper.url MoreScenarios.microsoft_article <> "" /\
  Text.startswith "http" (NewsScraper.url MoreScenarios.microsoft_article) = true.
Proof.
  apply (marketwatch_news_articles_wellformed
           MoreScenarios.marketwatch_relative "MSFT" 7).
  vm_compute. left. reflexivity.
Defined.

(** X8.  Every row of the news table belongs to a requested ticker and
    carries one of the three source labels; without tickers the table is
    empty and the content extractor is never called. *)
Theorem news_table_rows_requested
        (w : World) (tickers : list string) (days_back : Z) :
  (forall table x,
      NewsScraper.value (NewsScraper.get_news_for_tickers w tickers days_back)
      = Ok table ->
      In x table ->
      In (NewsScraper.ticker x) tickers /\
      In (NewsScraper.source x) Checks.news_labels) /\
  NewsScraper.get_news_for_tickers w [] days_back = (Ok [], []).
Proof.
  split; [|reflexivity].
  intros table x Htable Hin.
  destruct (NewsTableFacts.news_rows_from_adapters
              w tickers days_back table x Htable Hin) as [t [Ht Hx]].
  destruct Hx as [Hx | [Hx | Hx]].
  - apply NewsItemFacts.yahoo_articles in Hx.
    destruct Hx as (-> & -> & _). split; [assumption | simpl; auto].
  - apply NewsItemFacts.marketwatch_articles in Hx.
    destruct Hx as (-> & -> & _). split; [assumption | simpl; auto].
  - apply NewsItemFacts.google_articles in Hx.
    destruct Hx as (-> & ->). split; [assumption | simpl; auto].
Qed.

Lemma news_table_rows_requested_witness :
  In (NewsScraper.ticker Scenario.apple_article) ["AAPL"; "MSFT"] /\
  In (NewsScraper.source Scenario.apple_article) Checks.news_labels.
Proof.
  apply (proj1 (news_table_rows_requested Scenario.yahoo_unreachable
                  ["AAPL"; "MSFT"] 7) [Scenario.apple_article]).
  - vm_compute. reflexivity.
  - left. reflexivity.
Defined.

(** X9.  With a naive clock, as [datetime.now()] gives, the Google News
    adapter emits only articles whose date is naive: an item whose
    [pubDate] parses to an aware datetime (a numeric UTC offset) cannot be
    compared with now and is skipped. *)
Theorem google_news_dates_naive
        (w : World) (ticker_ : string) (days_back : Z)
        (x : NewsScraper.NewsArticle) :
  Calendar.tzinfo (now w) = None ->
  In x (NewsScraper.value (NewsScraper._get_google_news w ticker_ days_back)) ->
  exists d, NewsScraper.date x = Some d /\ Calendar.tzinfo d = None.
Proof.
  intros Hnow Hin.
  destruct (AdapterShape.google_news_facts w ticker_ days_back) as [_ [_ H]].
  destruct (H x Hin) as [[[date_str Hdate] Hold] _]. simpl in Hdate, Hold.
  destruct (NewsDateFacts.parse_news_date_some w date_str) as [d Hd].
  rewrite Hdate, Hd in Hold. exists d. split; [congruence|].
  unfold NewsScraper.too_old, Calendar.datetime_sub in Hold.
  rewrite Hnow in Hold. destruct (Calendar.tzinfo d); [discriminate|reflexivity].
Qed.

Lemma google_news_dates_naive_witness :
  exists d,
    Some (Calendar.mkdatetime 2024 2 5 8 0 0 0 None) = Some d /\
    Calendar.tzinfo d = None.
Proof.
  apply (google_news_dates_naive Scenario.google_week_old "AAPL" 7
           (NewsScraper.mkNewsArticle
              "AAPL" "Apple beats estimates" "https://news.example.com/apple"
              (Some (Calendar.mkdatetime 2024 2 5 8 0 0 0 None))
              "" "" "Google News")).
  - reflexivity.
  - vm_compute. left. reflexivity.
Defined.

(** The same item with a numeric offset in its [pubDate] is dropped. *)
Example google_drops_offset_dates :
  NewsScraper.value
    (NewsScraper._get_google_news
       (Scenario.google_only
          [Soup.mkRssItem (Some "Apple beats estimates")
                          (Some "https://news.example.com/apple")
                          (Some "Mon, 12 Feb 2024 08:00:00 +0000")])
       "AAPL" 7) = [].
Proof. vm_compute. reflexivity. Qed.

(** ** Calendar arithmetic *)

Module CalendarFacts.

Import Calendar.

Lemma all_from_spec (fuel : nat) :
  forall n test,
    Checks.all_from fuel n test = true ->
    forall k, n <= k < n + Z.of_nat fuel -> test k = true.
Proof.
  induction fuel as [|f IH]; intros n test H k Hk; [lia|].
  simpl in H. apply andb_true_iff in H. destruct H as [H0 H1].
  destruct (Z.eq_dec k n) as [->|Hne]; [assumption|].
  apply (IH (n + 1) test H1). lia.
Qed.

Lemma month_day_table :
  Checks.all_from 365 0 (Checks.month_day_ok false) = true /\
  Checks.all_from 366 0 (Checks.month_day_ok true) = true.
Proof. split; vm_compute; reflexivity. Qed.

Lemma ord2ymd_split (n0 : Z) :
  let n := n0 - 1 in
  let n400 := n / _DI400Y in
  let r400 := n mod _DI400Y in
  let n100 := r400 / _DI100Y in
  let r100 := r400 mod _DI100Y in
  let n4 := r100 / _DI4Y in
  let r4 := r100 mod _DI4Y in
  let n1 := r4 / 365 in
  let r1 := r4 mod 365 in
  let year := n400 * 400 + 1 + n100 * 100 + n4 * 4 + n1 in
  _ord2ymd n0 =
  if (n1 =? 4) || (n100 =? 4) then (year - 1, 12, 31)
  else let md := month_day r1 ((n1 =? 3) && (negb (n4 =? 24) || (n100 =? 3))) in
       (year, fst md, snd md).
Proof.
  cbv zeta. unfold _ord2ymd, month_day. cbv zeta.
  destruct ((_ =? 4) || (_ =? 4)); [reflexivity|].
  match goal with |- (if ?c then _ else _) = _ => destruct c end; reflexivity.
Qed.

(** [date.fromordinal(n).toordinal() == n], for every [n]. *)
Lemma ymd2ord_ord2ymd (n0 : Z) :
  let '(y, m, d) := _ord2ymd n0 in _ymd2ord y m d = n0.
Proof.
  rewrite ord2ymd_split. cbv zeta.
  set (n := n0 - 1).
  set (n400 := n / _DI400Y). set (r400 := n mod _DI400Y).
  set (n100 := r400 / _DI100Y). set (r100 := r400 mod _DI100Y).
  set (n4 := r100 / _DI4Y). set (r4 := r100 mod _DI4Y).
  set (n1 := r4 / 365). set (r1 := r4 mod 365).
  assert (E400 : n = 146097 * n400 + r400 /\ 0 <= r400 < 146097).
  { unfold n400, r400, _DI400Y.
    split; [apply Z.div_mod; lia | apply Z.mod_pos_bound; lia]. }
  assert (E100 : r400 = 36524 * n100 + r100 /\ 0 <= r100 < 36524).
  { unfold n100, r100, _DI100Y.
    split; [apply Z.div_mod; lia | apply Z.mod_pos_bound; lia]. }
  assert (E4 : r100 = 1461 * n4 + r4 /\ 0 <= r4 < 1461).
  { unfold n4, r4, _DI4Y.
    split; [apply Z.div_mod; lia | apply Z.mod_pos_bound; lia]. }
  assert (E1 : r4 = 365 * n1 + r1 /\ 0 <= r1 < 365).
  { unfold n1, r1.
    split; [apply Z.div_mod; lia | apply Z.mod_pos_bound; lia]. }
  clearbody n400 r400 n100 r100 n4 r4 n1 r1.
  assert (0 <= n100 <= 4) by lia.
  assert (0 <= n4 <= 24) by lia.
  assert (0 <= n1 <= 4) by lia.
  destruct ((n1 =? 4) || (n100 =? 4)) eqn:Esp.
  - unfold _ymd2ord, _days_before_year, _days_before_month, _is_leap.
    apply orb_true_iff in Esp.
    assert (Hl :
      ((n400 * 400 + 1 + n100 * 100 + n4 * 4 + n1 - 1) mod 4 =? 0) &&
      (negb ((n400 * 400 + 1 + n100 * 100 + n4 * 4 + n1 - 1) mod 100 =? 0) ||
       ((n400 * 400 + 1 + n100 * 100 + n4 * 4 + n1 - 1) mod 400 =? 0)) = true).
    { rewrite andb_true_iff, orb_true_iff, negb_true_iff, !Z.eqb_eq, Z.eqb_neq.
      destruct Esp as [Esp|Esp]; apply Z.eqb_eq in Esp;
        Z.div_mod_to_equations; lia. }
    rewrite Hl. simpl.
    destruct Esp as [Esp|Esp]; apply Z.eqb_eq in Esp;
      Z.div_mod_to_equations; lia.
  - apply orb_false_iff in Esp. destruct Esp as [Hn1 Hn100].
    apply Z.eqb_neq in Hn1, Hn100.
    set (leap := (n1 =? 3) && (negb (n4 =? 24) || (n100 =? 3))).
    assert (Hleap : _is_leap (n400 * 400 + 1 + n100 * 100 + n4 * 4 + n1) = leap).
    { unfold _is_leap, leap.
      destruct (n1 =? 3) eqn:En1;
        [apply Z.eqb_eq in En1 | apply Z.eqb_neq in En1].
      - destruct (n4 =? 24) eqn:En4;
          [apply Z.eqb_eq in En4 | apply Z.eqb_neq in En4];
          destruct (n100 =? 3) eqn:En100;
          [apply Z.eqb_eq in En100 | apply Z.eqb_neq in En100
           | apply Z.eqb_eq in En100 | apply Z.eqb_neq in En100]; simpl.
        all: repeat match goal with
                    | |- context [?a =? 0] =>
                        let E := fresh in
                        destruct (a =? 0) eqn:E;
                        [apply Z.eqb_eq in E | apply Z.eqb_neq in E]
                    end;
          simpl; try reflexivity; exfalso; Z.div_mod_to_equations; lia.
      - simpl. destruct (_ mod 4 =? 0) eqn:E; [apply Z.eqb_eq in E | reflexivity].
        exfalso; Z.div_mod_to_equations; lia. }
    assert (Hmd : Checks.month_day_ok leap r1 = true).
    { destruct leap.
      - apply (all_from_spec 366 0 _ (proj2 month_day_table)). lia.
      - apply (all_from_spec 365 0 _ (proj1 month_day_table)). lia. }
    unfold Checks.month_day_ok in Hmd.
    destruct (month_day r1 leap) as [m d]. simpl fst. simpl snd.
    rewrite !andb_true_iff in Hmd. destruct Hmd as [[[[Hm1 Hm2] Hd1] Hd2] Hsum].
    apply Z.eqb_eq in Hsum.
    unfold _ymd2ord, _days_before_month. rewrite Hleap.
    unfold _days_before_year. Z.div_mod_to_equations. lia.
Qed.

(** The datetime built for a wall-clock reading shows that reading. *)
Lemma wall_us_of_wall_us (us : Z) (tz : option Z) :
  wall_us (of_wall_us us tz) = us.
Proof.
  unfold of_wall_us.
  pose proof (ymd2ord_ord2ymd (us / US_PER_DAY)) as Hord.
  destruct (_ord2ymd (us / US_PER_DAY)) as [[y m] d].
  unfold wall_us. simpl. rewrite Hord.
  unfold US_PER_DAY, US_PER_SECOND in *.
  Z.div_mod_to_equations. lia.
Qed.

Lemma toordinal_of_wall_us (us : Z) (tz : option Z) :
  toordinal (date_of (of_wall_us us tz)) = us / US_PER_DAY.
Proof.
  unfold of_wall_us.
  pose proof (ymd2ord_ord2ymd (us / US_PER_DAY)) as Hord.
  destruct (_ord2ymd (us / US_PER_DAY)) as [[y m] d].
  unfold toordinal, date_of. simpl. exact Hord.
Qed.

Lemma tzinfo_of_wall_us (us : Z) (tz : option Z) :
  tzinfo (of_wall_us us tz) = tz.
Proof.
  unfold of_wall_us. destruct (_ord2ymd (us / US_PER_DAY)) as [[y m] d].
  reflexivity.
Qed.

(** The day of a datetime whose time fields are a time of day. *)
Lemma wall_us_day (dt : datetime) :
  _check_time_fields (dt_hour dt) (dt_minute dt) (dt_second dt)
                     (dt_microsecond dt) = true ->
  wall_us dt / US_PER_DAY = toordinal (date_of dt).
Proof.
  unfold _check_time_fields. rewrite !andb_true_iff, !Z.leb_le.
  intros H. unfold wall_us, toordinal, date_of, US_PER_DAY, US_PER_SECOND. simpl.
  symmetry. apply (Z.div_unique _ _ _
    ((dt_hour dt * 3600 + dt_minute dt * 60 + dt_second dt) * 1000000
     + dt_microsecond dt)); lia.
Qed.

End CalendarFacts.

(** ** Relative dates *)

Module RelativeFacts.

Import Text.

Lemma int_acc_nonneg (s : string) :
  forall acc, 0 <= acc -> all_chars isdigit s = true -> 0 <= int_acc acc s.
Proof.
  induction s as [|c t IH]; intros acc Hacc Hall;
    cbn [int_acc all_chars] in *; [assumption|].
  apply andb_true_iff in Hall. destruct Hall as [Hc Ht].
  apply IH; [|assumption].
  unfold isdigit, between in Hc. apply andb_true_iff in Hc.
  destruct Hc as [Hlo _]. apply Z.leb_le in Hlo. lia.
Qed.

Lemma digit_run_digits (s : string) : all_chars isdigit (digit_run s) = true.
Proof.
  induction s as [|c t IH]; simpl; [reflexivity|].
  destruct (isdigit c) eqn:E; simpl; [now rewrite E | reflexivity].
Qed.

Lemma search_digits_nonneg (s digits : string) :
  search_digits s = Some digits -> 0 <= int_of_digits digits.
Proof.
  induction s as [|c t IH]; simpl; [discriminate|].
  destruct (isdigit c) eqn:E; [|exact IH].
  intros H. injection H as <-. apply int_acc_nonneg; [lia|].
  simpl. rewrite E. simpl. apply digit_run_digits.
Qed.

(** [now - timedelta(...)] for an offset of [offset] microseconds. *)
Lemma sub_timedelta_wall (dt : Calendar.datetime) (offset : Z) :
  0 < (Calendar.wall_us dt - offset) / Calendar.US_PER_DAY <= Calendar.MAXORDINAL ->
  exists d,
    Calendar.datetime_sub_timedelta dt offset = Ok d /\
    Calendar.wall_us d = Calendar.wall_us dt - offset /\
    Calendar.tzinfo d = Calendar.tzinfo dt.
Proof.
  intros [Hlo Hhi]. unfold Calendar.datetime_sub_timedelta.
  apply Z.ltb_lt in Hlo. apply Z.leb_le in Hhi. rewrite Hlo, Hhi. simpl.
  eexists. split; [reflexivity|]. split.
  - apply CalendarFacts.wall_us_of_wall_us.
  - apply CalendarFacts.tzinfo_of_wall_us.
Qed.

Lemma timedelta_new_ok (d h m offset : Z) :
  offset = ((d * 24 + h) * 60 + m) * 60 * Calendar.US_PER_SECOND ->
  0 <= offset -> offset / Calendar.US_PER_DAY <= 999999999 ->
  Calendar.timedelta_new d h m = Ok offset.
Proof.
  intros -> Hlo Hhi. unfold Calendar.timedelta_new, Calendar.days.
  set (td := ((d * 24 + h) * 60 + m) * 60 * Calendar.US_PER_SECOND) in *.
  assert (0 <= td / Calendar.US_PER_DAY).
  { apply Z.div_pos; [assumption | vm_compute; reflexivity]. }
  replace (-999999999 <=? td / Calendar.US_PER_DAY) with true
    by (symmetry; apply Z.leb_le; lia).
  replace (td / Calendar.US_PER_DAY <=? 999999999) with true
    by (symmetry; now apply Z.leb_le).
  reflexivity.
Qed.

End RelativeFacts.

(** X10.  For an ASCII text that matches no absolute format, that
    mentions "hour", "day" or "minute" (the first of the three found
    decides the unit) and that holds a number [N], [_parse_news_date]
    returns the datetime exactly [N] units before now, provided that
    datetime exists (from year 1 on, and [N] units within the range of a
    timedelta). *)
Theorem relative_news_date_offset
        (w : World) (date_str digits : string) (unit_us : Z) :
  Checks.ascii_text date_str ->
  date_str <> "" ->
  first_format (Strptime.strptime_in (tzname w) (Text.strip date_str))
               NewsScraper.formats
  = Ok None ->
  Checks.relative_unit (Text.strip date_str) = Some unit_us ->
  Text.search_digits (Text.strip date_str) = Some digits ->
  Text.int_of_digits digits * unit_us / Calendar.US_PER_DAY <= 999999999 ->
  0 < (Calendar.wall_us (now w) - Text.int_of_digits digits * unit_us)
      / Calendar.US_PER_DAY <= Calendar.MAXORDINAL ->
  exists d,
    NewsScraper._parse_news_date w date_str = Some d /\
    Calendar.wall_us d =
    Calendar.wall_us (now w) - Text.int_of_digits digits * unit_us /\
    Calendar.tzinfo d = Calendar.tzinfo (now w).
Proof.
  intros _ Hne Hfmt Hunit Hdigits Htd Hrange.
  pose proof (RelativeFacts.search_digits_nonneg _ _ Hdigits) as Hn.
  destruct (RelativeFacts.sub_timedelta_wall (now w) _ Hrange)
    as [d [Hsub [Hwall Htz]]].
  exists d. split; [|split; assumption].
  unfold NewsScraper._parse_news_date.
  destruct date_str as [|c t]; [congruence|]. cbn [Text.nonempty negb].
  unfold NewsScraper.parse_news_date_try. rewrite Hfmt. cbn [bind].
  unfold NewsScraper.first_number. rewrite Hdigits. cbn [bind].
  unfold Checks.relative_unit in Hunit.
  destruct (Text.contains "hour" (Text.lower (Text.strip (String c t))));
    [|destruct (Text.contains "day" (Text.lower (Text.strip (String c t))));
      [|destruct (Text.contains "minute" (Text.lower (Text.strip (String c t))));
        [|discriminate]]].
  - assert (Hu : unit_us = 3600 * Calendar.US_PER_SECOND) by congruence.
    rewrite (RelativeFacts.timedelta_new_ok 0 (Text.int_of_digits digits) 0
               (Text.int_of_digits digits * unit_us));
      [cbn [bind]; now rewrite Hsub | rewrite Hu; lia
       | rewrite Hu; unfold Calendar.US_PER_SECOND; lia | exact Htd].
  - assert (Hu : unit_us = Calendar.US_PER_DAY) by congruence.
    rewrite (RelativeFacts.timedelta_new_ok (Text.int_of_digits digits) 0 0
               (Text.int_of_digits digits * unit_us));
      [cbn [bind]; now rewrite Hsub
       | rewrite Hu; unfold Calendar.US_PER_DAY; lia
       | rewrite Hu; unfold Calendar.US_PER_DAY, Calendar.US_PER_SECOND; lia
       | exact Htd].
  - assert (Hu : unit_us = 60 * Calendar.US_PER_SECOND) by congruence.
    rewrite (RelativeFacts.timedelta_new_ok 0 0 (Text.int_of_digits digits)
               (Text.int_of_digits digits * unit_us));
      [cbn [bind]; now rewrite Hsub | rewrite Hu; lia
       | rewrite Hu; unfold Calendar.US_PER_SECOND; lia | exact Htd].
Qed.

Lemma relative_news_date_offset_witness :
  exists d,
    NewsScraper._parse_news_date Scenario.offline "3 days ago" = Some d /\
    Calendar.wall_us d =
    Calendar.wall_us (now Scenario.offline)
    - Text.int_of_digits "3" * Calendar.US_PER_DAY /\
    Calendar.tzinfo d = Calendar.tzinfo (now Scenario.offline).
Proof.
  apply (relative_news_date_offset Scenario.offline "3 days ago" "3"
           Calendar.US_PER_DAY).
  - vm_compute. reflexivity.
  - discriminate.
  - vm_compute. reflexivity.
  - vm_compute. reflexivity.
  - vm_compute. reflexivity.
  - vm_compute. discriminate.
  - split; vm_compute; [reflexivity | discriminate].
Defined.

Example three_days_ago_example :
  NewsScraper._parse_news_date Scenario.offline "3 days ago"
  = Some (Calendar.mkdatetime 2024 2 9 9 0 0 0 None).
Proof. vm_compute. reflexivity. Qed.

(** X11.  An ASCII text that matches no absolute format and holds no
    digit is dated now, whether or not it names a unit: the missing number
    makes the relative branch raise, and the exception is caught. *)
Theorem relative_news_date_without_number (w : World) (date_str : string) :
  Checks.ascii_text date_str ->
  first_format (Strptime.strptime_in (tzname w) (Text.strip date_str))
               NewsScraper.formats
  = Ok None ->
  Text.search_digits (Text.strip date_str) = None ->
  NewsScraper._parse_news_date w date_str = Some (now w).
Proof.
  intros _ Hfmt Hdigits. apply NewsDateFacts.parse_news_date_fallback.
  intros d. unfold NewsScraper.parse_news_date_try.
  rewrite Hfmt. cbn [bind]. unfold NewsScraper.first_number.
  rewrite Hdigits. cbn [bind].
  destruct (Text.contains "hour" _); [discriminate|].
  destruct (Text.contains "day" _); [discriminate|].
  destruct (Text.contains "minute" _); discriminate.
Qed.

Lemma relative_news_date_without_number_witness :
  NewsScraper._parse_news_date Scenario.offline "a few hours ago"
  = Some (now Scenario.offline).
Proof.
  apply (relative_news_date_without_number Scenario.offline "a few hours ago").
  - vm_compute. reflexivity.
  - vm_compute. reflexivity.
  - vm_compute. reflexivity.
Defined.

(** ** Relative words of the earnings calendar *)

Module RelativeDayFacts.

Lemma shifted_day (dt : Calendar.datetime) (k : Z) :
  Calendar._check_time_fields
    (Calendar.dt_hour dt) (Calendar.dt_minute dt)
    (Calendar.dt_second dt) (Calendar.dt_microsecond dt) = true ->
  (Calendar.wall_us dt + k * Calendar.US_PER_DAY) / Calendar.US_PER_DAY
  = Calendar.toordinal (Calendar.date_of dt) + k.
Proof.
  intros Hv. rewrite Z.div_add by (vm_compute; discriminate).
  now rewrite CalendarFacts.wall_us_day.
Qed.

Lemma sub_days (dt : Calendar.datetime) (k : Z) :
  Calendar._check_time_fields
    (Calendar.dt_hour dt) (Calendar.dt_minute dt)
    (Calendar.dt_second dt) (Calendar.dt_microsecond dt) = true ->
  0 < Calendar.toordinal (Calendar.date_of dt) + k <= Calendar.MAXORDINAL ->
  exists d,
    Calendar.datetime_sub_timedelta dt (- (k * Calendar.US_PER_DAY)) = Ok d /\
    Calendar.toordinal (Calendar.date_of d)
    = Calendar.toordinal (Calendar.date_of dt) + k.
Proof.
  intros Hv Hrange.
  assert (Hord : (Calendar.wall_us dt - - (k * Calendar.US_PER_DAY))
                 / Calendar.US_PER_DAY
                 = Calendar.toordinal (Calendar.date_of dt) + k).
  { rewrite <- (shifted_day dt k Hv). f_equal. lia. }
  unfold Calendar.datetime_sub_timedelta. rewrite Hord.
  replace (0 <? Calendar.toordinal (Calendar.date_of dt) + k) with true
    by (symmetry; apply Z.ltb_lt; lia).
  replace (Calendar.toordinal (Calendar.date_of dt) + k <=? Calendar.MAXORDINAL)
    with true by (symmetry; apply Z.leb_le; lia).
  cbn [andb]. eexists. split; [reflexivity|].
  now rewrite CalendarFacts.toordinal_of_wall_us.
Qed.

End RelativeDayFacts.

(** X12.  For a text that matches none of the seven formats,
    [_parse_date] reads the first of "today", "tomorrow" and "yesterday"
    that occurs in it (in that order, whatever the case) and returns the
    date 0, 1 or -1 days from today, provided that day exists. *)
Theorem parse_date_relative_word (w : World) (date_str : string) (k : Z) :
  Checks.clock_time_valid w ->
  first_format (fun fmt => d <- Strptime.strptime (Text.strip date_str) fmt ;;
                           Ok (Calendar.date_of d))
               EarningsScraper.parse_date_formats = Ok None ->
  Checks.relative_day (Text.strip date_str) = Some k ->
  0 < Calendar.toordinal (EarningsScraper.today w) + k <= Calendar.MAXORDINAL ->
  exists d,
    EarningsScraper._parse_date w date_str = Some d /\
    Calendar.toordinal d = Calendar.toordinal (EarningsScraper.today w) + k /\
    (k = 0 -> d = EarningsScraper.today w).
Proof.
  intros Hv Hfmt Hword Hrange.
  unfold EarningsScraper._parse_date, EarningsScraper.parse_date_try.
  rewrite Hfmt. cbn [bind]. unfold Checks.relative_day in Hword.
  destruct (Text.contains "today" _).
  { exists (EarningsScraper.today w).
    assert (k = 0) by congruence. subst k.
    split; [reflexivity|]. split; [lia | reflexivity]. }
  destruct (Text.contains "tomorrow" _).
  { assert (k = 1) by congruence. subst k.
    destruct (RelativeDayFacts.sub_days (now w) 1 Hv Hrange) as [d [Hd Hord]].
    exists (Calendar.date_of d).
    change (EarningsScraper.days_delta 1) with (Ok Calendar.US_PER_DAY).
    cbn [bind]. unfold Calendar.datetime_add_timedelta.
    change (- Calendar.US_PER_DAY) with (- (1 * Calendar.US_PER_DAY)).
    rewrite Hd. cbn [bind].
    split; [reflexivity|]. split; [exact Hord | lia]. }
  destruct (Text.contains "yesterday" _); [|discriminate].
  assert (k = -1) by congruence. subst k.
  destruct (RelativeDayFacts.sub_days (now w) (-1) Hv Hrange) as [d [Hd Hord]].
  exists (Calendar.date_of d).
  change (EarningsScraper.days_delta 1) with (Ok Calendar.US_PER_DAY).
  cbn [bind].
  change (- (-1 * Calendar.US_PER_DAY)) with Calendar.US_PER_DAY in Hd.
  rewrite Hd. cbn [bind].
  split; [reflexivity|]. split; [exact Hord | lia].
Qed.

Lemma parse_date_relative_word_witness :
  exists d,
    EarningsScraper._parse_date Scenario.offline "Tomorrow (est.)" = Some d /\
    Calendar.toordinal d
    = Calendar.toordinal (EarningsScraper.today Scenario.offline) + 1 /\
    (1 = 0 -> d = EarningsScraper.today Scenario.offline).
Proof.
  apply (parse_date_relative_word Scenario.offline "Tomorrow (est.)" 1).
  - vm_compute. reflexivity.
  - vm_compute. reflexivity.
  - vm_compute. reflexivity.
  - split; vm_compute; [reflexivity | discriminate].
Defined.

Example tomorrow_example :
  EarningsScraper._parse_date Scenario.offline "Tomorrow (est.)"
  = Some (Calendar.mkdate 2024 2 13).
Proof. vm_compute. reflexivity. Qed.

(** ** The recent rows of a frame *)

Module RecentFacts.

Section Rows.

Context {R : Type}.
Variable date_column : R -> option Calendar.datetime.

Lemma rows_since_naive (cutoff_date : Calendar.datetime) (df : list R) :
  Calendar.tzinfo cutoff_date = None ->
  Checks.naive_column date_column df ->
  Utils.rows_since date_column cutoff_date df
  = Ok (filter (fun r => match date_column r with
                         | Some d => Calendar.wall_us cutoff_date
                                     <=? Calendar.wall_us d
                         | None => false
                         end) df).
Proof.
  intros Hc. induction df as [|r rest IH]; intros Hn; [reflexivity|].
  cbn [Utils.rows_since filter].
  rewrite IH by (intros r' d Hin; apply Hn; now right).
  pose proof (Hn r) as Hr.
  destruct (date_column r) as [d|].
  - unfold Calendar.datetime_le.
    rewrite Hc, (Hr d (or_introl eq_refl) eq_refl). reflexivity.
  - reflexivity.
Qed.

End Rows.

Lemma days_delta_ok (days : Z) :
  -999999999 <= days <= 999999999 ->
  Calendar.timedelta_new days 0 0 = Ok (days * Calendar.US_PER_DAY).
Proof.
  intros Hd. unfold Calendar.timedelta_new, Calendar.days.
  replace ((days * 24 + 0) * 60 + 0) with (days * 1440) by lia.
  replace (days * 1440 * 60 * Calendar.US_PER_SECOND)
    with (days * Calendar.US_PER_DAY)
    by (unfold Calendar.US_PER_DAY; lia).
  rewrite Z.div_mul by (vm_compute; discriminate).
  replace (-999999999 <=? days) with true by (symmetry; apply Z.leb_le; lia).
  replace (days <=? 999999999) with true by (symmetry; apply Z.leb_le; lia).
  reflexivity.
Qed.

End RecentFacts.

(** X13.  With a naive clock and a naive [date] column,
    [filter_recent_dates] keeps, in their order, exactly the rows dated at
    or after [now - days] days, and drops the rows without a date, as long
    as that cutoff is a datetime. *)
Theorem filter_recent_dates_keeps_since
        {R : Type} (date_column : R -> option Calendar.datetime)
        (w : World) (df : list R) (days : Z) :
  Calendar.tzinfo (now w) = None ->
  Checks.naive_column date_column df ->
  -999999999 <= days <= 999999999 ->
  0 < (Calendar.wall_us (now w) - days * Calendar.US_PER_DAY)
      / Calendar.US_PER_DAY <= Calendar.MAXORDINAL ->
  Utils.filter_recent_dates date_column w df days
  = Ok (filter (Checks.since date_column w days) df).
Proof.
  intros Htz Hn Hdays Hrange. unfold Utils.filter_recent_dates.
  destruct df as [|r rest]; [reflexivity|].
  rewrite (RecentFacts.days_delta_ok days Hdays). cbn [bind].
  destruct (RelativeFacts.sub_timedelta_wall (now w) _ Hrange)
    as [c [Hc [Hwall Hctz]]].
  rewrite Hc. cbn [bind].
  rewrite (RecentFacts.rows_since_naive date_column c (r :: rest));
    [|congruence|exact Hn].
  f_equal. apply filter_ext. intros x. unfold Checks.since.
  now rewrite Hwall.
Qed.

Lemma filter_recent_dates_keeps_since_witness :
  Utils.filter_recent_dates
    NewsScraper.date Scenario.offline
    [MoreScenarios.january_article; Scenario.apple_article] 7
  = Ok [Scenario.apple_article].
Proof.
  apply (filter_recent_dates_keeps_since
           NewsScraper.date Scenario.offline
           [MoreScenarios.january_article; Scenario.apple_article] 7).
  - reflexivity.
  - intros r d [<- | [<- | []]] Hd; vm_compute in Hd;
      injection Hd as <-; reflexivity.
  - lia.
  - split; vm_compute; [reflexivity | discriminate].
Defined.

(** ** Ticker symbols *)

Module SymbolFacts.

Import Text.

Lemma length_append (s t : string) :
  String.length (append s t) = (String.length s + String.length t)%nat.
Proof. induction s as [|c s IH]; simpl; [reflexivity | now rewrite IH]. Qed.

Lemma append_empty (s : string) : append s "" = s.
Proof. induction s as [|c s IH]; simpl; [reflexivity | now rewrite IH]. Qed.

Lemma all_chars_append (p : ascii -> bool) (s t : string) :
  all_chars p (append s t) = all_chars p s && all_chars p t.
Proof.
  induction s as [|c s IH]; simpl; [reflexivity|].
  now rewrite IH, andb_assoc.
Qed.

Lemma all_chars_impl (p q : ascii -> bool) (s : string) :
  (forall c, p c = true -> q c = true) ->
  all_chars p s = true -> all_chars q s = true.
Proof.
  intros Hpq. induction s as [|c s IH]; simpl; [reflexivity|].
  intros H. apply andb_true_iff in H. destruct H as [Hc Hs].
  now rewrite (Hpq c Hc), IH.
Qed.

Lemma all_chars_drop (p : ascii -> bool) (k : nat) :
  forall s, all_chars p s = true -> all_chars p (drop k s) = true.
Proof.
  induction k as [|k IH]; intros s H; [exact H|].
  destruct s as [|c s]; [reflexivity|]. simpl.
  apply IH. simpl in H. now apply andb_true_iff in H.
Qed.

Lemma drop_append_le (k : nat) :
  forall s t, (k <= String.length s)%nat ->
              drop k (append s t) = append (drop k s) t.
Proof.
  induction k as [|k IH]; intros s t Hk; [reflexivity|].
  destruct s as [|c s]; simpl in *; [lia|]. apply IH. lia.
Qed.

Lemma drop_append_ge (k : nat) :
  forall s t, (String.length s <= k)%nat ->
              drop k (append s t) = drop (k - String.length s) t.
Proof.
  induction k as [|k IH]; intros s t Hk.
  - destruct s; simpl in *; [reflexivity | lia].
  - destruct s as [|c s]; simpl in *; [reflexivity|]. apply IH. lia.
Qed.

Lemma take_append (s t : string) : take (String.length s) (append s t) = s.
Proof. induction s as [|c s IH]; simpl; [now destruct t | now rewrite IH]. Qed.

Lemma drop_head (p : ascii -> bool) (k : nat) :
  forall s, all_chars p s = true -> (k < String.length s)%nat ->
            exists c r, drop k s = String c r /\ p c = true.
Proof.
  induction k as [|k IH]; intros s Hs Hk.
  - destruct s as [|c s]; simpl in *; [lia|].
    apply andb_true_iff in Hs. exists c, s. now split.
  - destruct s as [|c s]; simpl in *; [lia|].
    apply andb_true_iff in Hs. apply IH; [tauto | lia].
Qed.

(** A text of capital letters followed by a suffix-shaped tail ends with
    an exchange suffix only if that suffix is the tail. *)
Lemma endswith_tail (s t suffix : string) (c : ascii) (suffix' : string) :
  all_chars is_upper_letter s = true ->
  Checks.suffix_shape t ->
  suffix = String c suffix' -> is_upper_letter c = false ->
  endswith suffix (append s t) = String.eqb suffix t.
Proof.
  intros Hs Ht -> Hc.
  destruct (String.eqb (String c suffix') t) eqn:Heq.
  - apply String.eqb_eq in Heq. subst t. unfold endswith.
    rewrite length_append.
    replace (String.length s + String.length (String c suffix')
             - String.length (String c suffix'))%nat
      with (String.length s) by lia.
    rewrite drop_append_ge, Nat.sub_diag by lia. cbn [drop].
    rewrite String.eqb_refl, andb_true_r. apply Nat.leb_le. lia.
  - unfold endswith. rewrite length_append.
    destruct (String.length (String c suffix')
              <=? String.length s + String.length t)%nat eqn:Hlen;
      [|reflexivity].
    apply Nat.leb_le in Hlen. cbn [andb].
    apply String.eqb_neq. intros Hdrop.
    set (k := (String.length s + String.length t
               - String.length (String c suffix'))%nat) in *.
    destruct (Nat.lt_trichotomy k (String.length s)) as [Hk | [Hk | Hk]].
    + rewrite drop_append_le in Hdrop by lia.
      destruct (drop_head is_upper_letter k s Hs Hk) as [a [r [Hd Ha]]].
      rewrite Hd in Hdrop. simpl in Hdrop. congruence.
    + rewrite drop_append_ge, Hk, Nat.sub_diag in Hdrop by lia.
      cbn [drop] in Hdrop. apply String.eqb_neq in Heq. congruence.
    + rewrite drop_append_ge in Hdrop by lia.
      destruct t as [|a t']; [simpl in *; lia|].
      destruct Ht as [_ Ht'].
      destruct (k - String.length s)%nat as [|j] eqn:Hj; [lia|].
      cbn [drop] in Hdrop.
      assert (Hall : all_chars is_upper_letter (String c suffix') = true).
      { rewrite <- Hdrop. now apply all_chars_drop. }
      simpl in Hall. rewrite Hc in Hall. discriminate.
Qed.

Lemma strip_suffix_tail (s t : string) (c : ascii) (suffix' : string) :
  all_chars is_upper_letter s = true ->
  Checks.suffix_shape t ->
  is_upper_letter c = false ->
  Utils.strip_suffix (append s t) (String c suffix')
  = if String.eqb (String c suffix') t then s else append s t.
Proof.
  intros Hs Ht Hc. unfold Utils.strip_suffix.
  rewrite (endswith_tail s t _ c suffix' Hs Ht eq_refl Hc).
  destruct (String.eqb (String c suffix') t) eqn:Heq; [|reflexivity].
  apply String.eqb_eq in Heq. subst t. unfold drop_last.
  rewrite length_append.
  replace (String.length s + String.length (String c suffix')
           - String.length (String c suffix'))%nat
    with (String.length s) by lia.
  apply take_append.
Qed.

Lemma letter_facts (c : ascii) :
  is_upper_letter c = true ->
  upper_char c = c /\ isspace c = false /\ Ascii.eqb c "." = false.
Proof.
  destruct c as [b0 b1 b2 b3 b4 b5 b6 b7].
  destruct b0, b1, b2, b3, b4, b5, b6, b7; vm_compute;
    intros H; try discriminate H; repeat split.
Qed.

Lemma upper_letters (s : string) :
  all_chars is_upper_letter s = true -> upper s = s.
Proof.
  unfold upper. induction s as [|c s IH]; simpl; [reflexivity|].
  intros H. apply andb_true_iff in H. destruct H as [Hc Hs].
  now rewrite (proj1 (letter_facts c Hc)), IH.
Qed.

Lemma remove_dot_letters (s : string) :
  all_chars is_upper_letter s = true -> remove_char "." s = s.
Proof.
  induction s as [|c s IH]; simpl; [reflexivity|].
  intros H. apply andb_true_iff in H. destruct H as [Hc Hs].
  destruct (letter_facts c Hc) as [_ [_ Hdot]]. now rewrite Hdot, IH.
Qed.

Lemma rstrip_fixed (s : string) :
  all_chars (fun c => negb (isspace c)) s = true -> rstrip s = s.
Proof.
  induction s as [|c s IH]; simpl; [reflexivity|].
  intros H. apply andb_true_iff in H. destruct H as [Hc Hs].
  rewrite (IH Hs). destruct s; [|reflexivity].
  apply negb_true_iff in Hc. now rewrite Hc.
Qed.

Lemma strip_fixed (s : string) :
  all_chars (fun c => negb (isspace c)) s = true -> strip s = s.
Proof.
  intros H. unfold strip.
  replace (lstrip s) with s; [now apply rstrip_fixed|].
  destruct s as [|c s]; [reflexivity|]. simpl in *.
  apply andb_true_iff in H. destruct H as [Hc _].
  apply negb_true_iff in Hc. now rewrite Hc.
Qed.

Lemma letters_no_space (s : string) :
  all_chars is_upper_letter s = true ->
  all_chars (fun c => negb (isspace c)) s = true.
Proof.
  apply all_chars_impl. intros c Hc.
  destruct (letter_facts c Hc) as [_ [Hsp _]]. now rewrite Hsp.
Qed.

(** [clean_ticker] on capital letters followed by one listed suffix, or
    by nothing. *)
Lemma clean_ticker_tail (s t : string) :
  all_chars is_upper_letter s = true ->
  t = "" \/ In t Checks.exchange_suffixes ->
  Utils.clean_ticker (append s t) = s.
Proof.
  intros Hs Ht. unfold Utils.clean_ticker.
  destruct (nonempty (append s t)) eqn:Hne; cbn [negb].
  2:{ destruct s; [reflexivity | discriminate Hne]. }
  assert (Hshape : Checks.suffix_shape t).
  { destruct Ht as [-> | Ht]; [exact I|].
    repeat (destruct Ht as [<- | Ht]; [now vm_compute|]). destruct Ht. }
  assert (Hup : upper (append s t) = append s t).
  { destruct Ht as [-> | Ht]; [rewrite append_empty; now apply upper_letters|].
    unfold upper in *.
    assert (Happ : forall a b, map_chars upper_char (append a b)
                               = append (map_chars upper_char a)
                                        (map_chars upper_char b)).
    { intros a b. induction a as [|x a IH]; simpl; [reflexivity|].
      now rewrite IH. }
    rewrite Happ. fold (upper s). rewrite (upper_letters s Hs).
    repeat (destruct Ht as [<- | Ht]; [reflexivity|]). destruct Ht. }
  assert (Hsp : all_chars (fun c => negb (isspace c)) (append s t) = true).
  { rewrite all_chars_append, (letters_no_space s Hs).
    destruct Ht as [-> | Ht]; [reflexivity|].
    repeat (destruct Ht as [<- | Ht]; [reflexivity|]). destruct Ht. }
  rewrite Hup, (strip_fixed _ Hsp).
  assert (Hfold : fold_left Utils.strip_suffix Checks.exchange_suffixes
                            (append s t) = s).
  { assert (Hnil : forall c suffix',
               is_upper_letter c = false ->
               Utils.strip_suffix s (String c suffix') = s).
    { intros c suffix' Hc.
      pose proof (strip_suffix_tail s "" c suffix' Hs I Hc) as H.
      rewrite append_empty in H. exact H. }
    destruct Ht as [-> | Ht].
    - rewrite append_empty. cbn [fold_left Checks.exchange_suffixes].
      now rewrite !Hnil by reflexivity.
    - cbn [fold_left Checks.exchange_suffixes].
      repeat (destruct Ht as [<- | Ht];
              [repeat (first
                 [ rewrite (strip_suffix_tail s) by (reflexivity || assumption);
                   cbn [String.eqb Ascii.eqb Bool.eqb andb]
                 | rewrite Hnil by reflexivity ]);
               reflexivity|]).
      destruct Ht. }
  change ["-USD"; "-US"; ".US"; ".TO"; ".L"] with Checks.exchange_suffixes.
  rewrite Hfold. now apply remove_dot_letters.
Qed.

Lemma isalpha_upper (s : string) :
  upper s = s -> isalpha s = nonempty s && all_chars is_upper_letter s.
Proof.
  intros Hup. unfold isalpha. f_equal.
  induction s as [|c s IH]; [reflexivity|].
  apply TickerFacts.upper_cons in Hup. destruct Hup as [Hc Hs].
  cbn [all_chars]. rewrite (IH Hs). f_equal.
  revert Hc. destruct c as [b0 b1 b2 b3 b4 b5 b6 b7].
  destruct b0, b1, b2, b3, b4, b5, b6, b7; vm_compute;
    intros H; try discriminate H; reflexivity.
Qed.

Lemma nonempty_len (s : string) : nonempty s = (1 <=? len s).
Proof.
  destruct s as [|c s]; [reflexivity|]. unfold len. simpl String.length.
  symmetry. apply Z.leb_le. lia.
Qed.

Lemma upper_lower_char (c : ascii) : upper_char (lower_char c) = upper_char c.
Proof.
  destruct c as [b0 b1 b2 b3 b4 b5 b6 b7].
  destruct b0, b1, b2, b3, b4, b5, b6, b7; reflexivity.
Qed.

Lemma lower_upper_char (c : ascii) : lower_char (upper_char c) = lower_char c.
Proof.
  destruct c as [b0 b1 b2 b3 b4 b5 b6 b7].
  destruct b0, b1, b2, b3, b4, b5, b6, b7; reflexivity.
Qed.

Lemma upper_lower (s : string) : upper (lower s) = upper s.
Proof.
  unfold upper, lower. induction s as [|c s IH]; simpl; [reflexivity|].
  now rewrite upper_lower_char, IH.
Qed.

Lemma lower_upper (s : string) : lower (upper s) = lower s.
Proof.
  unfold upper, lower. induction s as [|c s IH]; simpl; [reflexivity|].
  now rewrite lower_upper_char, IH.
Qed.

Lemma remove_char_gone (c : ascii) (s : string) :
  contains (String c "") (remove_char c s) = false.
Proof.
  induction s as [|a s IH]; [reflexivity|]. cbn [remove_char].
  destruct (Ascii.eqb a c) eqn:Ha; [exact IH|].
  cbn [contains startswith]. rewrite IH.
  rewrite Ascii.eqb_sym, Ha. reflexivity.
Qed.

End SymbolFacts.

Module TickerCheckFacts.

Import Text.

Lemma validate_ticker_symbol (ticker : string) :
  Utils.validate_ticker ticker = Checks.is_symbol (Utils.clean_ticker ticker).
Proof.
  unfold Utils.validate_ticker, Checks.is_symbol.
  destruct ticker as [|c t]; [reflexivity|]. cbn [nonempty negb].
  set (cleaned := Utils.clean_ticker (String c t)).
  rewrite (SymbolFacts.isalpha_upper cleaned)
    by apply TickerFacts.clean_ticker_uppercase.
  rewrite SymbolFacts.nonempty_len.
  rewrite Z.ltb_antisym, (Z.ltb_antisym (len cleaned) 5).
  destruct (1 <=? len cleaned), (len cleaned <=? 5),
    (all_chars is_upper_letter cleaned); reflexivity.
Qed.

Lemma symbol_letters (s : string) :
  Checks.is_symbol s = true -> all_chars is_upper_letter s = true.
Proof.
  unfold Checks.is_symbol. intros H.
  now apply andb_true_iff in H.
Qed.

Lemma clean_ticker_lower (ticker : string) :
  Utils.clean_ticker (lower ticker) = Utils.clean_ticker ticker.
Proof.
  unfold Utils.clean_ticker. rewrite SymbolFacts.upper_lower.
  now destruct ticker.
Qed.

End TickerCheckFacts.

(** X14.  [clean_ticker] removes a listed exchange suffix from a symbol
    written in capital letters, leaves a bare symbol as it is, and does the
    same when the text comes in lower case. *)
Theorem clean_ticker_removes_exchange_suffix (s suffix : string) :
  Text.all_chars Text.is_upper_letter s = true ->
  In suffix Checks.exchange_suffixes ->
  Utils.clean_ticker (append s suffix) = s /\
  Utils.clean_ticker (Text.lower (append s suffix)) = s /\
  Utils.clean_ticker s = s.
Proof.
  intros Hs Hsuffix. split; [|split].
  - apply SymbolFacts.clean_ticker_tail; [exact Hs | now right].
  - rewrite TickerCheckFacts.clean_ticker_lower.
    apply SymbolFacts.clean_ticker_tail; [exact Hs | now right].
  - rewrite <- (SymbolFacts.append_empty s) at 1.
    apply SymbolFacts.clean_ticker_tail; [exact Hs | now left].
Qed.

Lemma clean_ticker_removes_exchange_suffix_witness :
  Utils.clean_ticker "SHOP.TO" = "SHOP" /\
  Utils.clean_ticker (Text.lower "SHOP.TO") = "SHOP" /\
  Utils.clean_ticker "SHOP" = "SHOP".
Proof.
  apply (clean_ticker_removes_exchange_suffix "SHOP" ".TO").
  - reflexivity.
  - simpl. tauto.
Defined.

(** The suffixes are tried once each, in the order of the list: a suffix
    uncovered by a later removal stays. *)
Example clean_ticker_not_idempotent :
  Utils.clean_ticker "BHP-US.TO" = "BHP-US" /\
  Utils.clean_ticker "BHP-US" = "BHP".
Proof. split; reflexivity. Qed.

(** X15.  On ASCII text, [validate_ticker] accepts a text exactly when
    [clean_ticker] turns it into one to five capital letters A-Z; the
    cleaned form of an accepted text is left unchanged by [clean_ticker]
    and is accepted in turn. *)
Theorem validate_ticker_accepts_symbols (ticker : string) :
  Checks.ascii_text ticker ->
  Utils.validate_ticker ticker
  = Checks.is_symbol (Utils.clean_ticker ticker) /\
  (Utils.validate_ticker ticker = true ->
   Utils.clean_ticker (Utils.clean_ticker ticker) = Utils.clean_ticker ticker /\
   Utils.validate_ticker (Utils.clean_ticker ticker) = true).
Proof.
  intros _. split; [apply TickerCheckFacts.validate_ticker_symbol|].
  rewrite TickerCheckFacts.validate_ticker_symbol. intros Hsym.
  assert (Hfix : Utils.clean_ticker (Utils.clean_ticker ticker)
                 = Utils.clean_ticker ticker).
  { rewrite <- (SymbolFacts.append_empty (Utils.clean_ticker ticker)) at 1.
    apply SymbolFacts.clean_ticker_tail; [|now left].
    now apply TickerCheckFacts.symbol_letters. }
  split; [exact Hfix|].
  now rewrite TickerCheckFacts.validate_ticker_symbol, Hfix.
Qed.

Lemma validate_ticker_accepts_symbols_witness :
  Utils.validate_ticker "brk.b" = Checks.is_symbol (Utils.clean_ticker "brk.b") /\
  (Utils.validate_ticker "brk.b" = true ->
   Utils.clean_ticker (Utils.clean_ticker "brk.b") = Utils.clean_ticker "brk.b" /\
   Utils.validate_ticker (Utils.clean_ticker "brk.b") = true).
Proof.
  apply (validate_ticker_accepts_symbols "brk.b").
  vm_compute. reflexivity.
Defined.

Example validate_ticker_examples :
  Utils.validate_ticker "brk.b" = true /\
  Utils.validate_ticker "GOOGLE" = false /\
  Utils.validate_ticker "BF-B" = false /\
  Utils.validate_ticker " " = false.
Proof. repeat split. Qed.

(** X16.  On ASCII text, the ticker helpers ignore the case of what they
    are given, and what [clean_ticker] returns holds no dot. *)
Theorem ticker_helpers_ignore_case (ticker : string) :
  Checks.ascii_text ticker ->
  Utils.clean_ticker (Text.lower ticker) = Utils.clean_ticker ticker /\
  Utils.clean_ticker (Text.upper ticker) = Utils.clean_ticker ticker /\
  Utils.validate_ticker (Text.lower ticker) = Utils.validate_ticker ticker /\
  Utils.validate_ticker (Text.upper ticker) = Utils.validate_ticker ticker /\
  Text.contains "." (Utils.clean_ticker ticker) = false.
Proof.
  intros _.
  assert (Hupper : Utils.clean_ticker (Text.upper ticker)
                   = Utils.clean_ticker ticker).
  { unfold Utils.clean_ticker. rewrite TickerFacts.upper_idem.
    now destruct ticker. }
  split; [apply TickerCheckFacts.clean_ticker_lower|].
  split; [exact Hupper|].
  rewrite !TickerCheckFacts.validate_ticker_symbol.
  rewrite TickerCheckFacts.clean_ticker_lower, Hupper.
  split; [reflexivity|]. split; [reflexivity|].
  unfold Utils.clean_ticker.
  destruct (negb (Text.nonempty ticker)); [reflexivity|].
  apply SymbolFacts.remove_char_gone.
Qed.

Lemma ticker_helpers_ignore_case_witness :
  Utils.clean_ticker (Text.lower "Shop.TO") = Utils.clean_ticker "Shop.TO" /\
  Utils.clean_ticker (Text.upper "Shop.TO") = Utils.clean_ticker "Shop.TO" /\
  Utils.validate_ticker (Text.lower "Shop.TO") = Utils.validate_ticker "Shop.TO" /\
  Utils.validate_ticker (Text.upper "Shop.TO") = Utils.validate_ticker "Shop.TO" /\
  Text.contains "." (Utils.clean_ticker "Shop.TO") = false.
Proof.
  apply (ticker_helpers_ignore_case "Shop.TO").
  vm_compute. reflexivity.
Defined.

(** X17.  On ASCII text, [get_earnings_time_category] ignores the case of
    the time text. *)
Theorem time_category_ignores_case (time_str : string) :
  Checks.ascii_text time_str ->
  Utils.get_earnings_time_category (Text.upper time_str)
  = Utils.get_earnings_time_category time_str /\
  Utils.get_earnings_time_category (Text.lower time_str)
  = Utils.get_earnings_time_category time_str.
Proof.
  intros _. unfold Utils.get_earnings_time_category.
  rewrite SymbolFacts.lower_upper.
  assert (Hidem : Text.lower (Text.lower time_str) = Text.lower time_str).
  { rewrite <- (SymbolFacts.lower_upper (Text.lower time_str)).
    now rewrite SymbolFacts.upper_lower, SymbolFacts.lower_upper. }
  rewrite Hidem. now destruct time_str.
Qed.

Lemma time_category_ignores_case_witness :
  Utils.get_earnings_time_category (Text.upper "After Market Close")
  = Utils.get_earnings_time_category "After Market Close" /\
  Utils.get_earnings_time_category (Text.lower "After Market Close")
  = Utils.get_earnings_time_category "After Market Close".
Proof.
  apply (time_category_ignores_case "After Market Close").
  vm_compute. reflexivity.
Defined.

(** ** Quarter labels *)

Module QuarterFacts.

Lemma str_int_injective (a b : Z) :
  Calendar.str_int a = Calendar.str_int b -> a = b.
Proof.
  unfold Calendar.str_int. intros H.
  assert (Hnonnil : forall z, Z.to_int z <> Decimal.Pos Decimal.Nil /\
                              Z.to_int z <> Decimal.Neg Decimal.Nil).
  { intros [|p|p]; simpl; split; try discriminate;
      intros Hp; injection Hp as Hp;
      now apply (DecimalPos.Unsigned.to_uint_nonnil p). }
  assert (Hint : Some (Z.to_int a) = Some (Z.to_int b)).
  { rewrite <- (NilZero.isi (Z.to_int a)) by apply Hnonnil.
    rewrite <- (NilZero.isi (Z.to_int b)) by apply Hnonnil.
    now rewrite H. }
  injection Hint as Hint.
  rewrite <- (DecimalZ.of_to a), <- (DecimalZ.of_to b). now rewrite Hint.
Qed.

End QuarterFacts.

(** X18.  For two dates, [get_quarter_from_date] returns the same label
    exactly when they lie in the same quarter of the same year. *)
Theorem quarter_label_identifies_quarter
        (pd_to_datetime : string -> result (option Calendar.date))
        (d1 d2 : Calendar.date) :
  1 <= Calendar.month d1 <= 12 ->
  1 <= Calendar.month d2 <= 12 ->
  Utils.get_quarter_from_date pd_to_datetime (Utils.Date d1)
  = Utils.get_quarter_from_date pd_to_datetime (Utils.Date d2)
  <-> Calendar.year d1 = Calendar.year d2 /\
      (Calendar.month d1 - 1) / 3 = (Calendar.month d2 - 1) / 3.
Proof.
  destruct d1 as [y1 m1 dd1], d2 as [y2 m2 dd2].
  cbn [Calendar.month Calendar.year Utils.get_quarter_from_date
       Utils.quarter_label].
  intros H1 H2.
  assert (Hm1 : m1 = 1 \/ m1 = 2 \/ m1 = 3 \/ m1 = 4 \/ m1 = 5 \/ m1 = 6 \/
                m1 = 7 \/ m1 = 8 \/ m1 = 9 \/ m1 = 10 \/ m1 = 11 \/ m1 = 12)
    by lia.
  assert (Hm2 : m2 = 1 \/ m2 = 2 \/ m2 = 3 \/ m2 = 4 \/ m2 = 5 \/ m2 = 6 \/
                m2 = 7 \/ m2 = 8 \/ m2 = 9 \/ m2 = 10 \/ m2 = 11 \/ m2 = 12)
    by lia.
  clear H1 H2.
  repeat (destruct Hm1 as [-> | Hm1]); try subst m1;
    repeat (destruct Hm2 as [-> | Hm2]); try subst m2;
    cbn [existsb Z.eqb Pos.eqb orb];
    (split;
     [ intros H; first [discriminate H
                       | injection H as H;
                         split; [now apply QuarterFacts.str_int_injective
                                | reflexivity] ]
     | intros [Hy Hq]; first [discriminate Hq | now rewrite Hy] ]).
Qed.

Lemma quarter_label_identifies_quarter_witness :
  Utils.get_quarter_from_date (fun _ => Raise ValueError)
                              (Utils.Date (Calendar.mkdate 2024 2 12))
  = Utils.get_quarter_from_date (fun _ => Raise ValueError)
                                (Utils.Date (Calendar.mkdate 2024 3 31))
  <-> 2024 = 2024 /\ (2 - 1) / 3 = (3 - 1) / 3.
Proof.
  apply (quarter_label_identifies_quarter
           (fun _ => Raise ValueError)
           (Calendar.mkdate 2024 2 12) (Calendar.mkdate 2024 3 31)).
  - simpl. lia.
  - simpl. lia.
Defined.

Example quarter_label_example :
  Utils.get_quarter_from_date (fun _ => Raise ValueError)
                              (Utils.Date (Calendar.mkdate 2024 2 12))
  = "Q1 2024".
Proof. reflexivity. Qed.

(** ** The year of a Finviz date *)

Module YearFacts.

Import Strptime.

(** The groups of a match are groups of the expression, or were there
    before. *)
Lemma rmatch_groups (r : regex) :
  forall caps s found rest,
    In (found, rest) (rmatch r caps s) ->
    forall g, In g found -> In g caps \/ In (fst g) (Checks.group_names r).
Proof.
  induction r as [|p|a IHa b IHb|a IHa b IHb|p|n r0 IH];
    intros caps s found rest Hin g Hg; cbn [rmatch Checks.group_names] in *.
  - destruct Hin as [Heq | []]. injection Heq as <- <-. now left.
  - destruct s as [|c t]; [destruct Hin|].
    destruct (p c); [|destruct Hin].
    destruct Hin as [Heq | []]. injection Heq as <- <-. now left.
  - apply in_flat_map in Hin. destruct Hin as [[caps' s'] [Ha Hb]].
    cbn [fst snd] in Hb.
    destruct (IHb _ _ _ _ Hb g Hg) as [Hc | Hn].
    + destruct (IHa _ _ _ _ Ha g Hc) as [Hc' | Hn]; [now left|].
      right. apply in_or_app. now left.
    + right. apply in_or_app. now right.
  - apply in_app_or in Hin. destruct Hin as [Hin | Hin].
    + destruct (IHa _ _ _ _ Hin g Hg) as [Hc | Hn]; [now left|].
      right. apply in_or_app. now left.
    + destruct (IHb _ _ _ _ Hin g Hg) as [Hc | Hn]; [now left|].
      right. apply in_or_app. now right.
  - apply in_map_iff in Hin. destruct Hin as [x [Heq _]].
    injection Heq as <- <-. now left.
  - apply in_map_iff in Hin. destruct Hin as [[caps' s'] [Heq Hin]].
    cbn [fst snd] in Heq. injection Heq as <- <-.
    destruct Hg as [<- | Hg]; [right; now left|].
    destruct (IH _ _ _ _ Hin g Hg) as [Hc | Hn]; [now left|].
    right. now right.
Qed.

(** Groups other than the year groups leave the year unset. *)
Lemma convert_groups_year (found : groupdict) :
  forall f f',
    Forall (fun g => Checks.year_group (fst g) = false) found ->
    convert_groups f found = Ok f' ->
    f_year f' = f_year f.
Proof.
  induction found as [|[n v] found IH]; intros f f' Hall Hconv.
  - injection Hconv as <-. reflexivity.
  - inversion Hall as [|g l Hg Hrest]; subst. cbn [fst] in Hg.
    cbn [convert_groups] in Hconv.
    destruct (convert_group f (n, v)) as [f1|e] eqn:Hone; [|discriminate].
    cbn [bind] in Hconv. rewrite (IH f1 f' Hrest Hconv).
    unfold convert_group in Hone. cbn [fst snd] in Hone.
    destruct n as [b0 b1 b2 b3 b4 b5 b6 b7].
    destruct b0, b1, b2, b3, b4, b5, b6, b7;
      try discriminate Hg;
      try (injection Hone as <-; reflexivity);
      match type of Hone with
      | bind ?m _ = _ => destruct m; [|discriminate Hone]
      end;
      cbn [bind] in Hone; injection Hone as <-; reflexivity.
Qed.

(** A format without a year directive reads the year 1900. *)
Lemma strptime_yearless (data_string format : string) (p : Calendar.datetime) :
  Checks.yearless format = true ->
  strptime data_string format = Ok p ->
  Calendar.dt_year p = 1900.
Proof.
  unfold Checks.yearless, strptime, strptime_in, pattern.
  destruct (pattern_in [] format) as [r|]; [|discriminate].
  intros Hless Hp. apply negb_true_iff in Hless.
  destruct (rmatch r [] data_string) as [|[found rest] others] eqn:Hm;
    [discriminate|].
  destruct (Text.nonempty rest); [discriminate|].
  destruct (convert_groups fields0 (rev found)) as [f|e] eqn:Hconv;
    [|discriminate].
  cbn [bind] in Hp.
  assert (Hyear : f_year f = None).
  { rewrite (convert_groups_year (rev found) fields0 f); [reflexivity| |exact Hconv].
    apply Forall_forall. intros g Hg. apply in_rev in Hg.
    destruct (rmatch_groups r [] data_string found rest) with (g := g)
      as [[] | Hn]; [rewrite Hm; now left | exact Hg |].
    destruct (Checks.year_group (fst g)) eqn:Hy; [|reflexivity].
    rewrite <- Hless. symmetry. apply existsb_exists.
    exists (fst g). now split. }
  rewrite Hyear in Hp.
  destruct (Calendar.date_new _ _ _); [|discriminate].
  cbn [bind] in Hp. unfold Calendar.datetime_new in Hp.
  match type of Hp with
  | (if ?c then _ else _) = _ => destruct c; [|discriminate Hp]
  end.
  injection Hp as <-. cbn [Calendar.dt_year].
  now destruct ((f_month_no f =? 2) && (f_day f =? 29)).
Qed.

Lemma replace_year_year (p p' : Calendar.datetime) (y : Z) :
  Calendar.replace_year p y = Ok p' ->
  Calendar.dt_year p' = y /\ Calendar.dt_month p' = Calendar.dt_month p /\
  Calendar.dt_day p' = Calendar.dt_day p.
Proof.
  unfold Calendar.replace_year, Calendar.datetime_new.
  match goal with
  | |- (if ?c then _ else _) = _ -> _ => destruct c; [|discriminate]
  end.
  intros H. injection H as <-. repeat split.
Qed.

End YearFacts.

Lemma first_format_some {A : Type} (attempt : string -> result A)
      (formats : list string) (v : A) :
  first_format attempt formats = Ok (Some v) ->
  exists fmt, In fmt formats /\ attempt fmt = Ok v.
Proof.
  induction formats as [|fmt rest IH]; cbn [first_format]; [discriminate|].
  destruct (attempt fmt) as [a|e] eqn:Ha.
  - intros H. injection H as <-. exists fmt. split; [now left | exact Ha].
  - intros H. destruct e; try discriminate H.
    destruct (IH H) as [fmt' [Hin Hv]]. exists fmt'. split; [now right | exact Hv].
Qed.

(** X19.  The date that [_parse_finviz_date] returns for an ASCII text
    lies in the clock's year, unless the text spells out a year other than
    1900 in one of the two formats that have one: a header without a year,
    the fallback and a text that names the year 1900 all end up in the
    current year. *)
Theorem finviz_date_year (w : World) (date_str : string) (d : Calendar.date) :
  Checks.ascii_text date_str ->
  EarningsScraper._parse_finviz_date w date_str = Some d ->
  Calendar.year d = Calendar.dt_year (now w) \/
  (Calendar.year d <> 1900 /\
   exists fmt p,
     In fmt ["%m/%d/%Y"; "%Y-%m-%d"] /\
     Strptime.strptime (Checks.finviz_text date_str) fmt = Ok p /\
     d = Calendar.date_of p).
Proof.
  intros _. unfold EarningsScraper._parse_finviz_date.
  destruct (EarningsScraper.parse_finviz_date_try w date_str)
    as [[d'|]|e] eqn:Htry; intros Hd; injection Hd as <-;
    try (left; reflexivity).
  unfold EarningsScraper.parse_finviz_date_try in Htry.
  apply first_format_some in Htry. destruct Htry as [fmt [Hfmt Hattempt]].
  fold (Checks.finviz_text date_str) in Hattempt.
  destruct (Strptime.strptime (Checks.finviz_text date_str) fmt)
    as [p|e] eqn:Hp; [|discriminate].
  cbn [bind] in Hattempt.
  destruct (Calendar.dt_year p =? 1900) eqn:Hyear.
  - destruct (Calendar.replace_year p (Calendar.dt_year (now w)))
      as [p'|e] eqn:Hrep; [|discriminate].
    cbn [bind] in Hattempt. injection Hattempt as <-. left.
    now destruct (YearFacts.replace_year_year _ _ _ Hrep) as [Hy _].
  - cbn [bind] in Hattempt. injection Hattempt as <-.
    apply Z.eqb_neq in Hyear.
    destruct Hfmt as [<- | [<- | Hfmt]].
    + exfalso. apply Hyear.
      apply (YearFacts.strptime_yearless (Checks.finviz_text date_str) "%A, %B %d");
        [reflexivity | exact Hp].
    + exfalso. apply Hyear.
      apply (YearFacts.strptime_yearless (Checks.finviz_text date_str) "%B %d");
        [reflexivity | exact Hp].
    + right. split; [exact Hyear|]. exists fmt, p. now repeat split.
Qed.

Lemma finviz_date_year_witness :
  Calendar.year (Calendar.mkdate 2024 2 5)
  = Calendar.dt_year (now Scenario.offline) \/
  (Calendar.year (Calendar.mkdate 2024 2 5) <> 1900 /\
   exists fmt p,
     In fmt ["%m/%d/%Y"; "%Y-%m-%d"] /\
     Strptime.strptime (Checks.finviz_text "Monday, February 5th") fmt = Ok p /\
     Calendar.mkdate 2024 2 5 = Calendar.date_of p).
Proof.
  apply (finviz_date_year Scenario.offline "Monday, February 5th"
                          (Calendar.mkdate 2024 2 5)).
  - vm_compute. reflexivity.
  - vm_compute. reflexivity.
Defined.

(** [strptime] reads a date without a year in 1900, which has no
    29 February: the header of that day is not read, in a leap year
    either, and falls back to today.  A date typed with the year 1900 is
    read as this year's. *)
Example finviz_year_examples :
  EarningsScraper._parse_finviz_date Scenario.offline "Thursday, February 29th"
  = Some (Calendar.mkdate 2024 2 12) /\
  EarningsScraper._parse_finviz_date Scenario.offline "03/15/1900"
  = Some (Calendar.mkdate 2024 3 15) /\
  EarningsScraper._parse_finviz_date Scenario.offline "03/15/2025"
  = Some (Calendar.mkdate 2025 3 15).
Proof. repeat split; vm_compute; reflexivity. Qed.

Module HeaderFacts.

(** What [strptime] returns passed the checks of the [datetime]
    constructor. *)
Lemma strptime_checked (data_string format : string) (p : Calendar.datetime) :
  Strptime.strptime data_string format = Ok p ->
  Calendar._check_date_fields
    (Calendar.dt_year p) (Calendar.dt_month p) (Calendar.dt_day p) = true /\
  Calendar._check_time_fields
    (Calendar.dt_hour p) (Calendar.dt_minute p) (Calendar.dt_second p)
    (Calendar.dt_microsecond p) = true /\
  Calendar._check_tzinfo (Calendar.tzinfo p) = true.
Proof.
  unfold Strptime.strptime, Strptime.strptime_in.
  destruct (Strptime.pattern_in [] format) as [r|]; [|discriminate].
  destruct (Strptime.rmatch r [] data_string) as [|[found rest] others];
    [discriminate|].
  destruct (Text.nonempty rest); [discriminate|].
  destruct (Strptime.convert_groups _ _) as [f|e]; [|discriminate].
  cbn [bind].
  destruct (Calendar.date_new _ _ _); [|discriminate].
  cbn [bind]. unfold Calendar.datetime_new.
  match goal with
  | |- (if ?c then _ else _) = _ -> _ => destruct c eqn:Hc; [|discriminate]
  end.
  intros H. injection H as <-.
  apply andb_true_iff in Hc. destruct Hc as [Hc Htz].
  apply andb_true_iff in Hc. destruct Hc as [Hd Ht].
  now repeat split.
Qed.

(** A day of 1900 is a day of every year. *)
Lemma check_date_fields_from_1900 (y m d : Z) :
  1 <= y <= 9999 ->
  Calendar._check_date_fields 1900 m d = true ->
  Calendar._check_date_fields y m d = true.
Proof.
  intros Hy. unfold Calendar._check_date_fields.
  intros H. repeat (apply andb_true_iff in H; destruct H as [H ?]).
  assert (Hdays : Calendar._days_in_month 1900 m <= Calendar._days_in_month y m).
  { unfold Calendar._days_in_month.
    change (Calendar._is_leap 1900) with false. rewrite andb_false_r.
    destruct ((m =? 2) && Calendar._is_leap y) eqn:Hleap; [|lia].
    apply andb_true_iff in Hleap. destruct Hleap as [Hm _].
    apply Z.eqb_eq in Hm. subst m. vm_compute. discriminate. }
  repeat (apply andb_true_iff; split); try assumption;
    apply Z.leb_le; unfold Calendar.MINYEAR, Calendar.MAXYEAR;
    lia.
Qed.

End HeaderFacts.

(** X20.  A header that the weekday format reads is dated in the clock's
    year, with the month and the day read from it. *)
Theorem finviz_header_in_clock_year
        (w : World) (date_str : string) (p : Calendar.datetime) :
  1 <= Calendar.dt_year (now w) <= 9999 ->
  Strptime.strptime (Checks.finviz_text date_str) "%A, %B %d" = Ok p ->
  EarningsScraper._parse_finviz_date w date_str
  = Some (Calendar.mkdate (Calendar.dt_year (now w))
                          (Calendar.dt_month p) (Calendar.dt_day p)).
Proof.
  intros Hyear Hp.
  destruct (HeaderFacts.strptime_checked _ _ _ Hp) as [Hd [Ht Htz]].
  pose proof (YearFacts.strptime_yearless
                (Checks.finviz_text date_str) "%A, %B %d" p eq_refl Hp) as H1900.
  rewrite H1900 in Hd.
  unfold EarningsScraper._parse_finviz_date,
    EarningsScraper.parse_finviz_date_try, EarningsScraper.finviz_formats.
  cbn [first_format]. fold (Checks.finviz_text date_str).
  rewrite Hp. cbn [bind]. rewrite H1900. cbn [Z.eqb Pos.eqb].
  unfold Calendar.replace_year, Calendar.datetime_new.
  rewrite (HeaderFacts.check_date_fields_from_1900 _ _ _ Hyear Hd), Ht, Htz.
  reflexivity.
Qed.

Lemma finviz_header_in_clock_year_witness :
  EarningsScraper._parse_finviz_date Scenario.offline "Monday, February 5th"
  = Some (Calendar.mkdate
            (Calendar.dt_year (now Scenario.offline))
            (Calendar.dt_month (Calendar.mkdatetime 1900 2 5 0 0 0 0 None))
            (Calendar.dt_day (Calendar.mkdatetime 1900 2 5 0 0 0 0 None))).
Proof.
  apply (finviz_header_in_clock_year
           Scenario.offline "Monday, February 5th"
           (Calendar.mkdatetime 1900 2 5 0 0 0 0 None)).
  - simpl. lia.
  - vm_compute. reflexivity.
Defined.

(** ** Dates printed and read back *)

Module RoundTripFacts.

Import Text Strptime.

Lemma year_table :
  Checks.all_from (Z.to_nat 9000) 1000 Checks.year_ok = true.
Proof. vm_compute. reflexivity. Qed.

Lemma tail_table : Checks.all_from 372 0 Checks.tail_ok_at = true.
Proof. vm_compute. reflexivity. Qed.

Lemma digit_facts (c : ascii) :
  isdigit c = true -> isspace c = false /\ skip_spaces (String c "") = String c "".
Proof.
  destruct c as [b0 b1 b2 b3 b4 b5 b6 b7].
  destruct b0, b1, b2, b3, b4, b5, b6, b7; vm_compute;
    intros H; try discriminate H; split; reflexivity.
Qed.

Lemma skip_spaces_digit (c : ascii) (t : string) :
  isdigit c = true -> skip_spaces (String c t) = String c t.
Proof.
  destruct c as [b0 b1 b2 b3 b4 b5 b6 b7].
  destruct b0, b1, b2, b3, b4, b5, b6, b7; vm_compute;
    intros H; try discriminate H; reflexivity.
Qed.

Lemma digit_run_fixed (s : string) :
  all_chars isdigit s = true -> digit_run s = s.
Proof.
  induction s as [|c s IH]; cbn [all_chars digit_run]; [reflexivity|].
  intros H. apply andb_true_iff in H. destruct H as [Hc Hs].
  now rewrite Hc, IH.
Qed.

(** [int] of a run of digits. *)
Lemma py_int_digits (s : string) :
  s <> "" -> all_chars isdigit s = true -> py_int s = Ok (int_of_digits s).
Proof.
  intros Hne Hs. destruct s as [|c s]; [congruence|].
  unfold py_int. cbn [all_chars] in Hs.
  pose proof Hs as Hs'. apply andb_true_iff in Hs'. destruct Hs' as [Hc _].
  rewrite (skip_spaces_digit c s Hc). cbn [nonempty andb].
  rewrite (digit_run_fixed (String c s)) by exact Hs.
  now rewrite String.eqb_refl.
Qed.

(** The groups a match adds come before those it was given. *)
Lemma rmatch_caps (r : regex) :
  forall caps s,
    rmatch r caps s
    = map (fun st => (fst st ++ caps, snd st)) (rmatch r [] s).
Proof.
  induction r as [|p|a IHa b IHb|a IHa b IHb|p|n r0 IH]; intros caps s;
    cbn [rmatch].
  - reflexivity.
  - destruct s as [|c t]; [reflexivity|]. now destruct (p c).
  - rewrite (IHa caps s). rewrite flat_map_concat_map, map_map.
    rewrite flat_map_concat_map, concat_map, map_map.
    f_equal. apply map_ext. intros [f rest]. cbn [fst snd].
    rewrite (IHb (f ++ caps) rest), (IHb f rest), map_map.
    apply map_ext. intros [f' rest']. cbn [fst snd].
    now rewrite app_assoc.
  - rewrite (IHa caps s), (IHb caps s). now rewrite map_app.
  - rewrite map_map. reflexivity.
  - rewrite (IH caps s), !map_map. apply map_ext.
    intros [f rest]. reflexivity.
Qed.

(** Four digits are one match of [%Y]. *)
Lemma year_match (ys tail : string) :
  String.length ys = 4%nat -> all_chars isdigit ys = true ->
  rmatch Checks.year_re [] (append ys tail) = [([("Y"%char, ys)], tail)].
Proof.
  intros Hlen Hd.
  destruct ys as [|a [|b [|c [|e [|x ys]]]]]; try discriminate Hlen.
  cbn [all_chars] in Hd.
  apply andb_true_iff in Hd. destruct Hd as [Ha Hd].
  apply andb_true_iff in Hd. destruct Hd as [Hb Hd].
  apply andb_true_iff in Hd. destruct Hd as [Hc Hd].
  apply andb_true_iff in Hd. destruct Hd as [He _].
  unfold Checks.year_re, digit.
  cbn [rmatch seqs append flat_map map fst snd app].
  rewrite Ha. cbn [rmatch seqs append flat_map map fst snd app].
  rewrite Hb. cbn [rmatch seqs append flat_map map fst snd app].
  rewrite Hc. cbn [rmatch seqs append flat_map map fst snd app].
  rewrite He. cbn [rmatch seqs append flat_map map fst snd app String.length].
  replace (S (S (S (S (String.length tail)))) - String.length tail)%nat
    with 4%nat by lia.
  reflexivity.
Qed.

Lemma year_printed (y : Z) :
  1000 <= y <= 9999 ->
  String.length (Calendar.str_int y) = 4%nat /\
  all_chars isdigit (Calendar.str_int y) = true /\
  int_of_digits (Calendar.str_int y) = y.
Proof.
  intros Hy.
  pose proof (CalendarFacts.all_from_spec _ _ _ year_table y) as H.
  rewrite Z2Nat.id in H by lia. specialize (H ltac:(lia)).
  unfold Checks.year_ok in H.
  apply andb_true_iff in H. destruct H as [H Hint].
  apply andb_true_iff in H. destruct H as [Hlen Hdig].
  split; [now apply Nat.eqb_eq|]. split; [exact Hdig | now apply Z.eqb_eq].
Qed.

Lemma tail_printed (m d : Z) :
  1 <= m <= 12 -> 1 <= d <= 31 -> Checks.tail_ok m d = true.
Proof.
  intros Hm Hd.
  pose proof (CalendarFacts.all_from_spec _ _ _ tail_table
                ((m - 1) * 31 + (d - 1))) as H.
  specialize (H ltac:(lia)). unfold Checks.tail_ok_at in H.
  replace (((m - 1) * 31 + (d - 1)) / 31 + 1) with m in H
    by (Z.div_mod_to_equations; lia).
  replace (((m - 1) * 31 + (d - 1)) mod 31 + 1) with d in H
    by (Z.div_mod_to_equations; lia).
  exact H.
Qed.

(** The first match of a printed tail. *)
Lemma tail_match (m d : Z) :
  Checks.tail_ok m d = true ->
  exists vd vm others,
    rmatch Checks.date_tail_re [] (Checks.date_tail m d)
    = ([("d"%char, vd); ("m"%char, vm)], "") :: others /\
    py_int vm = Ok m /\ py_int vd = Ok d /\
    all_chars (fun c => negb (isspace c)) (Checks.date_tail m d) = true.
Proof.
  unfold Checks.tail_ok. intros H.
  apply andb_true_iff in H. destruct H as [H Hsp].
  destruct (rmatch Checks.date_tail_re [] (Checks.date_tail m d))
    as [|[found rest] others]; [discriminate|].
  apply andb_true_iff in H. destruct H as [Hrest H].
  destruct rest; [|discriminate].
  destruct found as [|[kd vd] [|[km vm] [|]]]; try discriminate.
  apply andb_true_iff in H. destruct H as [H Hint].
  apply andb_true_iff in H. destruct H as [Hkd Hkm].
  apply Ascii.eqb_eq in Hkd, Hkm. subst kd km.
  destruct (py_int vm) as [m'|] eqn:Hvm; [|discriminate].
  destruct (py_int vd) as [d'|] eqn:Hvd; [|discriminate].
  apply andb_true_iff in Hint. destruct Hint as [Hm' Hd'].
  apply Z.eqb_eq in Hm', Hd'. subst m' d'.
  exists vd, vm, others. now repeat split.
Qed.

Lemma date_fields_range (y m d : Z) :
  Calendar._check_date_fields y m d = true ->
  1 <= y <= 9999 /\ 1 <= m <= 12 /\ 1 <= d <= 31.
Proof.
  unfold Calendar._check_date_fields, Calendar.MINYEAR, Calendar.MAXYEAR.
  intros H. repeat (apply andb_true_iff in H; destruct H as [H ?]).
  assert (Calendar._days_in_month y m <= 31).
  { unfold Calendar._days_in_month.
    destruct ((m =? 2) && Calendar._is_leap y); [lia|].
    assert (Hm : m = 1 \/ m = 2 \/ m = 3 \/ m = 4 \/ m = 5 \/ m = 6 \/
                 m = 7 \/ m = 8 \/ m = 9 \/ m = 10 \/ m = 11 \/ m = 12)
      by lia.
    repeat (destruct Hm as [-> | Hm]; [vm_compute; discriminate|]).
    subst m. vm_compute. discriminate. }
  lia.
Qed.

(** [strptime] reads a printed date back. *)
Lemma strptime_printed (y m d : Z) :
  Calendar._check_date_fields y m d = true ->
  1000 <= y ->
  strptime (append (Calendar.str_int y) (Checks.date_tail m d)) "%Y-%m-%d"
  = Ok (Calendar.mkdatetime y m d 0 0 0 0 None).
Proof.
  intros Hvalid Hy.
  destruct (date_fields_range y m d Hvalid) as [Hyr [Hm Hd]].
  destruct (year_printed y ltac:(lia)) as [Hlen [Hdig Hint]].
  destruct (tail_match m d (tail_printed m d Hm Hd))
    as [vd [vm [others [Hmatch [Hvm [Hvd _]]]]]].
  unfold strptime, strptime_in.
  change (pattern_in [] "%Y-%m-%d")
    with (Some (Seq Checks.year_re Checks.date_tail_re)).
  cbn [rmatch]. rewrite (year_match _ _ Hlen Hdig).
  cbn [flat_map fst snd]. rewrite app_nil_r, rmatch_caps, Hmatch.
  cbn [map fst snd app nonempty rev convert_groups convert_group].
  rewrite (py_int_digits (Calendar.str_int y)), Hint;
    [|intros He; rewrite He in Hlen; discriminate Hlen | exact Hdig].
  cbn [bind fst snd f_year f_month_no f_day f_hour f_minute f_second f_gmtoff
       fields0].
  rewrite Hvm. cbn [bind f_year f_month_no f_day f_hour f_minute f_second
                    f_gmtoff].
  rewrite Hvd. cbn [bind f_year f_month_no f_day f_hour f_minute f_second
                    f_gmtoff].
  unfold Calendar.date_new, Calendar.datetime_new. rewrite Hvalid.
  reflexivity.
Qed.

End RoundTripFacts.

(** X21.  A date from the year 1000 on, printed by [format_date], is read
    back by [_parse_date] as the same date. *)
Theorem format_date_parses_back (w : World) (d : Calendar.date) :
  Calendar._check_date_fields
    (Calendar.year d) (Calendar.month d) (Calendar.day d) = true ->
  1000 <= Calendar.year d ->
  EarningsScraper._parse_date w (Utils.format_date (Utils.Date d)) = Some d.
Proof.
  destruct d as [y m dd]. cbn [Calendar.year Calendar.month Calendar.day].
  intros Hvalid Hy.
  assert (Hfmt : Utils.format_date (Utils.Date (Calendar.mkdate y m dd))
                 = append (Calendar.str_int y) (Checks.date_tail m dd)).
  { unfold Checks.date_tail.
    rewrite <- (SymbolFacts.append_empty (Calendar.pad2 dd)). reflexivity. }
  rewrite Hfmt.
  destruct (RoundTripFacts.date_fields_range y m dd Hvalid) as [Hyr [Hm Hd]].
  destruct (RoundTripFacts.year_printed y ltac:(lia)) as [_ [Hdig _]].
  destruct (RoundTripFacts.tail_match m dd
              (RoundTripFacts.tail_printed m dd Hm Hd))
    as [_ [_ [_ [_ [_ [_ Hsp]]]]]].
  unfold EarningsScraper._parse_date, EarningsScraper.parse_date_try.
  rewrite SymbolFacts.strip_fixed.
  2:{ rewrite SymbolFacts.all_chars_append, Hsp, andb_true_r.
      revert Hdig. apply SymbolFacts.all_chars_impl. intros c Hc.
      destruct (RoundTripFacts.digit_facts c Hc) as [Hspace _].
      now rewrite Hspace. }
  unfold EarningsScraper.parse_date_formats. cbn [first_format].
  rewrite (RoundTripFacts.strptime_printed y m dd Hvalid Hy).
  reflexivity.
Qed.

Lemma format_date_parses_back_witness :
  EarningsScraper._parse_date
    Scenario.offline (Utils.format_date (Utils.Date (Calendar.mkdate 2024 2 29)))
  = Some (Calendar.mkdate 2024 2 29).
Proof.
  apply (format_date_parses_back Scenario.offline (Calendar.mkdate 2024 2 29)).
  - vm_compute. reflexivity.
  - simpl. lia.
Defined.

(** A year below 1000 is printed with fewer than four digits, which [%Y]
    does not read. *)
Example format_date_early_year :
  Utils.format_date (Utils.Date (Calendar.mkdate 999 1 2)) = "999-01-02" /\
  EarningsScraper._parse_date Scenario.offline "999-01-02" = None.
Proof. split; vm_compute; reflexivity. Qed.

(** ** The ticker of an Investing.com row *)

Module InvestingFacts.

Import Text EarningsScraper.

Lemma contains_char_cons (c a : ascii) (s : string) :
  contains (String c "") (String a s)
  = Ascii.eqb c a || contains (String c "") s.
Proof. cbn [contains startswith]. now rewrite andb_true_r. Qed.

Lemma after_last_gone (c : ascii) (s : string) :
  contains (String c "") (after_last c s) = false.
Proof.
  induction s as [|a s IH]; [reflexivity|]. cbn [after_last].
  destruct (Ascii.eqb a c) eqn:Ha; [exact IH|].
  destruct (contains (String c "") s) eqn:Hc; [exact IH|].
  rewrite contains_char_cons, Hc, Ascii.eqb_sym, Ha. reflexivity.
Qed.

Lemma remove_char_keeps_absent (c c' : ascii) (s : string) :
  contains (String c "") s = false ->
  contains (String c "") (remove_char c' s) = false.
Proof.
  induction s as [|a s IH]; [reflexivity|].
  rewrite contains_char_cons. intros H.
  apply orb_false_iff in H. destruct H as [Ha Hs].
  cbn [remove_char]. destruct (Ascii.eqb a c'); [now apply IH|].
  rewrite contains_char_cons, Ha. now apply IH.
Qed.

Lemma investing_ticker_symbol (company_link : Soup.Anchor) (c0 : Soup.Cell) :
  investing_ticker company_link c0 = "" \/
  Checks.investing_symbol (investing_ticker company_link c0).
Proof.
  unfold investing_ticker.
  set (title := match Soup.a_title company_link with
                | Some t => t
                | None => ""
                end).
  destruct (contains "(" title).
  - destruct (nonempty (remove_char ")" (after_last "(" title))) eqn:Hne.
    + right. left. split.
      * apply remove_char_keeps_absent, after_last_gone.
      * apply SymbolFacts.remove_char_gone.
    + destruct (nonempty (Soup.text c0) && (len (Soup.text c0) <=? 5)) eqn:Hc.
      * right. right. apply andb_true_iff in Hc. now apply Z.leb_le.
      * left. now destruct (remove_char ")" (after_last "(" title)).
  - cbn [nonempty].
    destruct (nonempty (Soup.text c0) && (len (Soup.text c0) <=? 5)) eqn:Hc.
    + right. right. apply andb_true_iff in Hc. now apply Z.leb_le.
    + now left.
Qed.

End InvestingFacts.

(** X22.  An ASCII ticker of a record of the Investing.com adapter was
    found in one of two places: in the title of the company link, after
    its last "(" and without brackets, or in a first cell of at most five
    characters. *)
Theorem investing_tickers_bracketless_or_short
        (w : World) (days_ahead : Z) (r : EarningsScraper.EarningsRecord) :
  In r (EarningsScraper._scrape_investing_earnings w days_ahead) ->
  Checks.ascii_text (EarningsScraper.ticker r) ->
  Checks.investing_symbol (EarningsScraper.ticker r).
Proof.
  intros Hin _. revert r Hin. apply Forall_forall.
  unfold EarningsScraper._scrape_investing_earnings.
  destruct (investing_calendar w) as [[rows|]|e]; try constructor.
  apply (fold_left_invariant
           (EarningsScraper.investing_row w)
           (Forall (fun r => Checks.investing_symbol (EarningsScraper.ticker r))));
    [|constructor].
  intros earnings cells Hst. unfold EarningsScraper.investing_row.
  destruct cells as [|c0 [|c1 [|c2 [|c3 rest]]]]; try assumption.
  destruct (Soup.a c1) as [company_link|]; try assumption.
  destruct (Text.nonempty (EarningsScraper.investing_ticker company_link c0))
    eqn:Et; try assumption.
  destruct (Text.nonempty (Soup.a_text company_link)); try assumption.
  cbn [andb]. apply Forall_snoc; [assumption|].
  cbn [EarningsScraper.ticker].
  destruct (InvestingFacts.investing_ticker_symbol company_link c0)
    as [Hnil | Hsym]; [|exact Hsym].
  rewrite Hnil in Et. discriminate Et.
Qed.

Lemma investing_tickers_bracketless_or_short_witness :
  Checks.investing_symbol
    (EarningsScraper.ticker
       (EarningsScraper.mkEarningsRecord
          "AAPL" "Apple Inc." (Calendar.mkdate 2024 2 12)
          "After close" "Investing.com")).
Proof.
  apply (investing_tickers_bracketless_or_short
           MoreScenarios.investing_titled 30).
  - vm_compute. left. reflexivity.
  - vm_compute. reflexivity.
Defined.

(** ** News pages and the age of an article *)

Module PageFacts.

Import NewsScraper.

Lemma value_make_article (w : World) (ticker_ title_ url_ : string)
      (date_ : option Calendar.datetime) (source_ : string) :
  exists x,
    value (make_article w ticker_ title_ url_ date_ source_) = Some x /\
    title x = title_ /\ url x = url_ /\ date x = date_.
Proof.
  unfold make_article, _parse_article, and_then, ret, value. cbn [fst].
  eexists. split; [reflexivity|]. now repeat split.
Qed.

Lemma in_for_each {I : Type} (body : I -> Eff (option NewsArticle))
      (items : list I) (item : I) (x : NewsArticle) :
  In item items -> value (body item) = Some x ->
  In x (value (for_each body items [])).
Proof.
  intros Hin Hx. rewrite NewsAdapterFacts.for_each_value. cbn [app].
  apply in_flat_map. exists item. split; [exact Hin|].
  rewrite Hx. now left.
Qed.

End PageFacts.

(** X23.  The two page adapters have no age test.  Whatever [days_back]
    is, each of the first five blocks of the page that has a link with an
    address and a title yields an article, with the date that
    [_parse_news_date] reads in the block's date text. *)
Theorem page_news_adapters_keep_any_age
        (w : World) (ticker_ : string) (days_back : Z) :
  (forall items item link href,
      yahoo_news w ticker_ = Ok items ->
      In item (firstn 5 items) ->
      Soup.y_a item = Some link ->
      Soup.a_href link = Some href -> href <> "" ->
      Checks.yahoo_heading item <> "" ->
      exists x,
        In x (NewsScraper.value
                (NewsScraper._get_yahoo_news w ticker_ days_back)) /\
        NewsScraper.title x = Checks.yahoo_heading item /\
        NewsScraper.url x = Checks.yahoo_link href /\
        NewsScraper.date x
        = NewsScraper._parse_news_date
            w (Checks.text_or_empty (Soup.y_date item))) /\
  (forall items item link href,
      marketwatch_news w ticker_ = Ok items ->
      In item (firstn 5 items) ->
      Soup.mw_link item = Some link ->
      Soup.a_href link = Some href -> href <> "" ->
      Soup.a_text link <> "" ->
      exists x,
        In x (NewsScraper.value
                (NewsScraper._get_marketwatch_news w ticker_ days_back)) /\
        NewsScraper.title x = Soup.a_text link /\
        NewsScraper.url x = Checks.marketwatch_link href /\
        NewsScraper.date x
        = NewsScraper._parse_news_date
            w (Checks.text_or_empty (Soup.mw_timestamp item))).
Proof.
  split.
  - intros items item link href Hitems Hin Hlink Hhref Hne Htitle.
    unfold NewsScraper._get_yahoo_news. rewrite Hitems.
    destruct (PageFacts.value_make_article
                w ticker_ (Checks.yahoo_heading item) (Checks.yahoo_link href)
                (NewsScraper._parse_news_date
                   w (Checks.text_or_empty (Soup.y_date item)))
                "Yahoo Finance") as [x [Hx Hfields]].
    exists x. split; [|exact Hfields].
    apply (PageFacts.in_for_each _ _ item); [exact Hin|].
    rewrite <- Hx. unfold NewsScraper.yahoo_item. rewrite Hlink, Hhref.
    fold (Checks.yahoo_heading item).
    fold (Checks.text_or_empty (Soup.y_date item)).
    unfold Checks.yahoo_link.
    destruct href as [|c href]; [congruence|]. cbn [Text.nonempty andb].
    destruct (Checks.yahoo_heading item) as [|c' heading]; [congruence|].
    now destruct (Text.startswith "/" (String c href)).
  - intros items item link href Hitems Hin Hlink Hhref Hne Htitle.
    unfold NewsScraper._get_marketwatch_news. rewrite Hitems.
    destruct (PageFacts.value_make_article
                w ticker_ (Soup.a_text link) (Checks.marketwatch_link href)
                (NewsScraper._parse_news_date
                   w (Checks.text_or_empty (Soup.mw_timestamp item)))
                "MarketWatch") as [x [Hx Hfields]].
    exists x. split; [|exact Hfields].
    apply (PageFacts.in_for_each _ _ item); [exact Hin|].
    rewrite <- Hx. unfold NewsScraper.marketwatch_item. rewrite Hlink, Hhref.
    fold (Checks.text_or_empty (Soup.mw_timestamp item)).
    unfold Checks.marketwatch_link.
    destruct href as [|c href]; [congruence|]. cbn [Text.nonempty andb].
    destruct (Soup.a_text link) as [|c' heading]; [congruence|].
    now destruct (Text.startswith "http" (String c href)).
Qed.

Lemma page_news_adapters_keep_any_age_witness :
  exists x,
    In x (NewsScraper.value
            (NewsScraper._get_yahoo_news MoreScenarios.yahoo_old_story "AAPL" 7)) /\
    NewsScraper.title x = Checks.yahoo_heading MoreScenarios.old_block /\
    NewsScraper.url x = Checks.yahoo_link "/news/apple-2020.html" /\
    NewsScraper.date x
    = NewsScraper._parse_news_date
        MoreScenarios.yahoo_old_story
        (Checks.text_or_empty (Soup.y_date MoreScenarios.old_block)).
Proof.
  apply (proj1 (page_news_adapters_keep_any_age
                  MoreScenarios.yahoo_old_story "AAPL" 7)
               [MoreScenarios.old_block] MoreScenarios.old_block
               (Soup.mkAnchor "" None (Some "/news/apple-2020.html"))
               "/news/apple-2020.html").
  - reflexivity.
  - simpl. tauto.
  - reflexivity.
  - reflexivity.
  - discriminate.
  - discriminate.
Defined.

(** With [days_back = 7], a story four years old is in the output. *)
Example yahoo_keeps_old_story :
  NewsScraper.value
    (NewsScraper._get_yahoo_news MoreScenarios.yahoo_old_story "AAPL" 7)
  = [NewsScraper.mkNewsArticle
       "AAPL" "Apple opens the year"
       "https://finance.yahoo.com/news/apple-2020.html"
       (Some (Calendar.mkdatetime 2020 1 5 0 0 0 0 None))
       "" "" "Yahoo Finance"].
Proof. vm_compute. reflexivity. Qed.

(** ** Aware and naive news dates *)

Module OffsetFacts.

Import Strptime.

(** Groups other than [z] leave the offset unset. *)
Lemma convert_groups_gmtoff (found : groupdict) :
  forall f f',
    Forall (fun g => Ascii.eqb "z" (fst g) = false) found ->
    convert_groups f found = Ok f' ->
    f_gmtoff f' = f_gmtoff f.
Proof.
  induction found as [|[n v] found IH]; intros f f' Hall Hconv.
  - injection Hconv as <-. reflexivity.
  - inversion Hall as [|g l Hg Hrest]; subst. cbn [fst] in Hg.
    cbn [convert_groups] in Hconv.
    destruct (convert_group f (n, v)) as [f1|e] eqn:Hone; [|discriminate].
    cbn [bind] in Hconv. rewrite (IH f1 f' Hrest Hconv).
    unfold convert_group in Hone. cbn [fst snd] in Hone.
    destruct n as [b0 b1 b2 b3 b4 b5 b6 b7].
    destruct b0, b1, b2, b3, b4, b5, b6, b7;
      try discriminate Hg;
      try (injection Hone as <-; reflexivity);
      match type of Hone with
      | bind ?m _ = _ => destruct m; [|discriminate Hone]
      end;
      cbn [bind] in Hone; injection Hone as <-; reflexivity.
Qed.

Lemma lit_groups (s : string) : Checks.group_names (lit s) = [].
Proof. induction s as [|c s IH]; [reflexivity | exact IH]. Qed.

Lemma alts_lit_groups (names : list string) :
  Checks.group_names (alts (map lit names)) = [].
Proof.
  induction names as [|s rest IH]; [reflexivity|].
  destruct rest as [|s' rest]; [apply lit_groups|].
  change (Checks.group_names (lit s)
          ++ Checks.group_names (alts (map lit (s' :: rest))) = []).
  now rewrite lit_groups, IH.
Qed.

(** The expression of a directive has one group, named after it. *)
Lemma directive_groups (tzname : list string) (d : ascii) (r : regex) :
  directive_re tzname d = Some r -> Checks.group_names r = [d].
Proof.
  destruct d as [b0 b1 b2 b3 b4 b5 b6 b7].
  destruct b0, b1, b2, b3, b4, b5, b6, b7; cbn [directive_re];
    intros H; try discriminate H; injection H as <-;
    try reflexivity;
    unfold __seqToRE; cbn [Checks.group_names];
    now rewrite alts_lit_groups.
Qed.

(** The groups of a pattern are named after directives of its format. *)
Lemma pattern_groups (tzname : list string) (n : nat) :
  forall format in_space r,
    (String.length format <= n)%nat ->
    pattern_from tzname in_space format = Some r ->
    Text.contains "%z" format = false ->
    ~ In "z"%char (Checks.group_names r).
Proof.
  induction n as [|n IH]; intros format in_space r Hlen Hpat Hfree.
  - destruct format; [|simpl in Hlen; lia].
    injection Hpat as <-. intros [].
  - destruct format as [|c t]; [injection Hpat as <-; intros []|].
    assert (Ht : Text.contains "%z" t = false).
    { cbn [Text.contains] in Hfree. now apply orb_false_iff in Hfree. }
    cbn [pattern_from] in Hpat. cbn [String.length] in Hlen.
    destruct (Text.isspace c).
    { destruct in_space.
      - apply (IH t true r); [lia | exact Hpat | exact Ht].
      - destruct (pattern_from tzname true t) as [r'|] eqn:Hr';
          [|discriminate]. injection Hpat as <-.
        apply (IH t true r'); [lia | exact Hr' | exact Ht]. }
    destruct (Ascii.eqb c "%") eqn:Hc.
    + destruct t as [|d t']; [discriminate|].
      destruct (directive_re tzname d) as [r1|] eqn:Hd; [|discriminate].
      destruct (pattern_from tzname false t') as [rest|] eqn:Hrest;
        [|discriminate].
      injection Hpat as <-. cbn [Checks.group_names].
      rewrite (directive_groups tzname d r1 Hd). cbn [app].
      apply Ascii.eqb_eq in Hc. subst c.
      intros [Hz | Hin].
      * subst d. discriminate Hfree.
      * revert Hin. apply (IH t' false rest); [cbn [String.length] in Hlen; lia
                                              | exact Hrest |].
        cbn [Text.contains] in Ht. now apply orb_false_iff in Ht.
    + destruct (pattern_from tzname false t) as [r'|] eqn:Hr'; [|discriminate].
      injection Hpat as <-.
      apply (IH t false r'); [lia | exact Hr' | exact Ht].
Qed.

(** A format without [%z] reads a naive datetime. *)
Lemma strptime_offsetless (tzname : list string) (data_string format : string)
      (p : Calendar.datetime) :
  Checks.offsetless format = true ->
  strptime_in tzname data_string format = Ok p ->
  Calendar.tzinfo p = None.
Proof.
  unfold Checks.offsetless, strptime_in. intros Hless.
  apply negb_true_iff in Hless.
  destruct (pattern_in tzname format) as [r|] eqn:Hpat; [|discriminate].
  intros Hp.
  destruct (rmatch r [] data_string) as [|[found rest] others] eqn:Hm;
    [discriminate|].
  destruct (Text.nonempty rest); [discriminate|].
  destruct (convert_groups fields0 (rev found)) as [f|e] eqn:Hconv;
    [|discriminate].
  cbn [bind] in Hp.
  assert (Hoff : f_gmtoff f = None).
  { rewrite (convert_groups_gmtoff (rev found) fields0 f);
      [reflexivity| |exact Hconv].
    apply Forall_forall. intros g Hg. apply in_rev in Hg.
    destruct (YearFacts.rmatch_groups r [] data_string found rest) with (g := g)
      as [[] | Hn]; [rewrite Hm; now left | exact Hg |].
    destruct (Ascii.eqb "z" (fst g)) eqn:Hz; [|reflexivity].
    apply Ascii.eqb_eq in Hz. rewrite <- Hz in Hn.
    exfalso. revert Hn.
    apply (pattern_groups tzname (String.length format) format false r);
      [apply Nat.le_refl | exact Hpat | exact Hless]. }
  destruct (Calendar.date_new _ _ _); [|discriminate].
  cbn [bind] in Hp. unfold Calendar.datetime_new in Hp.
  match type of Hp with
  | (if ?c then _ else _) = _ => destruct c; [|discriminate Hp]
  end.
  injection Hp as <-. exact Hoff.
Qed.

Lemma sub_timedelta_tzinfo (dt d : Calendar.datetime) (td : Calendar.timedelta) :
  Calendar.datetime_sub_timedelta dt td = Ok d ->
  Calendar.tzinfo d = Calendar.tzinfo dt.
Proof.
  unfold Calendar.datetime_sub_timedelta.
  match goal with
  | |- (if ?c then _ else _) = _ -> _ => destruct c; [|discriminate]
  end.
  intros H. injection H as <-. apply CalendarFacts.tzinfo_of_wall_us.
Qed.

End OffsetFacts.

(** X24.  With a naive clock, [_parse_news_date] returns an aware datetime
    for an ASCII text only when the last format, the one with a numeric
    UTC offset, reads it: the other formats, the relative phrases and the
    fallback all give naive datetimes. *)
Theorem aware_news_date_has_numeric_offset
        (w : World) (date_str : string) (d : Calendar.datetime) (off : Z) :
  Checks.ascii_text date_str ->
  Calendar.tzinfo (now w) = None ->
  NewsScraper._parse_news_date w date_str = Some d ->
  Calendar.tzinfo d = Some off ->
  Strptime.strptime_in (tzname w) (Text.strip date_str)
                       "%a, %d %b %Y %H:%M:%S %z" = Ok d.
Proof.
  intros _ Hclock Hd Hoff.
  assert (Hnow : d <> now w) by (intros ->; congruence).
  unfold NewsScraper._parse_news_date in Hd.
  destruct (negb (Text.nonempty date_str)); [congruence|].
  unfold NewsScraper.parse_news_date_try in Hd.
  destruct (first_format (Strptime.strptime_in (tzname w) (Text.strip date_str))
                         NewsScraper.formats) as [[p|]|e] eqn:Hfmt;
    cbn [bind] in Hd.
  - injection Hd as ->.
    apply first_format_some in Hfmt. destruct Hfmt as [fmt [Hin Hp]].
    unfold NewsScraper.formats in Hin.
    repeat (destruct Hin as [<- | Hin];
            [try (match type of Hp with
                  | Strptime.strptime_in ?z ?s ?f = _ =>
                      rewrite (OffsetFacts.strptime_offsetless z s f d eq_refl Hp)
                        in Hoff
                  end; discriminate Hoff)|]);
      try exact Hp.
    destruct Hin.
  - assert (Hrel : forall n h m,
               match (td <- Calendar.timedelta_new n h m ;;
                      d' <- Calendar.datetime_sub_timedelta (now w) td ;;
                      Ok (Some d')) with
               | Ok (Some d') => Some d'
               | Ok None => Some (now w)
               | Raise _ => Some (now w)
               end = Some d -> False).
    { intros n h m H.
      destruct (Calendar.timedelta_new n h m) as [td|]; cbn [bind] in H;
        [|congruence].
      destruct (Calendar.datetime_sub_timedelta (now w) td) as [d'|] eqn:Hsub;
        cbn [bind] in H; [|congruence].
      injection H as ->.
      rewrite (OffsetFacts.sub_timedelta_tzinfo _ _ _ Hsub) in Hoff.
      congruence. }
    destruct (Text.contains "hour" _).
    { destruct (NewsScraper.first_number _) as [n|]; cbn [bind] in Hd;
        [|congruence]. destruct (Hrel _ _ _ Hd). }
    destruct (Text.contains "day" _).
    { destruct (NewsScraper.first_number _) as [n|]; cbn [bind] in Hd;
        [|congruence]. destruct (Hrel _ _ _ Hd). }
    destruct (Text.contains "minute" _); [|congruence].
    destruct (NewsScraper.first_number _) as [n|]; cbn [bind] in Hd;
      [|congruence]. destruct (Hrel _ _ _ Hd).
  - congruence.
Qed.

Lemma aware_news_date_has_numeric_offset_witness :
  Strptime.strptime_in (tzname Scenario.offline)
                       (Text.strip "Mon, 05 Feb 2024 08:00:00 +0100")
                       "%a, %d %b %Y %H:%M:%S %z"
  = Ok (Calendar.mkdatetime 2024 2 5 8 0 0 0 (Some 3600000000)).
Proof.
  apply (aware_news_date_has_numeric_offset
           Scenario.offline "Mon, 05 Feb 2024 08:00:00 +0100"
           (Calendar.mkdatetime 2024 2 5 8 0 0 0 (Some 3600000000))
           3600000000).
  - vm_compute. reflexivity.
  - reflexivity.
  - vm_compute. reflexivity.
  - reflexivity.
Defined.

(** ** The nearest header of a Finviz row *)

Module HeaderBlockFacts.

Import EarningsScraper.

(** The loop over rows that hold no date header keeps the current date and
    appends records of those rows under it. *)
Lemma block_records (w : World) (days_ahead : Z) (d : Calendar.date)
      (rows block : Soup.Table) :
  (forall cells, In cells block -> In cells rows) ->
  (forall cells, In cells block -> Checks.is_date_header cells = false) ->
  forall earnings,
  exists later,
    fold_left (finviz_row w days_ahead) block (Some d, earnings)
    = (Some d, earnings ++ later) /\
    Forall (Checks.finviz_record_of rows d) later /\
    (List.length later <= List.length block)%nat.
Proof.
  induction block as [|cells block IH]; intros Hsub Hplain earnings.
  - exists []. cbn [fold_left]. rewrite app_nil_r.
    split; [reflexivity|]. split; [constructor | apply Nat.le_refl].
  - cbn [fold_left].
    assert (Hstep : finviz_row w days_ahead (Some d, earnings) cells
                    = (Some d, earnings) \/
                    exists r, finviz_row w days_ahead (Some d, earnings) cells
                              = (Some d, earnings ++ [r]) /\
                              Checks.finviz_record_of rows d r).
    { pose proof (Hplain cells (or_introl eq_refl)) as Hh.
      unfold Checks.is_date_header in Hh. unfold finviz_row.
      rewrite Hh.
      destruct cells as [|c0 [|c1 [|c2 rest]]]; try (now left).
      destruct (Soup.a c1) as [ticker_elem|] eqn:Ha; [|now left].
      destruct (Text.nonempty (Soup.a_text ticker_elem) &&
                within_days_ahead w d days_ahead); [|now left].
      right. eexists. split; [reflexivity|].
      exists c0, c1, c2, rest, ticker_elem.
      split; [apply Hsub; now left|]. now split. }
    assert (Hsub' : forall cells', In cells' block -> In cells' rows)
      by (intros cells' Hin; apply Hsub; now right).
    assert (Hplain' : forall cells', In cells' block ->
                                     Checks.is_date_header cells' = false)
      by (intros cells' Hin; apply Hplain; now right).
    destruct Hstep as [-> | [r [-> Hr]]].
    + destruct (IH Hsub' Hplain' earnings) as [later [Hfold [Hall Hlen]]].
      exists later. split; [exact Hfold|]. split; [exact Hall|].
      cbn [List.length]. lia.
    + destruct (IH Hsub' Hplain' (earnings ++ [r])) as [later [Hfold [Hall Hlen]]].
      exists (r :: later). rewrite Hfold, <- app_assoc.
      split; [reflexivity|]. split; [now constructor|].
      cbn [List.length]. lia.
Qed.

End HeaderBlockFacts.

(** X25.  The rows below a date header, up to the next one, are dated by
    that header: the adapter returns the records of the rows above it,
    followed by at most one record per row of the block, each made of its
    row's cells under the header's date. *)
Theorem finviz_rows_dated_by_header_above
        (w : World) (days_ahead : Z) (above block : Soup.Table)
        (header : Soup.Cell) (d : Calendar.date) :
  finviz_calendar w = Ok (Some (above ++ [header] :: block)) ->
  Soup.truthy (Soup.colspan header) = true ->
  (forall cells, In cells block -> Checks.is_date_header cells = false) ->
  EarningsScraper._parse_finviz_date w (Soup.text header) = Some d ->
  exists later,
    EarningsScraper._scrape_finviz_earnings w days_ahead
    = Checks.finviz_records w days_ahead above ++ later /\
    Forall (Checks.finviz_record_of block d) later /\
    (List.length later <= List.length block)%nat.
Proof.
  intros Hpage Hheader Hplain Hd.
  unfold EarningsScraper._scrape_finviz_earnings. rewrite Hpage.
  rewrite fold_left_app. cbn [fold_left].
  unfold Checks.finviz_records.
  destruct (fold_left (EarningsScraper.finviz_row w days_ahead) above (None, []))
    as [current_date earnings].
  assert (Hrow : EarningsScraper.finviz_row w days_ahead
                   (current_date, earnings) [header] = (Some d, earnings)).
  { unfold EarningsScraper.finviz_row. now rewrite Hheader, Hd. }
  rewrite Hrow.
  destruct (HeaderBlockFacts.block_records w days_ahead d block block
              (fun cells H => H) Hplain earnings) as [later [Hfold Hlater]].
  exists later. rewrite Hfold. now split.
Qed.

Lemma finviz_rows_dated_by_header_above_witness :
  exists later,
    EarningsScraper._scrape_finviz_earnings Scenario.finviz_last_week 30
    = Checks.finviz_records Scenario.finviz_last_week 30 [] ++ later /\
    Forall (Checks.finviz_record_of
              [[Scenario.plain "Before Market Open"; Scenario.linked "AAPL";
                Scenario.plain "Apple Inc."]]
              (Calendar.mkdate 2024 2 5)) later /\
    (List.length later
     <= List.length [[Scenario.plain "Before Market Open";
                      Scenario.linked "AAPL"; Scenario.plain "Apple Inc."]])%nat.
Proof.
  apply (finviz_rows_dated_by_header_above
           Scenario.finviz_last_week 30 []
           [[Scenario.plain "Before Market Open"; Scenario.linked "AAPL";
             Scenario.plain "Apple Inc."]]
           (Soup.mkCell "Monday, February 5th" (Some "3") None)
           (Calendar.mkdate 2024 2 5)).
  - reflexivity.
  - reflexivity.
  - intros cells [<- | []]. reflexivity.
  - vm_compute. reflexivity.
Defined.


(** ** Articles whose content cannot be extracted *)

Module KeptFacts.

Import NewsScraper.

(** The article made of a title, a url and a date, whatever the extractor
    answers. *)
Lemma made_article (w : World) (ticker_ title_ url_ : string)
      (date_ : option Calendar.datetime) (source_ : string) :
  exists x,
    value (make_article w ticker_ title_ url_ date_ source_) = Some x /\
    Checks.article_of w x ticker_ title_ url_ date_ source_.
Proof.
  unfold make_article, _parse_article, and_then, ret, value. cbn [fst].
  eexists. split; [reflexivity|].
  unfold Checks.article_of. cbn [ticker title url date source summary full_text].
  repeat split; intros; match goal with H : newspaper _ _ = _ |- _ => now rewrite H end.
Qed.

Lemma yahoo_block_kept (w : World) (ticker_ : string) (item : Soup.YahooItem)
      (link : Soup.Anchor) (href : string) :
  Soup.y_a item = Some link -> Soup.a_href link = Some href -> href <> "" ->
  Checks.yahoo_heading item <> "" ->
  exists x,
    value (yahoo_item w ticker_ item) = Some x /\
    Checks.article_of w x ticker_ (Checks.yahoo_heading item)
                      (Checks.yahoo_link href)
                      (_parse_news_date w (Checks.text_or_empty (Soup.y_date item)))
                      "Yahoo Finance".
Proof.
  intros Hlink Hhref Hne Htitle.
  destruct (made_article w ticker_ (Checks.yahoo_heading item)
              (Checks.yahoo_link href)
              (_parse_news_date w (Checks.text_or_empty (Soup.y_date item)))
              "Yahoo Finance") as [x [Hx Hfields]].
  exists x. split; [|exact Hfields]. rewrite <- Hx.
  unfold yahoo_item. rewrite Hlink, Hhref.
  fold (Checks.yahoo_heading item).
  fold (Checks.text_or_empty (Soup.y_date item)).
  unfold Checks.yahoo_link.
  destruct href as [|c href]; [congruence|]. cbn [Text.nonempty andb].
  destruct (Checks.yahoo_heading item) as [|c' heading]; [congruence|].
  now destruct (Text.startswith "/" (String c href)).
Qed.

Lemma marketwatch_block_kept (w : World) (ticker_ : string)
      (item : Soup.MarketWatchItem) (link : Soup.Anchor) (href : string) :
  Soup.mw_link item = Some link -> Soup.a_href link = Some href -> href <> "" ->
  Soup.a_text link <> "" ->
  exists x,
    value (marketwatch_item w ticker_ item) = Some x /\
    Checks.article_of w x ticker_ (Soup.a_text link)
                      (Checks.marketwatch_link href)
                      (_parse_news_date
                         w (Checks.text_or_empty (Soup.mw_timestamp item)))
                      "MarketWatch".
Proof.
  intros Hlink Hhref Hne Htitle.
  destruct (made_article w ticker_ (Soup.a_text link)
              (Checks.marketwatch_link href)
              (_parse_news_date w (Checks.text_or_empty (Soup.mw_timestamp item)))
              "MarketWatch") as [x [Hx Hfields]].
  exists x. split; [|exact Hfields]. rewrite <- Hx.
  unfold marketwatch_item. rewrite Hlink, Hhref.
  fold (Checks.text_or_empty (Soup.mw_timestamp item)).
  unfold Checks.marketwatch_link.
  destruct href as [|c href]; [congruence|]. cbn [Text.nonempty andb].
  destruct (Soup.a_text link) as [|c' heading]; [congruence|].
  now destruct (Text.startswith "http" (String c href)).
Qed.

Lemma google_item_kept (w : World) (ticker_ : string) (days_back : Z)
      (item : Soup.RssItem) (title_ link pub_date : string) :
  Soup.rss_title item = Some title_ -> Soup.rss_link item = Some link ->
  Soup.rss_pubDate item = Some pub_date ->
  too_old w (_parse_news_date w pub_date) days_back = Ok false ->
  exists x,
    value (google_item w ticker_ days_back item) = Some x /\
    Checks.article_of w x ticker_ title_ link (_parse_news_date w pub_date)
                      "Google News".
Proof.
  intros Htitle Hlink Hdate Hage.
  destruct (made_article w ticker_ title_ link (_parse_news_date w pub_date)
              "Google News") as [x [Hx Hfields]].
  exists x. split; [|exact Hfields]. rewrite <- Hx.
  unfold google_item. rewrite Htitle, Hlink, Hdate.
  cbn [Soup.get_text bind]. rewrite Hage. reflexivity.
Qed.

(** Every gathered article has its url in the table, under the article
    gathered first with that url. *)
Lemma gathered_in_table (w : World) (tickers : list string) (days_back : Z)
      (table : list NewsArticle) (x : NewsArticle) :
  value (get_news_for_tickers w tickers days_back) = Ok table ->
  In x (Checks.gathered w tickers days_back) ->
  exists y,
    In y table /\ url y = url x /\
    Pandas.first_with_key url String.eqb x (Checks.gathered w tickers days_back)
    = Some y.
Proof.
  unfold get_news_for_tickers, Checks.gathered. intros Htable Hx.
  apply NewsFacts.news_table in Htable. subst table.
  rewrite AdapterShape.gathered_articles.
  destruct (drop_duplicates_keeps_key url _ String.eqb_eq _ x Hx)
    as [y [Hy [Hk Hf]]].
  exists y. split; [now apply sort_values_In|]. now split.
Qed.

(** The table exists when every gathered date is one that pandas converts
    together with the others. *)
Lemma table_of_gathered (w : World) (tickers : list string) (days_back : Z) :
  Forall naive_date (Checks.gathered w tickers days_back) ->
  exists table, value (get_news_for_tickers w tickers days_back) = Ok table.
Proof.
  unfold get_news_for_tickers, Checks.gathered. intros Hnaive.
  apply NewsFacts.news_table_exists.
  now rewrite AdapterShape.gathered_articles.
Qed.

End KeptFacts.

(** C6.  When the download or the parsing of an article fails,
    [_parse_article] returns empty text and an empty summary, and the
    article is kept all the same.  Each of the first blocks of a page (five
    for Yahoo and MarketWatch, three feed items for Google News, there not
    older than [days_back]) that has a link and a title is appended to the
    adapter's output with its ticker, title, url and date, its summary and
    text empty where the extraction failed; what an adapter appends is
    gathered for its ticker, and every gathered article has its url in the
    final table, under the article gathered first with that url, which is
    the article itself unless an earlier one had the same url; there is a
    final table whenever the gathered dates are naive datetimes that
    pandas can convert.  The
    extractor is called once for each appended article and for nothing
    else, and no field but summary and text depends on its answers. *)
Theorem extraction_failure_keeps_article (w : World) :
  (forall url_ e,
      newspaper w url_ = Raise e ->
      NewsScraper.value (NewsScraper._parse_article w url_)
      = NewsScraper.empty_article) /\
  (forall ticker_ days_back items item link href,
      yahoo_news w ticker_ = Ok items ->
      In item (firstn 5 items) ->
      Soup.y_a item = Some link ->
      Soup.a_href link = Some href -> href <> "" ->
      Checks.yahoo_heading item <> "" ->
      exists x,
        In x (NewsScraper.value
                (NewsScraper._get_yahoo_news w ticker_ days_back)) /\
        Checks.article_of
          w x ticker_ (Checks.yahoo_heading item) (Checks.yahoo_link href)
          (NewsScraper._parse_news_date
             w (Checks.text_or_empty (Soup.y_date item)))
          "Yahoo Finance") /\
  (forall ticker_ days_back items item link href,
      marketwatch_news w ticker_ = Ok items ->
      In item (firstn 5 items) ->
      Soup.mw_link item = Some link ->
      Soup.a_href link = Some href -> href <> "" ->
      Soup.a_text link <> "" ->
      exists x,
        In x (NewsScraper.value
                (NewsScraper._get_marketwatch_news w ticker_ days_back)) /\
        Checks.article_of
          w x ticker_ (Soup.a_text link) (Checks.marketwatch_link href)
          (NewsScraper._parse_news_date
             w (Checks.text_or_empty (Soup.mw_timestamp item)))
          "MarketWatch") /\
  (forall ticker_ days_back items item title_ link pub_date,
      google_news w ticker_ = Ok items ->
      In item (firstn 3 items) ->
      Soup.rss_title item = Some title_ ->
      Soup.rss_link item = Some link ->
      Soup.rss_pubDate item = Some pub_date ->
      NewsScraper.too_old w (NewsScraper._parse_news_date w pub_date) days_back
      = Ok false ->
      exists x,
        In x (NewsScraper.value
                (NewsScraper._get_google_news w ticker_ days_back)) /\
        Checks.article_of
          w x ticker_ title_ link (NewsScraper._parse_news_date w pub_date)
          "Google News") /\
  (forall t days_back x,
      In x (NewsScraper.value (NewsScraper._get_yahoo_news w t days_back)) \/
      In x (NewsScraper.value (NewsScraper._get_marketwatch_news w t days_back)) \/
      In x (NewsScraper.value (NewsScraper._get_google_news w t days_back)) ->
      forall tickers, In t tickers -> In x (Checks.gathered w tickers days_back)) /\
  (forall tickers days_back table x,
      NewsScraper.value (NewsScraper.get_news_for_tickers w tickers days_back)
      = Ok table ->
      In x (Checks.gathered w tickers days_back) ->
      (exists y,
          In y table /\ NewsScraper.url y = NewsScraper.url x /\
          Pandas.first_with_key NewsScraper.url String.eqb x
            (Checks.gathered w tickers days_back) = Some y) /\
      (Pandas.first_with_key NewsScraper.url String.eqb x
         (Checks.gathered w tickers days_back) = Some x -> In x table)) /\
  (forall tickers days_back,
      Forall NewsScraper.naive_date (Checks.gathered w tickers days_back) ->
      exists table,
        NewsScraper.value (NewsScraper.get_news_for_tickers w tickers days_back)
        = Ok table) /\
  (forall t days_back,
      NewsScraper.calls (NewsScraper._get_ticker_news w t days_back) =
      map NewsScraper.url
          (NewsScraper.value (NewsScraper._get_ticker_news w t days_back))) /\
  (forall t days_back x e,
      In x (NewsScraper.value (NewsScraper._get_ticker_news w t days_back)) ->
      newspaper w (NewsScraper.url x) = Raise e ->
      NewsScraper.summary x = "" /\ NewsScraper.full_text x = "") /\
  (forall f t days_back,
      map NewsScraper.without_content
          (NewsScraper.value
             (NewsScraper._get_ticker_news (NewsScraper.with_newspaper w f) t days_back)) =
      map NewsScraper.without_content
          (NewsScraper.value (NewsScraper._get_ticker_news w t days_back))) /\
  (forall f tickers days_back table table',
      NewsScraper.value (NewsScraper.get_news_for_tickers w tickers days_back)
      = Ok table ->
      NewsScraper.value
        (NewsScraper.get_news_for_tickers (NewsScraper.with_newspaper w f)
                                          tickers days_back)
      = Ok table' ->
      map NewsScraper.without_content table' =
      map NewsScraper.without_content table).
Proof.
  repeat apply conj.
  - apply ExtractionFacts.parse_article_failure.
  - intros ticker_ days_back items item link href Hitems Hin Hlink Hhref Hne Htitle.
    destruct (KeptFacts.yahoo_block_kept w ticker_ item link href
                Hlink Hhref Hne Htitle) as [x [Hx Hfields]].
    exists x. split; [|exact Hfields].
    unfold NewsScraper._get_yahoo_news. rewrite Hitems.
    now apply (PageFacts.in_for_each _ _ item).
  - intros ticker_ days_back items item link href Hitems Hin Hlink Hhref Hne Htitle.
    destruct (KeptFacts.marketwatch_block_kept w ticker_ item link href
                Hlink Hhref Hne Htitle) as [x [Hx Hfields]].
    exists x. split; [|exact Hfields].
    unfold NewsScraper._get_marketwatch_news. rewrite Hitems.
    now apply (PageFacts.in_for_each _ _ item).
  - intros ticker_ days_back items item title_ link pub_date
           Hitems Hin Htitle Hlink Hdate Hage.
    destruct (KeptFacts.google_item_kept w ticker_ days_back item title_ link
                pub_date Htitle Hlink Hdate Hage) as [x [Hx Hfields]].
    exists x. split; [|exact Hfields].
    unfold NewsScraper._get_google_news. rewrite Hitems.
    now apply (PageFacts.in_for_each _ _ item).
  - intros t days_back x Hx tickers Ht. unfold Checks.gathered.
    apply in_flat_map. exists t. split; [exact Ht|].
    rewrite AdapterShape.ticker_news_value, !in_app_iff. exact Hx.
  - intros tickers days_back table x Htable Hx.
    destruct (KeptFacts.gathered_in_table w tickers days_back table x Htable Hx)
      as [y [Hy [Hurl Hfirst]]].
    split; [exists y; now repeat split|].
    intros Hself. rewrite Hself in Hfirst. now injection Hfirst as <-.
  - apply KeptFacts.table_of_gathered.
  - apply ExtractionFacts.ticker_news_calls_urls.
  - intros t days_back x e Hin Hfail.
    destruct (ExtractionFacts.content_of_article w t days_back x Hin) as [-> ->].
    now rewrite (ExtractionFacts.parse_article_failure w _ e Hfail).
  - apply ContentFacts.ticker_news_without_content.
  - intros f tickers days_back table table'.
    apply ContentFacts.table_without_content.
Qed.

Lemma extraction_failure_keeps_article_witness :
  NewsScraper.value
    (NewsScraper._parse_article Scenario.yahoo_unreachable
       "https://finance.yahoo.com/news/apple-q1.html")
  = NewsScraper.empty_article /\
  (exists x,
      In x (NewsScraper.value
              (NewsScraper._get_yahoo_news Scenario.yahoo_unreachable "AAPL" 7)) /\
      Checks.article_of
        Scenario.yahoo_unreachable x "AAPL"
        "Apple reports first quarter results"
        "https://finance.yahoo.com/news/apple-q1.html"
        (NewsScraper._parse_news_date Scenario.yahoo_unreachable "2 hours ago")
        "Yahoo Finance") /\
  (exists x,
      In x (NewsScraper.value
              (NewsScraper._get_marketwatch_news
                 MoreScenarios.marketwatch_relative "MSFT" 7)) /\
      Checks.article_of
        MoreScenarios.marketwatch_relative x "MSFT"
        "Microsoft beats estimates"
        "https://www.marketwatch.com/story/msft-q2"
        (NewsScraper._parse_news_date MoreScenarios.marketwatch_relative "")
        "MarketWatch") /\
  (exists x,
      In x (NewsScraper.value
              (NewsScraper._get_google_news Scenario.google_week_old "AAPL" 8)) /\
      Checks.article_of
        Scenario.google_week_old x "AAPL" "Apple beats estimates"
        "https://news.example.com/apple"
        (NewsScraper._parse_news_date
           Scenario.google_week_old "Mon, 05 Feb 2024 08:00:00 GMT")
        "Google News") /\
  In Scenario.apple_article
     (Checks.gathered Scenario.yahoo_unreachable ["AAPL"] 7) /\
  In Scenario.apple_article [Scenario.apple_article] /\
  (exists table,
      NewsScraper.value
        (NewsScraper.get_news_for_tickers Scenario.yahoo_unreachable ["AAPL"] 7)
      = Ok table) /\
  (NewsScraper.summary Scenario.apple_article = "" /\
   NewsScraper.full_text Scenario.apple_article = "").
Proof.
  destruct (extraction_failure_keeps_article Scenario.yahoo_unreachable)
    as [Hfail [Hyahoo [_ [_ [Hgathered [Htable [Hexists [_ [Hempty _]]]]]]]]].
  destruct (extraction_failure_keeps_article MoreScenarios.marketwatch_relative)
    as [_ [_ [Hmarketwatch _]]].
  destruct (extraction_failure_keeps_article Scenario.google_week_old)
    as [_ [_ [_ [Hgoogle _]]]].
  assert (Hin : In Scenario.apple_article
                   (Checks.gathered Scenario.yahoo_unreachable ["AAPL"] 7)).
  { apply (Hgathered "AAPL" 7 Scenario.apple_article).
    - left. vm_compute. left. reflexivity.
    - simpl. left. reflexivity. }
  repeat apply conj.
  - apply (Hfail "https://finance.yahoo.com/news/apple-q1.html" RequestException).
    reflexivity.
  - apply (Hyahoo "AAPL" 7
             [ Soup.mkYahooItem
                 (Some (Soup.mkAnchor "" None (Some "/news/apple-q1.html")))
                 (Some "Apple reports first quarter results")
                 None (Some "2 hours ago") ]
             (Soup.mkYahooItem
                 (Some (Soup.mkAnchor "" None (Some "/news/apple-q1.html")))
                 (Some "Apple reports first quarter results")
                 None (Some "2 hours ago"))
             (Soup.mkAnchor "" None (Some "/news/apple-q1.html"))
             "/news/apple-q1.html").
    + reflexivity.
    + simpl. left. reflexivity.
    + reflexivity.
    + reflexivity.
    + discriminate.
    + vm_compute. discriminate.
  - apply (Hmarketwatch "MSFT" 7
             [ Soup.mkMarketWatchItem
                 (Some (Soup.mkAnchor "Microsoft beats estimates" None
                                      (Some "/story/msft-q2")))
                 None ]
             (Soup.mkMarketWatchItem
                 (Some (Soup.mkAnchor "Microsoft beats estimates" None
                                      (Some "/story/msft-q2")))
                 None)
             (Soup.mkAnchor "Microsoft beats estimates" None
                            (Some "/story/msft-q2"))
             "/story/msft-q2").
    + reflexivity.
    + simpl. left. reflexivity.
    + reflexivity.
    + reflexivity.
    + discriminate.
    + simpl. discriminate.
  - apply (Hgoogle "AAPL" 8
             [ Soup.mkRssItem (Some "Apple beats estimates")
                              (Some "https://news.example.com/apple")
                              (Some "Mon, 05 Feb 2024 08:00:00 GMT") ]
             (Soup.mkRssItem (Some "Apple beats estimates")
                             (Some "https://news.example.com/apple")
                             (Some "Mon, 05 Feb 2024 08:00:00 GMT"))).
    + reflexivity.
    + simpl. left. reflexivity.
    + reflexivity.
    + reflexivity.
    + reflexivity.
    + vm_compute. reflexivity.
  - exact Hin.
  - apply (proj2 (Htable ["AAPL"] 7 [Scenario.apple_article] Scenario.apple_article
                    ltac:(vm_compute; reflexivity) Hin)).
    vm_compute. reflexivity.
  - apply (Hexists ["AAPL"] 7).
    apply Forall_forall. intros x Hx. vm_compute in Hx.
    destruct Hx as [<- | []]. vm_compute. split; reflexivity.
  - apply (Hempty "AAPL" 7 Scenario.apple_article RequestException).
    + vm_compute. left. reflexivity.
    + reflexivity.
  - apply (Hempty "AAPL" 7 Scenario.apple_article RequestException).
    + vm_compute. left. reflexivity.
    + reflexivity.
Defined.
